(** * fit-ranks: the workout builder, the social feed, the leaderboard,
      the dashboard, the analytics page and the validation schemas

    A shallow embedding of the page logic of the application
    (src/pages/Workout.tsx, Social, Leaderboard, Dashboard, Analytics),
    of src/lib/validations.ts and of the tables of the SQL migration the
    pages read and write, followed by the properties checked against them.

    Conventions.
    - A JS [number] that only ever holds integers (counters, indices read
      from [parseInt], INTEGER columns) is a [Z]; one that may hold a
      decimal ([parseFloat], DECIMAL columns, a quotient) is a [Q].
    - A nullable column is an [option]; [x || d] on it is [default d x].
    - A JS array that can get holes by an out-of-range write is a list of
      [option]s, [None] being the hole (serialised as [null]).
    - A request to the data store is answered by the store; what the store
      answers beyond the constraints modelled here (transport failure, a
      range overflow, a policy) is an explicit [option string] argument, the
      error message when there is one.
    - Strings are [string]; on the ASCII range one character is one UTF-16
      unit, so [String.length] is the JS [length]. *)

From Stdlib Require Import ZArith QArith Qround Qminmax Lia Lqa Ascii.
From stdpp Require Import base option list sorting gmap sets strings.

Local Open Scope string_scope.
Local Open Scope list_scope.
Local Open Scope Z_scope.

(** ** JavaScript helpers *)

Module JS.

(** Strings are modelled on the ASCII range: a character is one UTF-16 code
    unit below 128, so that [String.length] is the [length] of JavaScript.
    White space removed by [String.prototype.trim] on that range: TAB, LF,
    VT, FF, CR and SPACE.  The other white space of [trim] (U+00A0, U+FEFF,
    the line and paragraph separators, the Unicode space separators) and
    the characters of more than one code unit lie outside the range. *)
Definition is_space (c : ascii) : bool :=
  let n := nat_of_ascii c in
  ((9 <=? n)%nat && (n <=? 13)%nat) || (n =? 32)%nat.

Fixpoint trim_start (s : string) : string :=
  match s with
  | EmptyString => EmptyString
  | String c r => if is_space c then trim_start r else s
  end.

(** [trim_end] keeps a character when it is not a space or when something
    is left after it. *)
Fixpoint trim_end (s : string) : string :=
  match s with
  | EmptyString => EmptyString
  | String c r =>
      match trim_end r with
      | EmptyString => if is_space c then EmptyString else String c EmptyString
      | r' => String c r'
      end
  end.

Definition trim (s : string) : string := trim_end (trim_start s).

(** Truthiness of a string: the empty string is falsy. *)
Definition truthy_string (s : string) : bool :=
  match s with EmptyString => false | _ => true end.

(** A JS array of [A] that may have holes. *)
Abbreviation array A := (list (option A)) (only parsing).

(** [a[i] = v]: in range the slot is overwritten; out of range the array
    grows to length [i + 1], the slots in between being holes. *)
Definition array_set {A} (a : array A) (i : nat) (v : A) : array A :=
  if decide (i < length a)%nat
  then <[i := Some v]> a
  else a ++ replicate (i - length a) None ++ [Some v].

(** [a.push(v)]. *)
Definition push {A} (a : array A) (v : A) : array A := a ++ [Some v].

(** [a.splice(i, 1)] for [i >= 0]: remove slot [i] when there is one. *)
Definition splice1 {A} (a : array A) (i : nat) : array A := delete i a.

(** [Math.round]: the nearest integer, halves towards plus infinity. *)
Definition Math_round (x : Q) : Z := Qfloor (x + (1 # 2))%Q.

End JS.

(** ** The tables of the migration the pages use

    Only the columns the pages read or write are kept.  Identifiers are
    UUIDs, held as strings as the generated client types do. *)

Module Schema.

Definition uuid : Type := string.

Record profile := {
  p_user_id : uuid;               (* UNIQUE *)
  p_username : string;
  p_fitness_level : option Z;     (* INTEGER DEFAULT 1 *)
  p_total_points : option Z;      (* INTEGER DEFAULT 0 *)
}.

Record workout := {
  w_id : uuid;
  w_user_id : uuid;
  w_name : string;
  w_duration_minutes : option Z;  (* INTEGER, nullable *)
}.

Record workout_exercise := {
  we_workout_id : uuid;
  we_exercise_id : uuid;
  we_sets : option Z;
  we_reps : JS.array Z;           (* INTEGER[] *)
  we_weight : JS.array Q;         (* DECIMAL(6,2)[] *)
}.

Record personal_best := {
  pb_user_id : uuid;
  pb_exercise_id : uuid;          (* UNIQUE(user_id, exercise_id) *)
  pb_best_weight : option Q;
  pb_best_reps : option Z;
  pb_best_distance_km : option Q;
  pb_best_duration_seconds : option Z;
}.

Record achievement := {
  a_id : uuid;
  a_name : string;
  a_points_reward : Z;
  a_requirement_type : string;
  a_requirement_value : Z;
}.

Record user_achievement := {
  ua_user_id : uuid;
  ua_achievement_id : uuid;       (* UNIQUE(user_id, achievement_id) *)
}.

Record workout_share := {
  s_id : uuid;
  s_user_id : uuid;
  s_likes_count : option Z;       (* INTEGER DEFAULT 0 *)
}.

Record workout_like := {
  l_share_id : uuid;
  l_user_id : uuid;               (* UNIQUE(share_id, user_id) *)
}.

Record Database := {
  profiles : list profile;
  workouts : list workout;
  workout_exercises : list workout_exercise;
  personal_bests : list personal_best;
  achievements : list achievement;
  user_achievements : list user_achievement;
  workout_shares : list workout_share;
  workout_likes : list workout_like;
}.

Definition with_workouts (f : list workout -> list workout) (d : Database) :=
  {| profiles := profiles d; workouts := f (workouts d);
     workout_exercises := workout_exercises d;
     personal_bests := personal_bests d; achievements := achievements d;
     user_achievements := user_achievements d;
     workout_shares := workout_shares d; workout_likes := workout_likes d |}.

Definition with_workout_exercises
    (f : list workout_exercise -> list workout_exercise) (d : Database) :=
  {| profiles := profiles d; workouts := workouts d;
     workout_exercises := f (workout_exercises d);
     personal_bests := personal_bests d; achievements := achievements d;
     user_achievements := user_achievements d;
     workout_shares := workout_shares d; workout_likes := workout_likes d |}.

Definition with_workout_likes
    (f : list workout_like -> list workout_like) (d : Database) :=
  {| profiles := profiles d; workouts := workouts d;
     workout_exercises := workout_exercises d;
     personal_bests := personal_bests d; achievements := achievements d;
     user_achievements := user_achievements d;
     workout_shares := workout_shares d; workout_likes := f (workout_likes d) |}.

Definition with_profiles (f : list profile -> list profile) (d : Database) :=
  {| profiles := f (profiles d); workouts := workouts d;
     workout_exercises := workout_exercises d;
     personal_bests := personal_bests d; achievements := achievements d;
     user_achievements := user_achievements d;
     workout_shares := workout_shares d; workout_likes := workout_likes d |}.

Definition with_user_achievements
    (f : list user_achievement -> list user_achievement) (d : Database) :=
  {| profiles := profiles d; workouts := workouts d;
     workout_exercises := workout_exercises d;
     personal_bests := personal_bests d; achievements := achievements d;
     user_achievements := f (user_achievements d);
     workout_shares := workout_shares d; workout_likes := workout_likes d |}.

(** The signed-in account, as [useAuth] gives it. *)
Record User := { user_id : uuid }.

End Schema.

(** ** The workout builder (pages/Workout.tsx) *)

Module WorkoutPage.
Import Schema.

Record Exercise := { id : string; name : string; category : string }.

Record WorkoutExercise := {
  exerciseId : string;
  exerciseName : string;
  sets : Z;
  reps : JS.array Z;
  weight : JS.array Q;
}.

Record Toast := { title : string; description : string; destructive : bool }.

(** The component state ([useState]) and the notifications shown. *)
Record State := {
  exercises : list Exercise;
  workoutName : string;
  workoutExercises : list WorkoutExercise;
  isLoading : bool;
  toasts : list Toast;
}.

Definition set_workoutExercises (l : list WorkoutExercise) (s : State) : State :=
  {| exercises := exercises s; workoutName := workoutName s;
     workoutExercises := l; isLoading := isLoading s; toasts := toasts s |}.

Definition set_workoutName (n : string) (s : State) : State :=
  {| exercises := exercises s; workoutName := n;
     workoutExercises := workoutExercises s; isLoading := isLoading s;
     toasts := toasts s |}.

Definition set_isLoading (b : bool) (s : State) : State :=
  {| exercises := exercises s; workoutName := workoutName s;
     workoutExercises := workoutExercises s; isLoading := b;
     toasts := toasts s |}.

Definition toast (t : Toast) (s : State) : State :=
  {| exercises := exercises s; workoutName := workoutName s;
     workoutExercises := workoutExercises s; isLoading := isLoading s;
     toasts := toasts s ++ [t] |}.

(** *** The editing handlers

    Each handler copies the array, edits one element and calls
    [setWorkoutExercises]; it is given here as the new array.  [None] is a
    handler that throws (a field read on [undefined]) before it reaches
    [setWorkoutExercises], which leaves the state as it was.  The source
    edits the element in place; the entries share nothing with each other
    ([addExercise] makes fresh arrays for each), so the edited copy is the
    same state. *)

Definition addExercise (wes : list WorkoutExercise) : list WorkoutExercise :=
  wes ++ [ {| exerciseId := EmptyString; exerciseName := EmptyString;
              sets := 1; reps := [Some 0]; weight := [Some 0%Q] |} ].

(** The [field] and [value] arguments of [updateExercise], typed.  The
    page calls it for [exerciseId] only.  For another field and an index
    past the end the source stores an object with that one field, which
    [WorkoutExercise] cannot hold: that call is [None] here too. *)
Inductive FieldUpdate :=
| Set_exerciseId (value : string)
| Set_exerciseName (value : string)
| Set_sets (value : Z)
| Set_reps (value : JS.array Z)
| Set_weight (value : JS.array Q).

Definition updateExercise (exs : list Exercise) (wes : list WorkoutExercise)
    (index : nat) (u : FieldUpdate) : option (list WorkoutExercise) :=
  ex ← wes !! index;
  let ex' :=
    match u with
    | Set_exerciseId value =>
        let selectedExercise :=
          List.find (fun e => String.eqb (id e) value) exs in
        {| exerciseId := value;
           exerciseName := default EmptyString (name <$> selectedExercise);
           sets := sets ex; reps := reps ex; weight := weight ex |}
    | Set_exerciseName value =>
        {| exerciseId := exerciseId ex; exerciseName := value;
           sets := sets ex; reps := reps ex; weight := weight ex |}
    | Set_sets value =>
        {| exerciseId := exerciseId ex; exerciseName := exerciseName ex;
           sets := value; reps := reps ex; weight := weight ex |}
    | Set_reps value =>
        {| exerciseId := exerciseId ex; exerciseName := exerciseName ex;
           sets := sets ex; reps := value; weight := weight ex |}
    | Set_weight value =>
        {| exerciseId := exerciseId ex; exerciseName := exerciseName ex;
           sets := sets ex; reps := reps ex; weight := value |}
    end in
  Some (<[index := ex']> wes).

(** The [field] and [value] arguments of [updateSet]: reps come from
    [parseInt], weights from [parseFloat]. *)
Inductive SetUpdate :=
| Set_rep (value : Z)
| Set_kg (value : Q).

Definition updateSet (wes : list WorkoutExercise) (exerciseIndex setIndex : nat)
    (u : SetUpdate) : option (list WorkoutExercise) :=
  ex ← wes !! exerciseIndex;
  let ex' :=
    match u with
    | Set_rep value =>
        {| exerciseId := exerciseId ex; exerciseName := exerciseName ex;
           sets := sets ex; reps := JS.array_set (reps ex) setIndex value;
           weight := weight ex |}
    | Set_kg value =>
        {| exerciseId := exerciseId ex; exerciseName := exerciseName ex;
           sets := sets ex; reps := reps ex;
           weight := JS.array_set (weight ex) setIndex value |}
    end in
  Some (<[exerciseIndex := ex']> wes).

Definition addSet (wes : list WorkoutExercise) (exerciseIndex : nat)
    : option (list WorkoutExercise) :=
  ex ← wes !! exerciseIndex;
  Some (<[exerciseIndex :=
            {| exerciseId := exerciseId ex; exerciseName := exerciseName ex;
               sets := sets ex + 1; reps := JS.push (reps ex) 0;
               weight := JS.push (weight ex) 0%Q |} ]> wes).

Definition removeSet (wes : list WorkoutExercise) (exerciseIndex setIndex : nat)
    : option (list WorkoutExercise) :=
  ex ← wes !! exerciseIndex;
  if decide (sets ex > 1)
  then Some (<[exerciseIndex :=
            {| exerciseId := exerciseId ex; exerciseName := exerciseName ex;
               sets := sets ex - 1; reps := JS.splice1 (reps ex) setIndex;
               weight := JS.splice1 (weight ex) setIndex |} ]> wes)
  else Some wes.

(** [workoutExercises.filter((_, i) => i !== index)]. *)
Definition removeExercise (wes : list WorkoutExercise) (index : nat)
    : list WorkoutExercise := delete index wes.

(** *** Saving

    [saveWorkout] issues two requests, one after the other: an insert of one
    row in [workouts], whose reply carries the generated id, and an insert
    of the selected exercises in [workout_exercises]. *)

Inductive Request :=
| InsertWorkout (row_user_id : uuid) (row_name : string)
    (row_duration_minutes : Z)
| InsertWorkoutExercises (rows : list workout_exercise).

(** What the store answers to the two requests: the id of the created row
    or an error message, and an error message if the second insert fails. *)
Record Replies := {
  workout_reply : uuid + string;
  exercises_reply : option string;
}.

(** The page, the store and the requests sent to it so far. *)
Record World := { page : State; db : Database; sent : list Request }.

Definition invalidToast : Toast :=
  {| title := "Invalid workout";
     description := "Please provide a workout name and add at least one exercise.";
     destructive := true |}.

Definition savedToast : Toast :=
  {| title := "Workout saved!";
     description := "Your workout has been successfully saved.";
     destructive := false |}.

Definition failedToast (message : string) : Toast :=
  {| title := "Failed to save workout";
     description := if JS.truthy_string message then message
                    else "An error occurred while saving your workout.";
     destructive := true |}.

Definition workoutExerciseData (workout_id : uuid) (wes : list WorkoutExercise)
    : list workout_exercise :=
  List.map
    (fun ex => {| we_workout_id := workout_id; we_exercise_id := exerciseId ex;
                  we_sets := Some (sets ex); we_reps := reps ex;
                  we_weight := weight ex |})
    (List.filter (fun ex => JS.truthy_string (exerciseId ex)) wes).

Definition saveWorkout (user : option User) (r : Replies) (w : World) : World :=
  let s := page w in
  let rejected :=
    {| page := toast invalidToast s; db := db w; sent := sent w |} in
  match user with
  | None => rejected
  | Some u =>
      if negb (JS.truthy_string (JS.trim (workoutName s)))
         || (length (workoutExercises s) =? 0)%nat
      then rejected
      else
        let loading := set_isLoading true s in
        let insert1 := InsertWorkout (user_id u) (workoutName s) 0 in
        match workout_reply r with
        | inr message =>
            {| page := set_isLoading false (toast (failedToast message) loading);
               db := db w; sent := sent w ++ [insert1] |}
        | inl workout_id =>
            let db1 :=
              with_workouts
                (fun l => l ++ [ {| w_id := workout_id; w_user_id := user_id u;
                                    w_name := workoutName s;
                                    w_duration_minutes := Some 0 |} ])
                (db w) in
            let rows := workoutExerciseData workout_id (workoutExercises s) in
            let insert2 := InsertWorkoutExercises rows in
            match exercises_reply r with
            | Some message =>
                {| page := set_isLoading false
                             (toast (failedToast message) loading);
                   db := db1; sent := sent w ++ [insert1; insert2] |}
            | None =>
                {| page := set_isLoading false
                             (set_workoutExercises []
                                (set_workoutName EmptyString
                                   (toast savedToast loading)));
                   db := with_workout_exercises (fun l => l ++ rows) db1;
                   sent := sent w ++ [insert1; insert2] |}
            end
        end
  end.

(** *** The events of the rendered page

    The handlers are closures of the component: they run only from the
    controls the page renders, with the indices the page renders them for. *)

Inductive Event :=
| ChangeName (value : string)
| ClickAddExercise
| SelectExercise (exerciseIndex : nat) (value : string)
| ClickRemoveExercise (exerciseIndex : nat)
| ChangeReps (exerciseIndex setIndex : nat) (value : Z)
| ChangeWeight (exerciseIndex setIndex : nat) (value : Q)
| ClickRemoveSet (exerciseIndex setIndex : nat)
| ClickAddSet (exerciseIndex : nat)
| ClickSave (user : option User) (r : Replies).

(** The set rows of card [exerciseIndex] are rendered when an exercise is
    selected, one per index below [sets]. *)
Definition set_row_rendered (s : State) (exerciseIndex setIndex : nat) : bool :=
  match workoutExercises s !! exerciseIndex with
  | Some ex => JS.truthy_string (exerciseId ex) && (Z.of_nat setIndex <? sets ex)
  | None => false
  end.

Definition rendered (s : State) (e : Event) : bool :=
  match e with
  | ChangeName _ => true
  | ClickAddExercise => true
  | SelectExercise i value =>
      (i <? length (workoutExercises s))%nat
      && existsb (fun x => String.eqb (id x) value) (exercises s)
  | ClickRemoveExercise i => (i <? length (workoutExercises s))%nat
  | ChangeReps i j _ => set_row_rendered s i j
  | ChangeWeight i j _ => set_row_rendered s i j
  | ClickRemoveSet i j =>
      set_row_rendered s i j
      && match workoutExercises s !! i with
         | Some ex => negb (sets ex =? 1)   (* disabled={exercise.sets === 1} *)
         | None => false
         end
  | ClickAddSet i =>
      match workoutExercises s !! i with
      | Some ex => JS.truthy_string (exerciseId ex)
      | None => false
      end
  | ClickSave _ _ =>
      (JS.truthy_string (JS.trim (workoutName s))
       || (0 <? length (workoutExercises s))%nat)
      && negb (isLoading s)
  end.

(** A handler that throws leaves the state as it was. *)
Definition edit (o : option (list WorkoutExercise)) (w : World) : World :=
  match o with
  | Some l => {| page := set_workoutExercises l (page w); db := db w;
                 sent := sent w |}
  | None => w
  end.

Definition handle (w : World) (e : Event) : World :=
  let s := page w in
  let wes := workoutExercises s in
  match e with
  | ChangeName value =>
      {| page := set_workoutName value s; db := db w; sent := sent w |}
  | ClickAddExercise => edit (Some (addExercise wes)) w
  | SelectExercise i value =>
      edit (updateExercise (exercises s) wes i (Set_exerciseId value)) w
  | ClickRemoveExercise i => edit (Some (removeExercise wes i)) w
  | ChangeReps i j value => edit (updateSet wes i j (Set_rep value)) w
  | ChangeWeight i j value => edit (updateSet wes i j (Set_kg value)) w
  | ClickRemoveSet i j => edit (removeSet wes i j) w
  | ClickAddSet i => edit (addSet wes i) w
  | ClickSave user r => saveWorkout user r w
  end.

(** The page as mounted: the fetched exercise list, an empty form. *)
Definition mounted (exs : list Exercise) (d : Database) : World :=
  {| page := {| exercises := exs; workoutName := EmptyString;
                workoutExercises := []; isLoading := false; toasts := [] |};
     db := d; sent := [] |}.

(** The worlds the page can be in: any run of rendered events. *)
Inductive reachable (exs : list Exercise) (d : Database) : World -> Prop :=
| reach_mounted : reachable exs d (mounted exs d)
| reach_event w e :
    reachable exs d w -> rendered (page w) e = true ->
    reachable exs d (handle w e).

(** The array invariant of one builder entry and of one submitted row. *)
Definition aligned (ex : WorkoutExercise) : Prop :=
  Z.of_nat (length (reps ex)) = sets ex /\
  Z.of_nat (length (weight ex)) = sets ex.

Definition row_aligned (row : workout_exercise) : Prop :=
  exists n, we_sets row = Some n /\
    Z.of_nat (length (we_reps row)) = n /\
    Z.of_nat (length (we_weight row)) = n.

Definition request_aligned (q : Request) : Prop :=
  match q with
  | InsertWorkout _ _ _ => True
  | InsertWorkoutExercises rows => Forall row_aligned rows
  end.

(** *** Personal bests, in words

    The greatest weight among the values [W] of a recorded exercise, and
    the [best_weight] the store holds for a (user, exercise) pair. *)

Definition max_weight (W : JS.array Q) : Q :=
  List.fold_right (fun v m => match v with Some q => Qmax q m | None => m end)
    0%Q W.

Definition stored_best_weight (uid eid : uuid) (d : Database) : list (option Q) :=
  List.map pb_best_weight
    (List.filter
       (fun b => String.eqb (pb_user_id b) uid && String.eqb (pb_exercise_id b) eid)
       (personal_bests d)).

(** The weights recorded in [workout_exercises] for an exercise. *)
Definition recorded_weights (eid : uuid) (d : Database) : list (JS.array Q) :=
  List.map we_weight
    (List.filter (fun r => String.eqb (we_exercise_id r) eid)
       (workout_exercises d)).

(** A save that went through shows the success notification. *)
Definition saved (w w' : World) : Prop :=
  toasts (page w') = toasts (page w) ++ [savedToast].

End WorkoutPage.

(** ** The validation schemas (lib/validations.ts)

    [workoutSchema] is a zod object schema.  zod runs the checks of a string
    in the order they are chained, [trim] replacing the value the later
    checks see, and collects one issue per failed check, each with the path
    of its field.  An [optional] field that is absent passes.  A [number]
    must not be NaN; the infinities are numbers and meet the range checks. *)

Module Validations.

Inductive number := Finite (q : Q) | NaN | Infinity | NegInfinity.

(** [x < y] and [x > y] against a finite bound. *)
Definition lt_bound (x : number) (b : Q) : bool :=
  match x with
  | Finite q => negb (Qle_bool b q)
  | NegInfinity => true
  | NaN | Infinity => false
  end.

Definition gt_bound (x : number) (b : Q) : bool :=
  match x with
  | Finite q => negb (Qle_bool q b)
  | Infinity => true
  | NaN | NegInfinity => false
  end.

Record Issue := { path : string; message : string }.

(** The object handed to the schema: each key may be absent. *)
Record WorkoutInput := {
  name : option string;
  notes : option string;
  duration_minutes : option number;
}.

Definition issue_if (failed : bool) (p m : string) : list Issue :=
  if failed then [ {| path := p; message := m |} ] else [].

(** [z.string().trim().min(1, ..).max(100, ..)] on key [name]. *)
Definition check_name (v : option string) : list Issue :=
  match v with
  | None => [ {| path := "name"; message := "Required" |} ]
  | Some s =>
      let t := JS.trim s in
      issue_if (String.length t <? 1)%nat "name" "Workout name is required"
      ++ issue_if (100 <? String.length t)%nat "name"
           "Workout name must be less than 100 characters"
  end.

(** [z.string().max(500, ..).optional()] on key [notes]. *)
Definition check_notes (v : option string) : list Issue :=
  match v with
  | None => []
  | Some s =>
      issue_if (500 <? String.length s)%nat "notes"
        "Notes must be less than 500 characters"
  end.

(** [z.number().min(1, ..).max(600, ..).optional()] on key
    [duration_minutes]. *)
Definition check_duration_minutes (v : option number) : list Issue :=
  match v with
  | None => []
  | Some NaN =>
      [ {| path := "duration_minutes";
           message := "Expected number, received nan" |} ]
  | Some x =>
      issue_if (lt_bound x 1) "duration_minutes"
        "Duration must be at least 1 minute"
      ++ issue_if (gt_bound x 600) "duration_minutes"
           "Duration must be less than 600 minutes"
  end.

(** The issues of [workoutSchema.safeParse(input)], in key order; the parse
    succeeds when there is none. *)
Definition workoutSchema (i : WorkoutInput) : list Issue :=
  check_name (name i) ++ check_notes (notes i)
  ++ check_duration_minutes (duration_minutes i).

Definition accepts (i : WorkoutInput) : bool :=
  match workoutSchema i with [] => true | _ => false end.

(** The bounds in words: the trimmed name has 1 to 100 characters, the
    notes at most 500, the duration is a number from 1 to 600. *)
Definition name_in_bounds (i : WorkoutInput) : Prop :=
  exists s, name i = Some s /\
    (1 <= String.length (JS.trim s) <= 100)%nat.

Definition notes_in_bounds (i : WorkoutInput) : Prop :=
  forall s, notes i = Some s -> (String.length s <= 500)%nat.

Definition duration_in_bounds (i : WorkoutInput) : Prop :=
  forall x, duration_minutes i = Some x ->
    exists q, x = Finite q /\ (1 <= q)%Q /\ (q <= 600)%Q.

(** A string of [n] copies of [c]. *)
Fixpoint repeat_char (c : ascii) (n : nat) : string :=
  match n with
  | O => EmptyString
  | S k => String c (repeat_char c k)
  end.

End Validations.

(** ** The social feed (Social page in pages/Workout.tsx) *)

Module Social.

Record SharedWorkout := {
  id : string;
  user_id : string;
  likes_count : Z;
}.

Record Toast := { title : string; description : string; destructive : bool }.

Record State := {
  sharedWorkouts : list SharedWorkout;
  likedWorkouts : gset string;
  toasts : list Toast;
}.

Inductive Request :=
| InsertLike (share_id user_id : Schema.uuid)
| DeleteLike (share_id user_id : Schema.uuid).

Record World := { page : State; db : Schema.Database; sent : list Request }.

(** *** The store's side of the two requests *)

Definition is_like (share_id uid : Schema.uuid) (r : Schema.workout_like) : bool :=
  String.eqb (Schema.l_share_id r) share_id && String.eqb (Schema.l_user_id r) uid.

Definition has_like (share_id uid : Schema.uuid) (d : Schema.Database) : bool :=
  existsb (is_like share_id uid) (Schema.workout_likes d).

Definition has_share (share_id : Schema.uuid) (d : Schema.Database) : bool :=
  existsb (fun s => String.eqb (Schema.s_id s) share_id) (Schema.workout_shares d).

(** INSERT INTO workout_likes: [fault] is an error of the transport;
    otherwise UNIQUE(share_id, user_id) and the foreign key on share_id
    decide. *)
Definition insert_like (fault : option string) (share_id uid : Schema.uuid)
    (d : Schema.Database) : Schema.Database + string :=
  match fault with
  | Some m => inr m
  | None =>
      if has_like share_id uid d
      then inr "duplicate key value violates unique constraint"
      else if has_share share_id d
      then inl (Schema.with_workout_likes
                  (fun l => l ++ [ {| Schema.l_share_id := share_id;
                                      Schema.l_user_id := uid |} ]) d)
      else inr "insert or update violates foreign key constraint"
  end.

(** DELETE FROM workout_likes WHERE share_id = .. AND user_id = ..: no
    matching row is not an error. *)
Definition delete_like (fault : option string) (share_id uid : Schema.uuid)
    (d : Schema.Database) : Schema.Database + string :=
  match fault with
  | Some m => inr m
  | None =>
      inl (Schema.with_workout_likes
             (List.filter (fun r => negb (is_like share_id uid r))) d)
  end.

(** *** The handler *)

Definition errorToast (m : string) : Toast :=
  {| title := "Error"; description := m; destructive := true |}.

Definition bump (shareId : string) (delta : Z) (l : list SharedWorkout)
    : list SharedWorkout :=
  List.map
    (fun workout =>
       if String.eqb (id workout) shareId
       then {| id := id workout; user_id := user_id workout;
               likes_count := likes_count workout + delta |}
       else workout) l.

Definition handleLike (user : option Schema.User) (fault : option string)
    (shareId : string) (w : World) : World :=
  match user with
  | None => w
  | Some u =>
      let s := page w in
      let uid := Schema.user_id u in
      let isLiked := bool_decide (shareId ∈ likedWorkouts s) in
      if isLiked then
        match delete_like fault shareId uid (db w) with
        | inr m =>
            {| page := {| sharedWorkouts := sharedWorkouts s;
                          likedWorkouts := likedWorkouts s;
                          toasts := toasts s ++ [errorToast m] |};
               db := db w; sent := sent w ++ [DeleteLike shareId uid] |}
        | inl d' =>
            {| page := {| sharedWorkouts := bump shareId (-1) (sharedWorkouts s);
                          likedWorkouts := likedWorkouts s ∖ {[ shareId ]};
                          toasts := toasts s |};
               db := d'; sent := sent w ++ [DeleteLike shareId uid] |}
        end
      else
        match insert_like fault shareId uid (db w) with
        | inr m =>
            {| page := {| sharedWorkouts := sharedWorkouts s;
                          likedWorkouts := likedWorkouts s;
                          toasts := toasts s ++ [errorToast m] |};
               db := db w; sent := sent w ++ [InsertLike shareId uid] |}
        | inl d' =>
            {| page := {| sharedWorkouts := bump shareId 1 (sharedWorkouts s);
                          likedWorkouts := likedWorkouts s ∪ {[ shareId ]};
                          toasts := toasts s |};
               db := d'; sent := sent w ++ [InsertLike shareId uid] |}
        end
  end.

(** [n] clicks on the heart of one share, each answered without a transport
    error. *)
Definition clicks (u : Schema.User) (shareId : string) (n : nat) (w : World)
    : World :=
  Nat.iter n (handleLike (Some u) None shareId) w.

(** The count the page shows for a share, and the count the store holds. *)
Definition shown_counts (shareId : string) (w : World) : list Z :=
  List.map likes_count
    (List.filter (fun x => String.eqb (id x) shareId) (sharedWorkouts (page w))).

Definition stored_counts (shareId : string) (d : Schema.Database)
    : list (option Z) :=
  List.map Schema.s_likes_count
    (List.filter (fun s => String.eqb (Schema.s_id s) shareId)
       (Schema.workout_shares d)).

End Social.

(** ** The leaderboard (Leaderboard page in pages/Workout.tsx) *)

Module Leaderboard.

(** ORDER BY total_points DESC: in descending order NULL comes first. *)
Definition points_ge (a b : option Z) : bool :=
  match a, b with
  | None, _ => true
  | Some _, None => false
  | Some x, Some y => y <=? x
  end.

Definition ahead_or_level (a b : Schema.profile) : Prop :=
  points_ge (Schema.p_total_points a) (Schema.p_total_points b) = true.

(** What the store may answer to
    [from('profiles').order('total_points', desc).limit(50)]: the first 50
    rows of some descending arrangement of the table.  The order of rows
    with equal points is the store's choice. *)
Definition query_result (tbl users : list Schema.profile) : Prop :=
  exists sorted, Permutation sorted tbl /\
    StronglySorted ahead_or_level sorted /\ users = take 50 sorted.

(** One such answer, ties kept in table order. *)
Fixpoint insert_desc (p : Schema.profile) (l : list Schema.profile)
    : list Schema.profile :=
  match l with
  | [] => [p]
  | q :: r =>
      if points_ge (Schema.p_total_points p) (Schema.p_total_points q)
      then p :: q :: r
      else q :: insert_desc p r
  end.

Definition order_desc (tbl : list Schema.profile) : list Schema.profile :=
  List.fold_right insert_desc [] tbl.

Definition top50 (tbl : list Schema.profile) : list Schema.profile :=
  take 50 (order_desc tbl).

Record LeaderboardUser := {
  profile : Schema.profile;
  totalWorkouts : Z;
}.

Record State := {
  topUsers : list LeaderboardUser;
  userRank : option Z;
  loading : bool;
}.

(** [Array.prototype.findIndex]: -1 when no element matches. *)
Fixpoint findIndex {A} (f : A -> bool) (l : list A) : Z :=
  match l with
  | [] => -1
  | x :: r =>
      if f x then 0
      else let i := findIndex f r in if i <? 0 then -1 else i + 1
  end.

(** [userIndex >= 0 ? userIndex + 1 : null]. *)
Definition rank_of (uid : Schema.uuid) (l : list LeaderboardUser) : option Z :=
  let userIndex :=
    findIndex (fun u => String.eqb (Schema.p_user_id (profile u)) uid) l in
  if 0 <=? userIndex then Some (userIndex + 1) else None.

(** [reply] is the rows of the query or [None] on an error; [counts] is the
    reply to the workout count asked for each row ([count || 0]). *)
Definition fetchLeaderboardData (user : option Schema.User)
    (reply : option (list Schema.profile)) (counts : Schema.uuid -> option Z)
    (s : State) : State :=
  match reply with
  | None => {| topUsers := topUsers s; userRank := userRank s; loading := false |}
  | Some users =>
      let usersWithWorkouts :=
        List.map (fun p => {| profile := p;
                              totalWorkouts :=
                                default 0 (counts (Schema.p_user_id p)) |})
          users in
      {| topUsers := usersWithWorkouts;
         userRank :=
           match user with
           | Some u => rank_of (Schema.user_id u) usersWithWorkouts
           | None => userRank s
           end;
         loading := false |}
  end.

(** The rank the page shows to [uid] when the store answers [users]. *)
Definition shown_rank (uid : Schema.uuid) (users : list Schema.profile)
    : option Z :=
  userRank
    (fetchLeaderboardData (Some {| Schema.user_id := uid |}) (Some users)
       (fun _ => None)
       {| topUsers := []; userRank := None; loading := true |}).

(** Whether [users] has a row of [uid]. *)
Definition has_row (uid : Schema.uuid) (users : list Schema.profile) : bool :=
  existsb (fun p => String.eqb (Schema.p_user_id p) uid) users.

(** The number of rows of [users] in front of the row of [uid]. *)
Fixpoint rows_ahead (uid : Schema.uuid) (users : list Schema.profile) : nat :=
  match users with
  | [] => 0
  | p :: r =>
      if String.eqb (Schema.p_user_id p) uid then 0 else S (rows_ahead uid r)
  end.

End Leaderboard.

(** ** The dashboard (level progress card) *)

Module Dashboard.

Record Profile := {
  username : string;
  fitness_level : option Z;
  total_points : option Z;
}.

(** [profile?.total_points || 0]: no profile, a null column and 0 all give
    0. *)
Definition points (profile : option Profile) : Z :=
  match profile with
  | Some p =>
      match total_points p with
      | Some v => if v =? 0 then 0 else v
      | None => 0
      end
  | None => 0
  end.

(** [(profile?.total_points || 0) % 1000]; the JS [%] truncates, as
    [Z.rem]. *)
Definition levelPoints (profile : option Profile) : Z :=
  Z.rem (points profile) 1000.

(** The width of the bar, in percent:
    [Math.min(((profile?.total_points || 0) % 1000) / 10, 100)]. *)
Definition barWidth (profile : option Profile) : Q :=
  Qmin (inject_Z (levelPoints profile) / 10) 100.

(** [1000 - ((profile?.total_points || 0) % 1000)], shown as
    "N XP to next level". *)
Definition xpToNext (profile : option Profile) : Z :=
  1000 - Z.rem (points profile) 1000.

End Dashboard.

(** ** The analytics page *)

Module Analytics.

Record AnalyticsData := {
  totalWorkouts : Z;
  totalExercises : Z;
  averageWorkoutTime : Z;
  personalBests : Z;
  currentStreak : Z;
  longestStreak : Z;
}.

(** A row of [select('duration_minutes')]. *)
Record Row := { duration_minutes : option Z }.

(** The store's answer to
    [from('workouts').select('duration_minutes').eq('user_id', uid)
       .not('duration_minutes', 'is', null)]. *)
Definition select_durations (uid : Schema.uuid) (d : Schema.Database)
    : list Row :=
  List.map (fun w => {| duration_minutes := Schema.w_duration_minutes w |})
    (List.filter
       (fun w => String.eqb (Schema.w_user_id w) uid
                 && bool_decide (is_Some (Schema.w_duration_minutes w)))
       (Schema.workouts d)).

(** [workouts.reduce((sum, w) => sum + (w.duration_minutes || 0), 0)]. *)
Definition total (workouts : list Row) : Z :=
  List.fold_left (fun sum w => sum + default 0 (duration_minutes w)) workouts 0.

(** [avgTime]; [workouts] is [None] when the query gave no data.  The
    quotient is kept exact: the double the page computes rounds to the same
    minute for any total below 2^50. *)
Definition avgTime (workouts : option (list Row)) : Q :=
  match workouts with
  | Some l =>
      if (0 <? length l)%nat
      then (inject_Z (total l) / inject_Z (Z.of_nat (length l)))%Q
      else 0%Q
  | None => 0%Q
  end.

(** The replies of the four queries of [fetchAnalyticsData]. *)
Record Replies := {
  workouts_count : option Z;
  workout_exercises_rows : option (list Schema.uuid);
  personal_bests_count : option Z;
  workouts_rows : option (list Row);
}.

Definition fetchAnalyticsData (user : option Schema.User) (r : Replies)
    (s : AnalyticsData) : AnalyticsData :=
  match user with
  | None => s
  | Some _ =>
      {| totalWorkouts := default 0 (workouts_count r);
         totalExercises :=
           default 0 ((fun l => Z.of_nat (length l)) <$> workout_exercises_rows r);
         averageWorkoutTime := JS.Math_round (avgTime (workouts_rows r));
         personalBests := default 0 (personal_bests_count r);
         currentStreak := 7;
         longestStreak := 12 |}
  end.

(** The aggregate shown to [uid] over the store [d], the other three
    queries answering anything. *)
Definition shown_average (uid : Schema.uuid) (d : Schema.Database)
    (others : Replies) (s : AnalyticsData) : Z :=
  averageWorkoutTime
    (fetchAnalyticsData (Some {| Schema.user_id := uid |})
       {| workouts_count := workouts_count others;
          workout_exercises_rows := workout_exercises_rows others;
          personal_bests_count := personal_bests_count others;
          workouts_rows := Some (select_durations uid d) |} s).

(** In words: the durations of the user's workouts that have one, and
    their arithmetic mean. *)
Definition durations (uid : Schema.uuid) (d : Schema.Database) : list Z :=
  omap (fun w => if String.eqb (Schema.w_user_id w) uid
                 then Schema.w_duration_minutes w else None)
    (Schema.workouts d).

Definition sum_list (l : list Z) : Z := List.fold_right Z.add 0 l.

Definition mean (l : list Z) : Q :=
  (inject_Z (sum_list l) / inject_Z (Z.of_nat (length l)))%Q.

End Analytics.

(** ** Achievements

    The migration declares [achievements] and [user_achievements] with
    UNIQUE(user_id, achievement_id); no page of the sources grants an
    achievement. *)

Module Achievements.

Definition is_grant (uid aid : Schema.uuid) (r : Schema.user_achievement) : bool :=
  String.eqb (Schema.ua_user_id r) uid && String.eqb (Schema.ua_achievement_id r) aid.

Definition has_user_achievement (uid aid : Schema.uuid) (d : Schema.Database)
    : bool :=
  existsb (is_grant uid aid) (Schema.user_achievements d).

(** INSERT INTO user_achievements: UNIQUE(user_id, achievement_id) refuses
    a second row for the pair. *)
Definition insert_user_achievement (uid aid : Schema.uuid)
    (d : Schema.Database) : Schema.Database + string :=
  if has_user_achievement uid aid d
  then inr "duplicate key value violates unique constraint"
  else inl (Schema.with_user_achievements
              (fun l => l ++ [ {| Schema.ua_user_id := uid;
                                  Schema.ua_achievement_id := aid |} ]) d).

(** Modelled from the spec: the user's current aggregate for a requirement
    type, which no source file computes.  "workouts_count" is the number of
    workout rows of the user; the other types (the spec leaves the streak
    open) are the parameter [other]. *)
Definition aggregate (other : string -> Schema.uuid -> Schema.Database -> Z)
    (requirement_type : string) (uid : Schema.uuid) (d : Schema.Database) : Z :=
  if String.eqb requirement_type "workouts_count"
  then Z.of_nat
         (length (List.filter (fun w => String.eqb (Schema.w_user_id w) uid)
                    (Schema.workouts d)))
  else other requirement_type uid d.

(** Modelled from the spec: adding [points_reward] to the user's
    [total_points], the grant's second write, absent from the sources. *)
Definition add_points (uid : Schema.uuid) (reward : Z) (d : Schema.Database)
    : Schema.Database :=
  Schema.with_profiles
    (List.map
       (fun p =>
          if String.eqb (Schema.p_user_id p) uid
          then {| Schema.p_user_id := Schema.p_user_id p;
                  Schema.p_username := Schema.p_username p;
                  Schema.p_fitness_level := Schema.p_fitness_level p;
                  Schema.p_total_points :=
                    Some (default 0 (Schema.p_total_points p) + reward) |}
          else p)) d.

(** Modelled from the spec: the grant, "grant one and add points_reward to
    total_points", absent from the sources: the row is sent to the store,
    and the points are added when the store took the row. *)
Definition grant (a : Schema.achievement) (uid : Schema.uuid)
    (d : Schema.Database) : Schema.Database :=
  match insert_user_achievement uid (Schema.a_id a) d with
  | inl d' => add_points uid (Schema.a_points_reward a) d'
  | inr _ => d
  end.

(** Modelled from the spec: the achievement unlock, absent from the
    sources.  "If the threshold is met and no user_achievement row exists
    yet, grant one and add points_reward to total_points." *)
Definition evaluate_achievement
    (other : string -> Schema.uuid -> Schema.Database -> Z)
    (a : Schema.achievement) (uid : Schema.uuid) (d : Schema.Database)
    : Schema.Database :=
  if (Schema.a_requirement_value a
        <=? aggregate other (Schema.a_requirement_type a) uid d)
     && negb (has_user_achievement uid (Schema.a_id a) d)
  then grant a uid d
  else d.

(** The rows of [user_achievements] for one (user, achievement) pair, and
    the points of one user. *)
Definition grants (uid aid : Schema.uuid) (d : Schema.Database) : nat :=
  length (List.filter (is_grant uid aid) (Schema.user_achievements d)).

Definition points_of (uid : Schema.uuid) (d : Schema.Database)
    : list (option Z) :=
  List.map Schema.p_total_points
    (List.filter (fun p => String.eqb (Schema.p_user_id p) uid)
       (Schema.profiles d)).

(** UNIQUE(user_id, achievement_id) as a property of the table. *)
Definition unique_grants (d : Schema.Database) : Prop :=
  forall uid aid, (grants uid aid d <= 1)%nat.

End Achievements.

(** ** Sample data used by the examples below *)

Module Sample.

Definition empty_db : Schema.Database :=
  {| Schema.profiles := []; Schema.workouts := [];
     Schema.workout_exercises := []; Schema.personal_bests := [];
     Schema.achievements := []; Schema.user_achievements := [];
     Schema.workout_shares := []; Schema.workout_likes := [] |}.

Definition alice : Schema.User := {| Schema.user_id := "alice" |}.

Definition catalogue : list WorkoutPage.Exercise :=
  [ {| WorkoutPage.id := "bench"; WorkoutPage.name := "Bench Press";
       WorkoutPage.category := "strength" |} ].

(** The store answers both inserts of a save. *)
Definition both_ok : WorkoutPage.Replies :=
  {| WorkoutPage.workout_reply := inl "w1";
     WorkoutPage.exercises_reply := None |}.

(** A form filled in through the page: a name, one exercise selected, a
    second set added, 100 kg typed in the second set. *)
Definition filled (d : Schema.Database) (workout_name : string)
    : WorkoutPage.World :=
  WorkoutPage.handle
    (WorkoutPage.handle
       (WorkoutPage.handle
          (WorkoutPage.handle
             (WorkoutPage.handle (WorkoutPage.mounted catalogue d)
                (WorkoutPage.ChangeName workout_name))
             WorkoutPage.ClickAddExercise)
          (WorkoutPage.SelectExercise 0 "bench"))
       (WorkoutPage.ClickAddSet 0))
    (WorkoutPage.ChangeWeight 0 1 100%Q).

Definition push_day_saved : WorkoutPage.World :=
  WorkoutPage.handle (filled empty_db "Push Day")
    (WorkoutPage.ClickSave (Some alice) both_ok).

(** A store where alice already holds a 50 kg best on the bench press. *)
Definition db_with_best : Schema.Database :=
  {| Schema.profiles := []; Schema.workouts := [];
     Schema.workout_exercises := [];
     Schema.personal_bests :=
       [ {| Schema.pb_user_id := "alice"; Schema.pb_exercise_id := "bench";
            Schema.pb_best_weight := Some 50%Q; Schema.pb_best_reps := Some 5;
            Schema.pb_best_distance_km := None;
            Schema.pb_best_duration_seconds := None |} ];
     Schema.achievements := []; Schema.user_achievements := [];
     Schema.workout_shares := []; Schema.workout_likes := [] |}.

(** A feed of one share that shows and stores 3 likes, none by alice. *)
Definition db_with_share : Schema.Database :=
  {| Schema.profiles := []; Schema.workouts := [];
     Schema.workout_exercises := []; Schema.personal_bests := [];
     Schema.achievements := []; Schema.user_achievements := [];
     Schema.workout_shares :=
       [ {| Schema.s_id := "s1"; Schema.s_user_id := "bob";
            Schema.s_likes_count := Some 3 |} ];
     Schema.workout_likes := [] |}.

Definition feed : Social.World :=
  {| Social.page :=
       {| Social.sharedWorkouts :=
            [ {| Social.id := "s1"; Social.user_id := "bob";
                 Social.likes_count := 3 |} ];
          Social.likedWorkouts := ∅; Social.toasts := [] |};
     Social.db := db_with_share; Social.sent := [] |}.

(** Two profiles level on 100 points, and a third behind them. *)
Definition member (uid : string) (points : Z) : Schema.profile :=
  {| Schema.p_user_id := uid; Schema.p_username := uid;
     Schema.p_fitness_level := Some 1; Schema.p_total_points := Some points |}.

Definition level_pair : list Schema.profile :=
  [ member "ann" 100; member "bob" 100 ].

Definition podium : list Schema.profile :=
  [ member "cat" 40; member "ann" 100; member "bob" 70 ].

(** 51 profiles with 1 to 51 points; the one with 1 point has the shortest
    id. *)
Definition crowd : list Schema.profile :=
  List.map (fun n => member (Validations.repeat_char "u"%char n) (Z.of_nat n))
    (seq 1 51).

(** alice has workouts of 1 and 2 minutes and one without a duration; bob
    has one of 100 minutes. *)
Definition session (wid uid : string) (minutes : option Z) : Schema.workout :=
  {| Schema.w_id := wid; Schema.w_user_id := uid; Schema.w_name := "Session";
     Schema.w_duration_minutes := minutes |}.

Definition db_with_sessions : Schema.Database :=
  {| Schema.profiles := [ member "alice" 0 ];
     Schema.workouts :=
       [ session "w1" "alice" (Some 1); session "w2" "bob" (Some 100);
         session "w3" "alice" None; session "w4" "alice" (Some 2) ];
     Schema.workout_exercises := []; Schema.personal_bests := [];
     Schema.achievements := []; Schema.user_achievements := [];
     Schema.workout_shares := []; Schema.workout_likes := [] |}.

Definition no_replies : Analytics.Replies :=
  {| Analytics.workouts_count := None;
     Analytics.workout_exercises_rows := None;
     Analytics.personal_bests_count := None;
     Analytics.workouts_rows := None |}.

Definition blank_analytics : Analytics.AnalyticsData :=
  {| Analytics.totalWorkouts := 0; Analytics.totalExercises := 0;
     Analytics.averageWorkoutTime := 0; Analytics.personalBests := 0;
     Analytics.currentStreak := 7; Analytics.longestStreak := 12 |}.

(** The first achievement the migration seeds. *)
Definition first_workout : Schema.achievement :=
  {| Schema.a_id := "a1"; Schema.a_name := "First Workout";
     Schema.a_points_reward := 100;
     Schema.a_requirement_type := "workouts_count";
     Schema.a_requirement_value := 1 |}.

Definition no_other_aggregate : string -> Schema.uuid -> Schema.Database -> Z :=
  fun _ _ _ => 0.

(** alice after her first workout: one workout row, no grant, 0 points. *)
Definition db_first_workout : Schema.Database :=
  {| Schema.profiles := [ member "alice" 0; member "bob" 70 ];
     Schema.workouts := [ session "w1" "alice" (Some 0) ];
     Schema.workout_exercises := []; Schema.personal_bests := [];
     Schema.achievements := [ first_workout ]; Schema.user_achievements := [];
     Schema.workout_shares := []; Schema.workout_likes := [] |}.

(** A workout name of 101 characters. *)
Definition long_name : string := Validations.repeat_char "a"%char 101.

End Sample.

(** ** Further invariants of the workout builder *)

Module Builder.
Import Schema WorkoutPage.

(** An entry with at least one set and a value in every slot of both
    arrays, and the same for a submitted row. *)
Definition filled_in (ex : WorkoutExercise) : Prop :=
  1 <= sets ex /\ Forall is_Some (reps ex) /\ Forall is_Some (weight ex).

Definition row_filled_in (row : workout_exercise) : Prop :=
  (exists n, we_sets row = Some n /\ 1 <= n) /\
  Forall is_Some (we_reps row) /\ Forall is_Some (we_weight row).

(** An entry with no exercise chosen yet, or with the id and the name of an
    exercise of the fetched list. *)
Definition selected_from (exs : list Exercise) (ex : WorkoutExercise) : Prop :=
  exerciseId ex = EmptyString \/
  exists e, In e exs /\ id e = exerciseId ex /\ name e = exerciseName ex.

Definition row_selected_from (exs : list Exercise) (row : workout_exercise)
    : Prop :=
  we_exercise_id row <> EmptyString /\
  exists e, In e exs /\ id e = we_exercise_id row.

(** Everything the builder keeps about one entry. *)
Definition entry_ok (exs : list Exercise) (ex : WorkoutExercise) : Prop :=
  aligned ex /\ filled_in ex /\ selected_from exs ex.

Definition row_ok (exs : list Exercise) (row : workout_exercise) : Prop :=
  row_aligned row /\ row_filled_in row /\ row_selected_from exs row.

Definition rows_of (q : Request) : list workout_exercise :=
  match q with
  | InsertWorkout _ _ _ => []
  | InsertWorkoutExercises rows => rows
  end.

(** The entries of the builder that have an exercise chosen. *)
Definition chosen (wes : list WorkoutExercise) : list WorkoutExercise :=
  List.filter (fun ex => JS.truthy_string (exerciseId ex)) wes.

(** The guard of [saveWorkout] lets the save through. *)
Definition can_save (user : option User) (s : State) : bool :=
  match user with
  | Some _ =>
      JS.truthy_string (JS.trim (workoutName s))
      && negb (length (workoutExercises s) =? 0)%nat
  | None => false
  end.

End Builder.

(** ** The other schemas of lib/validations.ts

    A key of the parsed object is absent ([undefined]), [null] or holds a
    value.  zod's [optional] lets an absent key through and nothing else: a
    [null] goes to the inner type, which refuses it. *)

Module Schemas.
Import Validations.

Inductive field (A : Type) := Undefined | Null | Value (v : A).
Arguments Undefined {A}.
Arguments Null {A}.
Arguments Value {A} v.

(** [z.string()] with its checks, required or [optional]. *)
Definition check_string (p : string) (optional : bool)
    (checks : string -> list Issue) (v : field string) : list Issue :=
  match v with
  | Undefined =>
      if optional then [] else [ {| path := p; message := "Required" |} ]
  | Null => [ {| path := p; message := "Expected string, received null" |} ]
  | Value s => checks s
  end.

(** [z.number().min(lo, ..).max(hi, ..)], required or [optional]. *)
Definition check_number (p : string) (optional : bool) (lo hi : Q)
    (too_small too_big : string) (v : field number) : list Issue :=
  match v with
  | Undefined =>
      if optional then [] else [ {| path := p; message := "Required" |} ]
  | Null => [ {| path := p; message := "Expected number, received null" |} ]
  | Value NaN => [ {| path := p; message := "Expected number, received nan" |} ]
  | Value x =>
      issue_if (lt_bound x lo) p too_small ++ issue_if (gt_bound x hi) p too_big
  end.

(** [/^[a-zA-Z0-9_]+$/.test(s)]: one character or more, each a letter, a
    digit or an underscore. *)
Definition is_word_char (c : ascii) : bool :=
  let n := nat_of_ascii c in
  ((48 <=? n)%nat && (n <=? 57)%nat) || ((65 <=? n)%nat && (n <=? 90)%nat)
  || ((97 <=? n)%nat && (n <=? 122)%nat) || (n =? 95)%nat.

Fixpoint all_chars (f : ascii -> bool) (s : string) : bool :=
  match s with
  | EmptyString => true
  | String c r => f c && all_chars f r
  end.

Definition username_pattern (s : string) : bool :=
  match s with
  | EmptyString => false
  | _ => all_chars is_word_char s
  end.

Record ProfileInput := {
  username : field string;
  full_name : field string;
  age : field number;
  fitness_goals : field string;
}.

Definition profileSchema (i : ProfileInput) : list Issue :=
  check_string "username" false
    (fun s =>
       let t := JS.trim s in
       issue_if (String.length t <? 3)%nat "username"
         "Username must be at least 3 characters"
       ++ issue_if (30 <? String.length t)%nat "username"
            "Username must be less than 30 characters"
       ++ issue_if (negb (username_pattern t)) "username"
            "Username can only contain letters, numbers, and underscores")
    (username i)
  ++ check_string "full_name" true
       (fun s =>
          issue_if (100 <? String.length (JS.trim s))%nat "full_name"
            "Full name must be less than 100 characters")
       (full_name i)
  ++ check_number "age" true 13 120 "Age must be at least 13"
       "Age must be less than 120" (age i)
  ++ check_string "fitness_goals" true
       (fun s =>
          issue_if (500 <? String.length s)%nat "fitness_goals"
            "Fitness goals must be less than 500 characters")
       (fitness_goals i).

Record BodyMeasurementInput := {
  weight : field number;
  height : field number;
  body_fat_percentage : field number;
  notes : field string;
}.

Definition bodyMeasurementSchema (i : BodyMeasurementInput) : list Issue :=
  check_number "weight" true 20 500 "Weight must be at least 20"
    "Weight must be less than 500" (weight i)
  ++ check_number "height" true 50 300 "Height must be at least 50cm"
       "Height must be less than 300cm" (height i)
  ++ check_number "body_fat_percentage" true 0 100
       "Body fat must be at least 0%" "Body fat must be less than 100%"
       (body_fat_percentage i)
  ++ check_string "notes" true
       (fun s =>
          issue_if (500 <? String.length s)%nat "notes"
            "Notes must be less than 500 characters")
       (notes i).

(** In words: an optional number within [lo, hi], an optional string of at
    most [n] characters. *)
Definition absent_or_within (lo hi : Q) (v : field number) : Prop :=
  v = Undefined \/ exists q, v = Value (Finite q) /\ (lo <= q)%Q /\ (q <= hi)%Q.

Definition absent_or_at_most (n : nat) (measure : string -> nat)
    (v : field string) : Prop :=
  v = Undefined \/ exists s, v = Value s /\ (measure s <= n)%nat.

End Schemas.

(** ** The workout schema on any input object *)

Module Parsing.
Import Validations.

(** The types zod tells apart besides undefined, null, string, number and
    nan. *)
Inductive other_type :=
| T_boolean | T_bigint | T_symbol | T_function | T_date | T_array | T_object
| T_promise | T_map | T_set.

(** What is found under a key of the input object: nothing, null, a
    string, a number, or a value of another type. *)
Inductive value :=
| Undefined
| Null
| Str (s : string)
| Num (x : number)
| Other (t : other_type).

Definition other_name (t : other_type) : string :=
  match t with
  | T_boolean => "boolean" | T_bigint => "bigint" | T_symbol => "symbol"
  | T_function => "function" | T_date => "date" | T_array => "array"
  | T_object => "object" | T_promise => "promise" | T_map => "map"
  | T_set => "set"
  end.

(** The name under which zod reports the type of a value. *)
Definition received (v : value) : string :=
  match v with
  | Undefined => "undefined"
  | Null => "null"
  | Str _ => "string"
  | Num NaN => "nan"
  | Num _ => "number"
  | Other t => other_name t
  end.

(** The issue for a value of the wrong type: "Required" for a key that is
    absent, "Expected .., received .." otherwise. *)
Definition invalid_type (p expected : string) (v : value) : Issue :=
  {| path := p;
     message :=
       match v with
       | Undefined => "Required"
       | _ => ("Expected " ++ expected ++ ", received " ++ received v)%string
       end |}.

(** The keys of the input object the schema reads; zod strips the
    others. *)
Record InputObject := {
  name : value;
  notes : value;
  duration_minutes : value;
}.

(** [z.string().trim().min(1, ..).max(100, ..)] on key [name]. *)
Definition check_name (v : value) : list Issue :=
  match v with
  | Str s =>
      let t := JS.trim s in
      issue_if (String.length t <? 1)%nat "name" "Workout name is required"
      ++ issue_if (100 <? String.length t)%nat "name"
           "Workout name must be less than 100 characters"
  | _ => [ invalid_type "name" "string" v ]
  end.

(** [z.string().max(500, ..).optional()] on key [notes]. *)
Definition check_notes (v : value) : list Issue :=
  match v with
  | Undefined => []
  | Str s =>
      issue_if (500 <? String.length s)%nat "notes"
        "Notes must be less than 500 characters"
  | _ => [ invalid_type "notes" "string" v ]
  end.

(** [z.number().min(1, ..).max(600, ..).optional()] on key
    [duration_minutes]. *)
Definition check_duration_minutes (v : value) : list Issue :=
  match v with
  | Undefined => []
  | Num NaN => [ invalid_type "duration_minutes" "number" v ]
  | Num x =>
      issue_if (lt_bound x 1) "duration_minutes"
        "Duration must be at least 1 minute"
      ++ issue_if (gt_bound x 600) "duration_minutes"
           "Duration must be less than 600 minutes"
  | _ => [ invalid_type "duration_minutes" "number" v ]
  end.

(** The issues of [workoutSchema.safeParse(input)], in key order: every key
    is checked, whatever the others gave; the parse succeeds when there is
    no issue. *)
Definition workoutSchema (i : InputObject) : list Issue :=
  check_name (name i) ++ check_notes (notes i)
  ++ check_duration_minutes (duration_minutes i).

Definition accepts (i : InputObject) : bool :=
  match workoutSchema i with [] => true | _ => false end.

(** The parse reports message [m] at path [p]; it reports path [p]. *)
Definition reports (p m : string) (i : InputObject) : Prop :=
  In {| path := p; message := m |} (workoutSchema i).

Definition reported (p : string) (i : InputObject) : Prop :=
  exists m, reports p m i.

(** The bounds in words: the name is a string that, trimmed, has 1 to 100
    characters; the notes are absent or a string of at most 500; the
    duration is absent or a number from 1 to 600. *)
Definition name_in_bounds (i : InputObject) : Prop :=
  exists s, name i = Str s /\ (1 <= String.length (JS.trim s) <= 100)%nat.

Definition notes_in_bounds (i : InputObject) : Prop :=
  notes i = Undefined \/
  exists s, notes i = Str s /\ (String.length s <= 500)%nat.

Definition duration_in_bounds (i : InputObject) : Prop :=
  duration_minutes i = Undefined \/
  exists q, duration_minutes i = Num (Finite q) /\ (1 <= q)%Q /\ (q <= 600)%Q.

(** The input object of the typed call: a key is absent or holds a value of
    its type. *)
Definition of_input (i : Validations.WorkoutInput) : InputObject :=
  {| name := from_option Str Undefined (Validations.name i);
     notes := from_option Str Undefined (Validations.notes i);
     duration_minutes :=
       from_option Num Undefined (Validations.duration_minutes i) |}.

End Parsing.

(** ** The body tracker (BodyTracker page in pages/Workout.tsx) *)

Module BodyTracker.

Record FormData := {
  weight : string;
  height : string;
  body_fat_percentage : string;
  muscle_mass : string;
  chest : string;
  waist : string;
  hips : string;
  biceps : string;
  thighs : string;
  notes : string;
}.

Definition emptyForm : FormData :=
  {| weight := EmptyString; height := EmptyString;
     body_fat_percentage := EmptyString; muscle_mass := EmptyString;
     chest := EmptyString; waist := EmptyString; hips := EmptyString;
     biceps := EmptyString; thighs := EmptyString; notes := EmptyString |}.

(** [measurementData]: every key is a value or [null] ([None]). *)
Record MeasurementData := {
  m_weight : option Validations.number;
  m_height : option Validations.number;
  m_body_fat_percentage : option Validations.number;
  m_muscle_mass : option Validations.number;
  m_chest : option Validations.number;
  m_waist : option Validations.number;
  m_hips : option Validations.number;
  m_biceps : option Validations.number;
  m_thighs : option Validations.number;
  m_notes : option string;
}.

Record Toast := { title : string; description : string; destructive : bool }.

Record State := {
  formData : FormData;
  showForm : bool;
  toasts : list Toast;
}.

Inductive Request :=
| InsertMeasurement (data : MeasurementData) (user_id : option Schema.uuid)
| SelectMeasurements.

Definition nullable {A} (v : option A) : Schemas.field A :=
  match v with
  | Some x => Schemas.Value x
  | None => Schemas.Null
  end.

(** The keys of [measurementData] the schema looks at; zod drops the
    others. *)
Definition schema_view (m : MeasurementData) : Schemas.BodyMeasurementInput :=
  {| Schemas.weight := nullable (m_weight m);
     Schemas.height := nullable (m_height m);
     Schemas.body_fat_percentage := nullable (m_body_fat_percentage m);
     Schemas.notes := nullable (m_notes m) |}.

Section Submit.
(** [parseFloat] on the text of an input, and the message zod gives to the
    error it throws for a list of issues. *)
Variable parseFloat : string -> Validations.number.
Variable zod_message : list Validations.Issue -> string.

(** [text ? parseFloat(text) : null]. *)
Definition parsed (text : string) : option Validations.number :=
  if JS.truthy_string text then Some (parseFloat text) else None.

Definition measurementData (f : FormData) : MeasurementData :=
  {| m_weight := parsed (weight f); m_height := parsed (height f);
     m_body_fat_percentage := parsed (body_fat_percentage f);
     m_muscle_mass := parsed (muscle_mass f); m_chest := parsed (chest f);
     m_waist := parsed (waist f); m_hips := parsed (hips f);
     m_biceps := parsed (biceps f); m_thighs := parsed (thighs f);
     m_notes := if JS.truthy_string (notes f) then Some (notes f) else None |}.

Definition errorToast (m : string) : Toast :=
  {| title := "Validation Error"; description := m; destructive := true |}.

Definition successToast : Toast :=
  {| title := "Success"; description := "Measurement recorded successfully";
     destructive := false |}.

(** [handleSubmit]: [fault] is the error of the store for the insert, if
    any.  The result is the new state and the requests sent, in order. *)
Definition handleSubmit (user : option Schema.User) (fault : option string)
    (s : State) : State * list Request :=
  let data := measurementData (formData s) in
  match Schemas.bodyMeasurementSchema (schema_view data) with
  | [] =>
      let insert := InsertMeasurement data (Schema.user_id <$> user) in
      match fault with
      | Some m =>
          ({| formData := formData s; showForm := showForm s;
              toasts := toasts s ++ [errorToast m] |}, [insert])
      | None =>
          ({| formData := emptyForm; showForm := false;
              toasts := toasts s ++ [successToast] |},
           [insert; SelectMeasurements])
      end
  | (_ :: _) as issues =>
      ({| formData := formData s; showForm := showForm s;
          toasts := toasts s ++ [errorToast (zod_message issues)] |}, [])
  end.

End Submit.

(** In words: the text of a box is filled in and reads as a number within
    [lo, hi]. *)
Definition filled_within (parseFloat : string -> Validations.number)
    (lo hi : Q) (text : string) : Prop :=
  text <> EmptyString /\
  exists q, parseFloat text = Validations.Finite q /\ (lo <= q)%Q /\ (q <= hi)%Q.

End BodyTracker.

(** ** The social feed: loading the likes, searching *)

Module SocialFeed.
Import Social.

(** The store's answer to
    [from('workout_likes').select('share_id').eq('user_id', uid)]. *)
Definition select_user_likes (uid : Schema.uuid) (d : Schema.Database)
    : list Schema.uuid :=
  List.map Schema.l_share_id
    (List.filter (fun r => String.eqb (Schema.l_user_id r) uid)
       (Schema.workout_likes d)).

(** [fetchUserLikes]: [reply] is the rows or [None] on an error, which is
    logged and leaves the state as it was. *)
Definition fetchUserLikes (user : option Schema.User)
    (reply : option (list Schema.uuid)) (s : State) : State :=
  match user, reply with
  | Some _, Some data =>
      {| sharedWorkouts := sharedWorkouts s;
         likedWorkouts := list_to_set data; toasts := toasts s |}
  | _, _ => s
  end.

(** The hearts of the page agree with the like rows of the user. *)
Definition in_step (u : Schema.User) (w : World) : Prop :=
  forall shareId,
    shareId ∈ likedWorkouts (page w) <->
    has_like shareId (Schema.user_id u) (db w) = true.













End SocialFeed.

(** ** The leaderboard: workout counts and the workouts tab *)

Module LeaderboardTabs.
Import Leaderboard.

(** The store's answer to the count
    [from('workouts').select('*', { count: 'exact', head: true })
       .eq('user_id', target)] asked by [viewer]: the policy "Users can
    view their own workouts" lets through the rows of the viewer only. *)
Definition workouts_count (viewer : Schema.uuid) (d : Schema.Database)
    (target : Schema.uuid) : option Z :=
  Some (Z.of_nat
          (length
             (List.filter
                (fun w => String.eqb (Schema.w_user_id w) target
                          && String.eqb (Schema.w_user_id w) viewer)
                (Schema.workouts d)))).

(** The number of workout rows of a user. *)
Definition workouts_of (uid : Schema.uuid) (d : Schema.Database) : Z :=
  Z.of_nat
    (length (List.filter (fun w => String.eqb (Schema.w_user_id w) uid)
               (Schema.workouts d))).

(** [[...topUsers].sort((a, b) => (b.totalWorkouts || 0) -
    (a.totalWorkouts || 0))]: descending by workouts, rows that compare
    equal staying in the order of [topUsers] (the sort is stable). *)
Fixpoint insert_by_workouts (x : LeaderboardUser) (l : list LeaderboardUser)
    : list LeaderboardUser :=
  match l with
  | [] => [x]
  | y :: r =>
      if totalWorkouts y <=? totalWorkouts x then x :: y :: r
      else y :: insert_by_workouts x r
  end.

Definition by_workouts (l : list LeaderboardUser) : list LeaderboardUser :=
  List.fold_right insert_by_workouts [] l.

Definition is_row_of (uid : Schema.uuid) (u : LeaderboardUser) : bool :=
  String.eqb (Schema.p_user_id (profile u)) uid.

End LeaderboardTabs.

(** ** The templates page (Templates page in pages/Workout.tsx) *)

Module Templates.

Record WorkoutTemplate := {
  id : string;
  name : string;
  is_public : bool;
  times_used : Z;
  creator_id : string;
}.

Record Toast := { title : string; description : string; destructive : bool }.

Record State := {
  templates : list WorkoutTemplate;
  loading : bool;
  toasts : list Toast;
}.

Definition errorToast (m : string) : Toast :=
  {| title := "Error"; description := m; destructive := true |}.

Definition successToast : Toast :=
  {| title := "Success";
     description := "Template applied! Create your workout from this template.";
     destructive := false |}.

(** The policy "Users can update their own templates":
    [auth.uid() = creator_id]. *)
Definition can_update (uid : option Schema.uuid) (t : WorkoutTemplate) : bool :=
  match uid with
  | Some u => String.eqb (creator_id t) u
  | None => false
  end.

(** UPDATE workout_templates SET times_used = v WHERE id = templateId, as
    the store runs it for [uid]: rows the policy hides from the update are
    left alone, and that is not an error. *)
Definition update_times_used (uid : option Schema.uuid) (templateId : string)
    (v : Z) (tbl : list WorkoutTemplate) : list WorkoutTemplate :=
  List.map
    (fun t =>
       if String.eqb (id t) templateId && can_update uid t
       then {| id := id t; name := name t; is_public := is_public t;
               times_used := v; creator_id := creator_id t |}
       else t)
    tbl.

(** [fetchTemplates]: [reply] is the rows or the message of an error. *)
Definition fetchTemplates (reply : list WorkoutTemplate + string) (s : State)
    : State :=
  match reply with
  | inl data => {| templates := data; loading := false; toasts := toasts s |}
  | inr m =>
      {| templates := templates s; loading := false;
         toasts := toasts s ++ [errorToast m] |}
  end.

(** The message of the TypeError thrown by reading [times_used] of
    [undefined]. *)
Definition type_error : string :=
  "Cannot read properties of undefined (reading 'times_used')".

(** [useTemplate]: [fault] is the error of the store for the update, if
    any; [refetch] is the reply to the [fetchTemplates] that follows a
    success.  The result is the page and the table. *)
Definition useTemplate (user : option Schema.User) (fault : option string)
    (refetch : list WorkoutTemplate + string) (templateId : string)
    (s : State) (tbl : list WorkoutTemplate)
    : State * list WorkoutTemplate :=
  let failed m :=
    ({| templates := templates s; loading := loading s;
        toasts := toasts s ++ [errorToast m] |}, tbl) in
  match List.find (fun t => String.eqb (id t) templateId) (templates s) with
  | None => failed type_error
  | Some t =>
      match fault with
      | Some m => failed m
      | None =>
          (fetchTemplates refetch
             {| templates := templates s; loading := loading s;
                toasts := toasts s ++ [successToast] |},
           update_times_used (Schema.user_id <$> user) templateId
             (times_used t + 1) tbl)
      end
  end.

End Templates.

(** ** The profile page (Profile page in pages/Workout.tsx) *)

Module ProfilePage.

(** A row of [profiles] as [select('*')] returns it; of the columns the
    page never shows, only those with a part in what follows are kept. *)
Record Profile := {
  user_id : Schema.uuid;
  username : string;
  full_name : option string;
  age : option Z;
  weight : option Q;
  fitness_goals : option string;
  fitness_level : option Z;
  total_points : option Z;
  rank_title : option string;
}.

Record Toast := { title : string; description : string; destructive : bool }.

(** [profile] and [editedProfile] are set together by [fetchProfile]:
    [loaded] is [None] until then, and the pair of them afterwards. *)
Record State := {
  loaded : option (Profile * Profile);
  isEditing : bool;
  toasts : list Toast;
}.

(** [fetchProfile]: [reply] is the row of the user, or [None] when the
    query failed or found none. *)
Definition fetchProfile (user : option Schema.User) (reply : option Profile)
    (s : State) : State :=
  match user, reply with
  | Some _, Some data =>
      {| loaded := Some (data, data); isEditing := isEditing s;
         toasts := toasts s |}
  | _, _ => s
  end.

(** The four boxes of the form; the age box gives [parseInt(..) || 0] and
    the weight box [parseFloat(..) || 0]. *)
Inductive Edit :=
| EditFullName (value : string)
| EditAge (value : Z)
| EditWeight (value : Q)
| EditGoals (value : string).

Definition edit (e : Edit) (p : Profile) : Profile :=
  match e with
  | EditFullName value =>
      {| user_id := user_id p; username := username p;
         full_name := Some value; age := age p; weight := weight p;
         fitness_goals := fitness_goals p; fitness_level := fitness_level p;
         total_points := total_points p; rank_title := rank_title p |}
  | EditAge value =>
      {| user_id := user_id p; username := username p;
         full_name := full_name p; age := Some value; weight := weight p;
         fitness_goals := fitness_goals p; fitness_level := fitness_level p;
         total_points := total_points p; rank_title := rank_title p |}
  | EditWeight value =>
      {| user_id := user_id p; username := username p;
         full_name := full_name p; age := age p; weight := Some value;
         fitness_goals := fitness_goals p; fitness_level := fitness_level p;
         total_points := total_points p; rank_title := rank_title p |}
  | EditGoals value =>
      {| user_id := user_id p; username := username p;
         full_name := full_name p; age := age p; weight := weight p;
         fitness_goals := Some value; fitness_level := fitness_level p;
         total_points := total_points p; rank_title := rank_title p |}
  end.

(** [setEditedProfile({ ...editedProfile, field: value })]. *)
Definition change (e : Edit) (s : State) : State :=
  match loaded s with
  | Some (profile, editedProfile) =>
      {| loaded := Some (profile, edit e editedProfile);
         isEditing := isEditing s; toasts := toasts s |}
  | None => s
  end.

Definition updatedToast : Toast :=
  {| title := "Profile updated";
     description := "Your profile has been successfully updated.";
     destructive := false |}.

Definition failedToast (m : string) : Toast :=
  {| title := "Failed to update profile";
     description := if JS.truthy_string m then m
                    else "An error occurred while updating your profile.";
     destructive := true |}.

(** UPDATE profiles SET (every column of [row]) WHERE user_id = uid, under
    the policy "Users can update their own profile". *)
Definition update_profile (uid : Schema.uuid) (row : Profile)
    (tbl : list Profile) : list Profile :=
  List.map (fun p => if String.eqb (user_id p) uid then row else p) tbl.

(** [handleSaveProfile]: [fault] is the error of the store, if any. *)
Definition handleSaveProfile (user : option Schema.User) (fault : option string)
    (s : State) (tbl : list Profile) : State * list Profile :=
  match user, loaded s with
  | Some u, Some (profile, editedProfile) =>
      match fault with
      | Some m =>
          ({| loaded := loaded s; isEditing := isEditing s;
              toasts := toasts s ++ [failedToast m] |}, tbl)
      | None =>
          ({| loaded := Some (editedProfile, editedProfile);
              isEditing := false; toasts := toasts s ++ [updatedToast] |},
           update_profile (Schema.user_id u) editedProfile tbl)
      end
  | _, _ => (s, tbl)
  end.

(** The page after loading [row] and making the changes [edits] in turn. *)
Definition edited (u : Schema.User) (row : Profile) (edits : list Edit)
    (s : State) : State :=
  List.fold_left (fun st e => change e st) edits (fetchProfile (Some u) (Some row) s).

End ProfilePage.

(** ** The analytics page: the store's side of its queries *)

Module AnalyticsStore.
Import Analytics.

(** [from('workouts').select('*', { count: 'exact', head: true })
    .eq('user_id', uid)], asked by the user. *)
Definition count_workouts (uid : Schema.uuid) (d : Schema.Database) : Z :=
  Z.of_nat
    (length (List.filter (fun w => String.eqb (Schema.w_user_id w) uid)
               (Schema.workouts d))).

(** [from('workouts').select('id').eq('user_id', uid)]. *)
Definition select_workout_ids (uid : Schema.uuid) (d : Schema.Database)
    : list Schema.uuid :=
  List.map Schema.w_id
    (List.filter (fun w => String.eqb (Schema.w_user_id w) uid)
       (Schema.workouts d)).

(** [from('workout_exercises').select('workout_id').in('workout_id', ids)]. *)
Definition select_exercises_in (ids : list Schema.uuid) (d : Schema.Database)
    : list Schema.uuid :=
  List.map Schema.we_workout_id
    (List.filter
       (fun r => existsb (String.eqb (Schema.we_workout_id r)) ids)
       (Schema.workout_exercises d)).

(** [from('personal_bests').select('*', { count: 'exact', head: true })
    .eq('user_id', uid)]. *)
Definition count_personal_bests (uid : Schema.uuid) (d : Schema.Database) : Z :=
  Z.of_nat
    (length (List.filter (fun b => String.eqb (Schema.pb_user_id b) uid)
               (Schema.personal_bests d))).

(** What the page shows to [uid] when the store [d] answers all four
    queries. *)
Definition shown (uid : Schema.uuid) (d : Schema.Database) (s : AnalyticsData)
    : AnalyticsData :=
  fetchAnalyticsData (Some {| Schema.user_id := uid |})
    {| workouts_count := Some (count_workouts uid d);
       workout_exercises_rows :=
         Some (select_exercises_in (select_workout_ids uid d) d);
       personal_bests_count := Some (count_personal_bests uid d);
       workouts_rows := Some (select_durations uid d) |} s.

(** An id the store has not used for a workout yet. *)
Definition fresh_workout_id (workout_id : Schema.uuid) (d : Schema.Database)
    : Prop :=
  Forall (fun w => Schema.w_id w <> workout_id) (Schema.workouts d) /\
  Forall (fun r => Schema.we_workout_id r <> workout_id)
    (Schema.workout_exercises d).

End AnalyticsStore.

(** ** More sample data *)

Module Sample2.

(** [parseFloat] on the few texts of the examples. *)
Definition parseFloat (text : string) : Validations.number :=
  if String.eqb text "70.5" then Validations.Finite (141 # 2)
  else if String.eqb text "175" then Validations.Finite 175
  else if String.eqb text "18" then Validations.Finite 18
  else Validations.NaN.

Definition zod_message (issues : list Validations.Issue) : string :=
  match issues with
  | i :: _ => Validations.message i
  | [] => EmptyString
  end.

(** A measurement with every box of the schema filled in, and the same
    without notes. *)
Definition full_form : BodyTracker.FormData :=
  {| BodyTracker.weight := "70.5"; BodyTracker.height := "175";
     BodyTracker.body_fat_percentage := "18";
     BodyTracker.muscle_mass := EmptyString; BodyTracker.chest := EmptyString;
     BodyTracker.waist := EmptyString; BodyTracker.hips := EmptyString;
     BodyTracker.biceps := EmptyString; BodyTracker.thighs := EmptyString;
     BodyTracker.notes := "morning" |}.

Definition tracker (f : BodyTracker.FormData) : BodyTracker.State :=
  {| BodyTracker.formData := f; BodyTracker.showForm := true;
     BodyTracker.toasts := [] |}.

(** Two templates on the page: alice's own and a public one by bob, each
    used 4 times as far as the page knows; the store has moved on to 9 for
    alice's. *)
Definition template (tid creator : string) (public : bool) (used : Z)
    : Templates.WorkoutTemplate :=
  {| Templates.id := tid; Templates.name := "Full body";
     Templates.is_public := public; Templates.times_used := used;
     Templates.creator_id := creator |}.

Definition templates_page : Templates.State :=
  {| Templates.templates :=
       [ template "t1" "alice" false 4; template "t2" "bob" true 4 ];
     Templates.loading := false; Templates.toasts := [] |}.

Definition templates_table : list Templates.WorkoutTemplate :=
  [ template "t1" "alice" false 9; template "t2" "bob" true 4 ].

(** The row of alice as loaded (500 points) and as the store holds it by
    the time she saves (800 points). *)
Definition profile_row (points : Z) : ProfilePage.Profile :=
  {| ProfilePage.user_id := "alice"; ProfilePage.username := "alice";
     ProfilePage.full_name := None; ProfilePage.age := Some 30;
     ProfilePage.weight := None; ProfilePage.fitness_goals := None;
     ProfilePage.fitness_level := Some 1;
     ProfilePage.total_points := Some points;
     ProfilePage.rank_title := Some "Beginner" |}.

Definition blank_profile_page : ProfilePage.State :=
  {| ProfilePage.loaded := None; ProfilePage.isEditing := false;
     ProfilePage.toasts := [] |}.

(** A store where alice has logged two workouts and bob three. *)
Definition db_two_and_three : Schema.Database :=
  {| Schema.profiles := [ Sample.member "bob" 70; Sample.member "alice" 40 ];
     Schema.workouts :=
       [ Sample.session "w1" "alice" (Some 0);
         Sample.session "w2" "bob" (Some 0);
         Sample.session "w3" "bob" (Some 0);
         Sample.session "w4" "alice" (Some 0);
         Sample.session "w5" "bob" (Some 0) ];
     Schema.workout_exercises := []; Schema.personal_bests := [];
     Schema.achievements := []; Schema.user_achievements := [];
     Schema.workout_shares := []; Schema.workout_likes := [] |}.

Definition blank_board : Leaderboard.State :=
  {| Leaderboard.topUsers := []; Leaderboard.userRank := None;
     Leaderboard.loading := true |}.

End Sample2.

(** * Properties *)

(** ** JavaScript helpers *)

Section JSFacts.
Context {A : Type}.
Implicit Types (a : JS.array A) (v : A) (i : nat).

Lemma length_array_set_in a i v :
  (i < length a)%nat -> length (JS.array_set a i v) = length a.
Proof.
  intros Hi. unfold JS.array_set.
  destruct (decide (i < length a)%nat); [apply length_insert | lia].
Qed.

Lemma length_array_set_out a i v :
  (length a <= i)%nat -> length (JS.array_set a i v) = S i.
Proof.
  intros Hi. unfold JS.array_set.
  destruct (decide (i < length a)%nat); [lia |].
  rewrite !length_app, length_replicate. simpl. lia.
Qed.

Lemma length_push a v : length (JS.push a v) = S (length a).
Proof. unfold JS.push. rewrite length_app. simpl. lia. Qed.

Lemma length_splice1_in a i :
  (i < length a)%nat -> S (length (JS.splice1 a i)) = length a.
Proof.
  intros Hi. unfold JS.splice1.
  rewrite length_delete by (apply lookup_lt_is_Some; lia). lia.
Qed.

Lemma length_splice1_out a i :
  (length a <= i)%nat -> JS.splice1 a i = a.
Proof.
  unfold JS.splice1. revert i.
  induction a as [|x a IH]; intros [|i] Hi; simpl in *; try lia; try done.
  f_equal. apply IH. lia.
Qed.

End JSFacts.

(** ** The workout builder *)

Section WorkoutPageFacts.
Import Schema WorkoutPage.

Lemma aligned_addExercise wes :
  Forall aligned wes -> Forall aligned (addExercise wes).
Proof.
  intros H. unfold addExercise. apply Forall_app. split; [done |].
  constructor; [| constructor]. by split.
Qed.

Lemma aligned_updateExercise_id exs wes i value l :
  Forall aligned wes ->
  updateExercise exs wes i (Set_exerciseId value) = Some l ->
  Forall aligned l.
Proof.
  intros H. unfold updateExercise.
  destruct (wes !! i) as [ex|] eqn:E; simpl; [| done].
  intros [= <-]. apply Forall_insert; [done |].
  exact (proj1 (Forall_lookup _ _) H i ex E).
Qed.

Lemma aligned_removeExercise wes i :
  Forall aligned wes -> Forall aligned (removeExercise wes i).
Proof. intros H. unfold removeExercise. by apply Forall_delete. Qed.

Lemma aligned_addSet wes i l :
  Forall aligned wes -> addSet wes i = Some l -> Forall aligned l.
Proof.
  intros H. unfold addSet.
  destruct (wes !! i) as [ex|] eqn:E; simpl; [| done].
  intros [= <-]. apply Forall_insert; [done |].
  destruct (proj1 (Forall_lookup _ _) H i ex E) as [Hr Hw].
  split; simpl; rewrite length_push; lia.
Qed.

(** [removeSet] and [updateSet] keep the arrays aligned for a set index the
    page renders, that is, one below [sets]. *)
Lemma aligned_removeSet wes i j ex l :
  Forall aligned wes -> wes !! i = Some ex -> Z.of_nat j < sets ex ->
  removeSet wes i j = Some l -> Forall aligned l.
Proof.
  intros H E Hj. unfold removeSet. rewrite E. simpl.
  destruct (proj1 (Forall_lookup _ _) H i ex E) as [Hr Hw].
  destruct (decide (sets ex > 1)); intros [= <-]; [| done].
  apply Forall_insert; [done |]. split; simpl.
  - pose proof (length_splice1_in (reps ex) j). lia.
  - pose proof (length_splice1_in (weight ex) j). lia.
Qed.

Lemma aligned_updateSet wes i j ex u l :
  Forall aligned wes -> wes !! i = Some ex -> Z.of_nat j < sets ex ->
  updateSet wes i j u = Some l -> Forall aligned l.
Proof.
  intros H E Hj. unfold updateSet. rewrite E. simpl.
  destruct (proj1 (Forall_lookup _ _) H i ex E) as [Hr Hw].
  intros [= <-]. apply Forall_insert; [done |].
  destruct u; split; simpl; try done.
  - rewrite length_array_set_in; lia.
  - rewrite length_array_set_in; lia.
Qed.

Lemma set_row_rendered_inv s i j :
  set_row_rendered s i j = true ->
  exists ex, workoutExercises s !! i = Some ex /\ Z.of_nat j < sets ex.
Proof.
  unfold set_row_rendered.
  destruct (workoutExercises s !! i) as [ex|]; [| done].
  intros [_ H]%andb_prop. exists ex. split; [done | lia].
Qed.

Lemma aligned_edit o w :
  Forall aligned (workoutExercises (page w)) ->
  (forall l, o = Some l -> Forall aligned l) ->
  Forall aligned (workoutExercises (page (edit o w))).
Proof. intros H Ho. destruct o as [l|]; simpl; [by apply Ho | done]. Qed.

Lemma sent_edit o w : sent (edit o w) = sent w.
Proof. by destruct o. Qed.

Lemma db_edit o w : db (edit o w) = db w.
Proof. by destruct o. Qed.

Lemma row_aligned_data workout_id wes :
  Forall aligned wes ->
  Forall row_aligned (workoutExerciseData workout_id wes).
Proof.
  intros H. unfold workoutExerciseData.
  apply Forall_forall. intros row Hrow.
  apply list_elem_of_In, in_map_iff in Hrow as (ex & <- & Hex).
  apply filter_In in Hex as [Hex _].
  apply list_elem_of_In in Hex.
  destruct (proj1 (Forall_forall _ _) H ex Hex) as [Hr Hw].
  exists (sets ex). by simpl.
Qed.

(** The entries [saveWorkout] leaves in the builder and the requests it
    sends. *)
Lemma aligned_saveWorkout user r w :
  Forall aligned (workoutExercises (page w)) ->
  Forall request_aligned (sent w) ->
  Forall aligned (workoutExercises (page (saveWorkout user r w))) /\
  Forall request_aligned (sent (saveWorkout user r w)).
Proof.
  intros Hp Hs. unfold saveWorkout.
  destruct user as [u|]; [| by split].
  destruct (negb _ || _); [by split |].
  destruct (workout_reply r) as [wid | m]; simpl.
  - pose proof (row_aligned_data wid _ Hp) as Hrows.
    destruct (exercises_reply r); simpl; split; try done;
      apply Forall_app; split; try done;
      repeat constructor; done.
  - split; [done |]. apply Forall_app; split; [done |].
    repeat constructor.
Qed.

Lemma aligned_handle w e :
  rendered (page w) e = true ->
  Forall aligned (workoutExercises (page w)) ->
  Forall request_aligned (sent w) ->
  Forall aligned (workoutExercises (page (handle w e))) /\
  Forall request_aligned (sent (handle w e)).
Proof.
  intros Hr Hp Hs.
  destruct e as [value | | i value | i | i j value | i j value | i j | i | user r];
    simpl in *; rewrite ?sent_edit; try (split; [| done]).
  - done.
  - by apply aligned_addExercise.
  - apply aligned_edit; [done |]. intros l Hl.
    by eapply aligned_updateExercise_id.
  - by apply aligned_removeExercise.
  - apply set_row_rendered_inv in Hr as (ex & E & Hj).
    apply aligned_edit; [done |]. intros l Hl. by eapply aligned_updateSet.
  - apply set_row_rendered_inv in Hr as (ex & E & Hj).
    apply aligned_edit; [done |]. intros l Hl. by eapply aligned_updateSet.
  - apply andb_prop in Hr as [Hr _].
    apply set_row_rendered_inv in Hr as (ex & E & Hj).
    apply aligned_edit; [done |]. intros l Hl. by eapply aligned_removeSet.
  - apply aligned_edit; [done |]. intros l Hl. by eapply aligned_addSet.
  - by apply aligned_saveWorkout.
Qed.

(** C8. Every world the builder can reach by the events of the rendered
    page (addExercise, addSet, removeSet, updateSet and the others) keeps
    [reps.length = sets = weight.length] in each entry, and every row of
    every [workout_exercises] insert that [saveWorkout] sent satisfies it. *)
Theorem C8_builder_keeps_arrays_aligned exs d w :
  reachable exs d w ->
  Forall aligned (workoutExercises (page w)) /\
  Forall request_aligned (sent w).
Proof.
  induction 1 as [| w e Hw [IHp IHs] Hr].
  - split; constructor.
  - by apply aligned_handle.
Qed.

Lemma C8_builder_keeps_arrays_aligned_witness :
  Forall aligned (workoutExercises (page Sample.push_day_saved)) /\
  Forall request_aligned (sent Sample.push_day_saved).
Proof.
  apply (C8_builder_keeps_arrays_aligned Sample.catalogue Sample.empty_db).
  unfold Sample.push_day_saved, Sample.filled.
  repeat (apply reach_event; [| reflexivity]).
  apply reach_mounted.
Defined.

(** The rendered indices matter: a set index the page never renders breaks
    the alignment, [removeSet] dropping [sets] without a slot to remove and
    [updateSet] growing one array. *)
Example removeSet_unrendered_index :
  removeSet
    [ {| exerciseId := "bench"; exerciseName := "Bench Press"; sets := 2;
         reps := [Some 5; Some 5]; weight := [Some 60%Q; Some 60%Q] |} ] 0 7
  = Some [ {| exerciseId := "bench"; exerciseName := "Bench Press"; sets := 1;
              reps := [Some 5; Some 5]; weight := [Some 60%Q; Some 60%Q] |} ].
Proof. reflexivity. Qed.

Example updateSet_unrendered_index :
  updateSet
    [ {| exerciseId := "bench"; exerciseName := "Bench Press"; sets := 1;
         reps := [Some 5]; weight := [Some 60%Q] |} ] 0 2 (Set_rep 8)
  = Some [ {| exerciseId := "bench"; exerciseName := "Bench Press"; sets := 1;
              reps := [Some 5; None; Some 8]; weight := [Some 60%Q] |} ].
Proof. reflexivity. Qed.

(** *** What a save writes *)

Lemma saveWorkout_tables user r w :
  let d' := db (saveWorkout user r w) in
  profiles d' = profiles (db w) /\
  personal_bests d' = personal_bests (db w) /\
  achievements d' = achievements (db w) /\
  user_achievements d' = user_achievements (db w) /\
  workout_shares d' = workout_shares (db w) /\
  workout_likes d' = workout_likes (db w).
Proof.
  unfold saveWorkout. destruct user as [u|]; [| done].
  destruct (negb _ || _); [done |].
  destruct (workout_reply r); [| done].
  by destruct (exercises_reply r).
Qed.

Lemma saveWorkout_saved_inv user r w :
  saved w (saveWorkout user r w) ->
  exists u workout_id,
    user = Some u /\ workout_reply r = inl workout_id /\
    exercises_reply r = None /\
    JS.truthy_string (JS.trim (workoutName (page w))) = true /\
    workoutExercises (page w) <> [].
Proof.
  unfold saved, saveWorkout. destruct user as [u|]; simpl.
  2:{ intros H%app_inv_head. discriminate H. }
  destruct (JS.truthy_string (JS.trim (workoutName (page w)))) eqn:Hn; simpl.
  2:{ intros H%app_inv_head. discriminate H. }
  destruct (workoutExercises (page w)) as [|ex wes] eqn:Hw; simpl.
  { intros H%app_inv_head. discriminate H. }
  destruct (workout_reply r) as [wid | m]; simpl.
  2:{ intros H%app_inv_head. discriminate H. }
  destruct (exercises_reply r) as [m |]; simpl.
  { intros H%app_inv_head. discriminate H. }
  intros _. exists u, wid. repeat split; done.
Qed.

(** The guard of [saveWorkout] is the only check before the first write:
    with a signed-in user, a name that is not blank and one entry in the
    builder, the insert is sent with the name as typed. *)
Lemma saveWorkout_sends_any_named_workout u r w :
  JS.truthy_string (JS.trim (workoutName (page w))) = true ->
  workoutExercises (page w) <> [] ->
  exists rest,
    sent (saveWorkout (Some u) r w)
    = sent w ++ InsertWorkout (user_id u) (workoutName (page w)) 0 :: rest.
Proof.
  intros Hn Hw. unfold saveWorkout. rewrite Hn. simpl.
  destruct (workoutExercises (page w)) as [|ex wes] eqn:E; [done |]. simpl.
  destruct (workout_reply r); [destruct (exercises_reply r) |]; simpl; eauto.
Qed.

(** C10. Whatever the form holds, every row [saveWorkout] adds to
    [workouts] has [duration_minutes = 0]; after a successful save that is
    the one row added, under the name typed; and 0 fails the duration check
    of the workout schema, so it is not a value of [1,600]. *)
Theorem C10_saved_workout_duration_is_zero user r w :
  (exists rows,
     workouts (db (saveWorkout user r w)) = workouts (db w) ++ rows /\
     Forall (fun row => w_duration_minutes row = Some 0) rows) /\
  (saved w (saveWorkout user r w) ->
   exists u workout_id,
     user = Some u /\ workout_reply r = inl workout_id /\
     workouts (db (saveWorkout user r w))
     = workouts (db w)
       ++ [ {| w_id := workout_id; w_user_id := user_id u;
               w_name := workoutName (page w);
               w_duration_minutes := Some 0 |} ]) /\
  Validations.check_duration_minutes (Some (Validations.Finite 0))
  = [ {| Validations.path := "duration_minutes";
         Validations.message := "Duration must be at least 1 minute" |} ].
Proof.
  split; [| split; [| reflexivity]].
  - unfold saveWorkout. destruct user as [u|].
    2:{ exists []. by rewrite app_nil_r. }
    destruct (negb _ || _).
    { exists []. by rewrite app_nil_r. }
    destruct (workout_reply r) as [wid | m].
    2:{ exists []. by rewrite app_nil_r. }
    eexists [_].
    destruct (exercises_reply r); simpl; (split; [reflexivity |]);
      by repeat constructor.
  - intros Hs.
    destruct (saveWorkout_saved_inv _ _ _ Hs) as (u & wid & -> & Hr & He & Hn & Hw).
    exists u, wid. repeat split; [done |].
    unfold saveWorkout. rewrite Hr, He, Hn. simpl.
    by destruct (workoutExercises (page w)).
Qed.

Lemma C10_saved_workout_duration_is_zero_witness :
  let w := Sample.filled Sample.empty_db "Push Day" in
  saved w (saveWorkout (Some Sample.alice) Sample.both_ok w) /\
  exists u workout_id,
    Some Sample.alice = Some u /\
    workout_reply Sample.both_ok = inl workout_id /\
    workouts (db (saveWorkout (Some Sample.alice) Sample.both_ok w))
    = workouts (db w)
      ++ [ {| w_id := workout_id; w_user_id := user_id u;
              w_name := workoutName (page w);
              w_duration_minutes := Some 0 |} ].
Proof.
  intros w. split; [reflexivity |].
  apply (proj1 (proj2 (C10_saved_workout_duration_is_zero
                         (Some Sample.alice) Sample.both_ok w))).
  reflexivity.
Defined.

(** C1, as the code has it. Recording a workout by [saveWorkout] leaves
    every stored personal_best row as it was: [best_weight] of each (user,
    exercise) pair is what it was before the save, hence never lower; a
    successful save appends the recorded sets, weights included, to
    [workout_exercises] and nothing else records them. *)
Theorem C1_saveWorkout_leaves_personal_bests user r w :
  personal_bests (db (saveWorkout user r w)) = personal_bests (db w) /\
  (forall uid eid,
     stored_best_weight uid eid (db (saveWorkout user r w))
     = stored_best_weight uid eid (db w)) /\
  (saved w (saveWorkout user r w) ->
   exists workout_id,
     workout_exercises (db (saveWorkout user r w))
     = workout_exercises (db w)
       ++ workoutExerciseData workout_id (workoutExercises (page w))).
Proof.
  pose proof (saveWorkout_tables user r w) as (_ & Hpb & _).
  split; [done |]. split.
  - intros uid eid. unfold stored_best_weight. by rewrite Hpb.
  - intros Hs.
    destruct (saveWorkout_saved_inv _ _ _ Hs) as (u & wid & -> & Hr & He & Hn & Hw).
    exists wid. unfold saveWorkout. rewrite Hr, He, Hn. simpl.
    by destruct (workoutExercises (page w)).
Qed.

Lemma C1_saveWorkout_leaves_personal_bests_witness :
  let w := Sample.filled Sample.db_with_best "Push Day" in
  saved w (saveWorkout (Some Sample.alice) Sample.both_ok w) /\
  exists workout_id,
    workout_exercises (db (saveWorkout (Some Sample.alice) Sample.both_ok w))
    = workout_exercises (db w)
      ++ workoutExerciseData workout_id (workoutExercises (page w)).
Proof.
  intros w. split; [reflexivity |].
  apply (proj2 (proj2 (C1_saveWorkout_leaves_personal_bests
                         (Some Sample.alice) Sample.both_ok w))).
  reflexivity.
Defined.

(** C1 as stated fails: alice holds a 50 kg best on the bench press and
    saves a workout with a 100 kg set; the set is recorded, the stored
    [best_weight] is still 50 and not max(50, 100). *)
Lemma C1_best_weight_not_raised :
  let w := Sample.filled Sample.db_with_best "Push Day" in
  let w' := saveWorkout (Some Sample.alice) Sample.both_ok w in
  saved w w' /\
  recorded_weights "bench" (db w') = [ [Some 0%Q; Some 100%Q] ] /\
  stored_best_weight "alice" "bench" (db w) = [Some 50%Q] /\
  stored_best_weight "alice" "bench" (db w') = [Some 50%Q] /\
  ~ (50 == Qmax 50 (max_weight [Some 0%Q; Some 100%Q]))%Q.
Proof.
  repeat split; try reflexivity.
  vm_compute. discriminate.
Qed.

(** C4 at a failing input: a name of 101 characters, which the workout
    schema refuses with the message of its field (as it refuses the
    duration 0 the page writes), passes [saveWorkout]: the insert is sent
    and the row is stored. *)
Theorem C4_saveWorkout_stores_unvalidated_name :
  let w := Sample.filled Sample.empty_db Sample.long_name in
  let w' := saveWorkout (Some Sample.alice) Sample.both_ok w in
  Validations.workoutSchema
    {| Validations.name := Some Sample.long_name; Validations.notes := None;
       Validations.duration_minutes := Some (Validations.Finite 0) |}
  = [ {| Validations.path := "name";
         Validations.message := "Workout name must be less than 100 characters" |};
      {| Validations.path := "duration_minutes";
         Validations.message := "Duration must be at least 1 minute" |} ] /\
  saved w w' /\
  In (InsertWorkout "alice" Sample.long_name 0) (sent w') /\
  workouts (db w')
  = [ {| w_id := "w1"; w_user_id := "alice"; w_name := Sample.long_name;
         w_duration_minutes := Some 0 |} ].
Proof.
  repeat split; try reflexivity.
  left. reflexivity.
Qed.

End WorkoutPageFacts.

(** ** The workout schema *)

Section ValidationsFacts.
Import Validations.

Lemma issue_if_nil failed p m : issue_if failed p m = [] <-> failed = false.
Proof. destruct failed; simpl; split; congruence. Qed.

Lemma issue_if_path failed p m :
  Forall (fun iss => path iss = p) (issue_if failed p m).
Proof. destruct failed; simpl; by repeat constructor. Qed.

Lemma check_name_nil v :
  check_name v = [] <->
  exists s, v = Some s /\ (1 <= String.length (JS.trim s) <= 100)%nat.
Proof.
  destruct v as [s|]; simpl.
  - rewrite app_nil, !issue_if_nil, !Nat.ltb_ge. split.
    + intros [H1 H2]. exists s. split; [done | lia].
    + intros (s' & [= <-] & H). lia.
  - split; [done | intros (s & [=] & _)].
Qed.

Lemma check_notes_nil v :
  check_notes v = [] <-> forall s, v = Some s -> (String.length s <= 500)%nat.
Proof.
  destruct v as [s|]; simpl.
  - rewrite issue_if_nil, Nat.ltb_ge. split.
    + by intros H s' [= <-].
    + intros H. by apply H.
  - split; [by intros _ s [=] | done].
Qed.

Lemma check_duration_minutes_nil v :
  check_duration_minutes v = [] <->
  forall x, v = Some x ->
    exists q, x = Finite q /\ (1 <= q)%Q /\ (q <= 600)%Q.
Proof.
  destruct v as [x|]; simpl.
  2:{ split; [by intros _ x [=] | done]. }
  split.
  - intros H y [= <-].
    destruct x as [q| | |]; try done;
      apply app_nil in H as [H1%issue_if_nil H2%issue_if_nil];
      simpl in *; try done.
    apply negb_false_iff, Qle_bool_iff in H1, H2. eauto.
  - intros H. destruct (H x eq_refl) as (q & -> & H1 & H2).
    apply Qle_bool_iff in H1, H2. rewrite app_nil, !issue_if_nil. simpl.
    by rewrite H1, H2.
Qed.

Lemma check_name_path v : Forall (fun iss => path iss = "name") (check_name v).
Proof.
  destruct v; simpl; [| by repeat constructor].
  apply Forall_app; split; apply issue_if_path.
Qed.

Lemma check_notes_path v : Forall (fun iss => path iss = "notes") (check_notes v).
Proof. destruct v; simpl; [apply issue_if_path | constructor]. Qed.

Lemma check_duration_minutes_path v :
  Forall (fun iss => path iss = "duration_minutes") (check_duration_minutes v).
Proof.
  destruct v as [[q| | |]|]; simpl; try by repeat constructor.
  all: apply Forall_app; split; apply issue_if_path.
Qed.

Lemma accepts_true i : accepts i = true <-> workoutSchema i = [].
Proof. unfold accepts. destruct (workoutSchema i); split; congruence. Qed.

(** On the typed input the schema accepts exactly the inputs within the
    three bounds. *)
Lemma typed_accepts_iff_in_bounds i :
  accepts i = true <->
  name_in_bounds i /\ notes_in_bounds i /\ duration_in_bounds i.
Proof.
  rewrite accepts_true. unfold workoutSchema.
  rewrite !app_nil, check_name_nil, check_notes_nil,
    check_duration_minutes_nil. done.
Qed.

(** The edges of the ranges, and the trimming. *)
Example name_of_100_accepted :
  accepts {| name := Some (repeat_char "a"%char 100); notes := None;
             duration_minutes := Some (Finite 600) |} = true.
Proof. reflexivity. Qed.

Example blank_name_refused :
  workoutSchema {| name := Some "   "; notes := None; duration_minutes := None |}
  = [ {| path := "name"; message := "Workout name is required" |} ].
Proof. reflexivity. Qed.

Example fractional_duration_accepted :
  accepts {| name := Some " Legs "; notes := None;
             duration_minutes := Some (Finite (3 # 2)) |} = true.
Proof. reflexivity. Qed.

End ValidationsFacts.

(** ** The workout schema on any input object *)

Section ParsingFacts.
Import Validations Parsing.

Lemma in_issue_if e failed p m :
  In e (issue_if failed p m) <->
  failed = true /\ e = {| path := p; message := m |}.
Proof.
  destruct failed; simpl; split.
  - intros [<- | []]. done.
  - intros [_ ->]. by left.
  - done.
  - by intros [[=] _].
Qed.

Lemma parsing_check_name_path v :
  Forall (fun iss => path iss = "name") (Parsing.check_name v).
Proof.
  destruct v; simpl; try by repeat constructor.
  apply Forall_app; split; apply issue_if_path.
Qed.

Lemma parsing_check_notes_path v :
  Forall (fun iss => path iss = "notes") (Parsing.check_notes v).
Proof.
  destruct v; simpl; try by repeat constructor.
  apply issue_if_path.
Qed.

Lemma parsing_check_duration_minutes_path v :
  Forall (fun iss => path iss = "duration_minutes")
    (Parsing.check_duration_minutes v).
Proof.
  destruct v as [| |s|[q| | |]|t]; simpl; try by repeat constructor.
  all: apply Forall_app; split; apply issue_if_path.
Qed.

Lemma parsing_check_name_nil v :
  Parsing.check_name v = [] <->
  exists s, v = Str s /\ (1 <= String.length (JS.trim s) <= 100)%nat.
Proof.
  destruct v as [| |s|x|t]; simpl;
    try (split; [done | by intros (s' & [=] & _)]).
  rewrite app_nil, !issue_if_nil, !Nat.ltb_ge. split.
  - intros [H1 H2]. exists s. split; [done | lia].
  - intros (s' & [= <-] & H). lia.
Qed.

Lemma parsing_check_notes_nil v :
  Parsing.check_notes v = [] <->
  v = Undefined \/ exists s, v = Str s /\ (String.length s <= 500)%nat.
Proof.
  destruct v as [| |s|x|t]; simpl;
    try (split; [done | by intros [[=] | (s' & [=] & _)]]).
  - split; [by left | done].
  - rewrite issue_if_nil, Nat.ltb_ge. split.
    + intros H. right. by exists s.
    + by intros [[=] | (s' & [= <-] & H)].
Qed.

Lemma parsing_check_duration_minutes_nil v :
  Parsing.check_duration_minutes v = [] <->
  v = Undefined \/
  exists q, v = Num (Finite q) /\ (1 <= q)%Q /\ (q <= 600)%Q.
Proof.
  destruct v as [| |s|[q| | |]|t]; simpl;
    try (split; [done | by intros [[=] | (q' & [=] & _)]]).
  - split; [by left | done].
  - rewrite app_nil, !issue_if_nil. simpl.
    rewrite !negb_false_iff, !Qle_bool_iff. split.
    + intros [H1 H2]. right. by exists q.
    + by intros [[=] | (q' & [= <-] & H1 & H2)].
Qed.

Lemma parsing_accepts_true i :
  Parsing.accepts i = true <-> Parsing.workoutSchema i = [].
Proof.
  unfold Parsing.accepts. destruct (Parsing.workoutSchema i); split; congruence.
Qed.

(** A list of issues that all carry path [p] reports [p] when it is not
    empty, and reports no other path. *)
Lemma path_reported p l :
  Forall (fun iss => path iss = p) l ->
  (exists m, In {| path := p; message := m |} l) <-> l <> [].
Proof.
  intros Hl. split.
  - intros (m & Hin) ->. destruct Hin.
  - destruct l as [|[p' m] l]; [done |]. intros _.
    apply Forall_cons in Hl as [Hp _]. simpl in Hp. subst p'.
    exists m. by left.
Qed.

Lemma path_not_reported p q m l :
  Forall (fun iss => path iss = p) l -> q <> p ->
  ~ In {| path := q; message := m |} l.
Proof.
  intros Hl Hq Hin. rewrite Forall_forall in Hl.
  apply list_elem_of_In, Hl in Hin. simpl in Hin. congruence.
Qed.

Lemma reports_name m i :
  reports "name" m i
  <-> In {| path := "name"; message := m |} (Parsing.check_name (Parsing.name i)).
Proof.
  unfold reports, Parsing.workoutSchema. rewrite !in_app_iff. split; [| tauto].
  intros [H | [H | H]]; [done | |].
  - by apply (path_not_reported _ _ _ _ (parsing_check_notes_path _)) in H.
  - by apply (path_not_reported _ _ _ _
                (parsing_check_duration_minutes_path _)) in H.
Qed.

Lemma reports_notes m i :
  reports "notes" m i
  <-> In {| path := "notes"; message := m |}
        (Parsing.check_notes (Parsing.notes i)).
Proof.
  unfold reports, Parsing.workoutSchema. rewrite !in_app_iff. split; [| tauto].
  intros [H | [H | H]]; [| done |].
  - by apply (path_not_reported _ _ _ _ (parsing_check_name_path _)) in H.
  - by apply (path_not_reported _ _ _ _
                (parsing_check_duration_minutes_path _)) in H.
Qed.

Lemma reports_duration_minutes m i :
  reports "duration_minutes" m i
  <-> In {| path := "duration_minutes"; message := m |}
        (Parsing.check_duration_minutes (Parsing.duration_minutes i)).
Proof.
  unfold reports, Parsing.workoutSchema. rewrite !in_app_iff. split; [| tauto].
  intros [H | [H | H]]; [| | done].
  - by apply (path_not_reported _ _ _ _ (parsing_check_name_path _)) in H.
  - by apply (path_not_reported _ _ _ _ (parsing_check_notes_path _)) in H.
Qed.

(** Each key is judged on its own: the parse reports a path exactly when
    the value under that key is out of its bounds. *)
Lemma reported_name i :
  reported "name" i <-> ~ Parsing.name_in_bounds i.
Proof.
  unfold reported. setoid_rewrite reports_name.
  rewrite (path_reported _ _ (parsing_check_name_path _)).
  unfold Parsing.name_in_bounds. by rewrite <- parsing_check_name_nil.
Qed.

Lemma reported_notes i :
  reported "notes" i <-> ~ Parsing.notes_in_bounds i.
Proof.
  unfold reported. setoid_rewrite reports_notes.
  rewrite (path_reported _ _ (parsing_check_notes_path _)).
  unfold Parsing.notes_in_bounds. by rewrite <- parsing_check_notes_nil.
Qed.

Lemma reported_duration_minutes i :
  reported "duration_minutes" i <-> ~ Parsing.duration_in_bounds i.
Proof.
  unfold reported. setoid_rewrite reports_duration_minutes.
  rewrite (path_reported _ _ (parsing_check_duration_minutes_path _)).
  unfold Parsing.duration_in_bounds.
  by rewrite <- parsing_check_duration_minutes_nil.
Qed.

Lemma workoutSchema_paths i :
  Forall (fun iss => path iss = "name" \/ path iss = "notes"
                     \/ path iss = "duration_minutes")
    (Parsing.workoutSchema i).
Proof.
  unfold Parsing.workoutSchema. rewrite !Forall_app. repeat split.
  - eapply Forall_impl; [apply parsing_check_name_path |]. by left.
  - eapply Forall_impl; [apply parsing_check_notes_path |]. by right; left.
  - eapply Forall_impl; [apply parsing_check_duration_minutes_path |].
    by right; right.
Qed.

(** The declared messages, each for its own violation. *)
Lemma name_required_iff i :
  reports "name" "Workout name is required" i <->
  exists s, Parsing.name i = Str s /\ String.length (JS.trim s) = 0%nat.
Proof.
  rewrite reports_name.
  destruct (Parsing.name i) as [| |s|[q| | |]|[]]; simpl;
    try (split; [by intros [[=] | []] | by intros (s' & [=] & _)]).
  rewrite in_app_iff, !in_issue_if, Nat.ltb_lt. split.
  - intros [[H _] | [_ [=]]]. exists s. split; [done | lia].
  - intros (s' & [= <-] & H). left. split; [lia | done].
Qed.

Lemma name_too_long_iff i :
  reports "name" "Workout name must be less than 100 characters" i <->
  exists s, Parsing.name i = Str s /\ (100 < String.length (JS.trim s))%nat.
Proof.
  rewrite reports_name.
  destruct (Parsing.name i) as [| |s|[q| | |]|[]]; simpl;
    try (split; [by intros [[=] | []] | by intros (s' & [=] & _)]).
  rewrite in_app_iff, !in_issue_if, !Nat.ltb_lt. split.
  - intros [[_ [=]] | [H _]]. by exists s.
  - intros (s' & [= <-] & H). by right.
Qed.

Lemma notes_too_long_iff i :
  reports "notes" "Notes must be less than 500 characters" i <->
  exists s, Parsing.notes i = Str s /\ (500 < String.length s)%nat.
Proof.
  rewrite reports_notes.
  destruct (Parsing.notes i) as [| |s|[q| | |]|[]]; simpl;
    try (split; [by intros [[=] | []] | by intros (s' & [=] & _)]).
  - split; [done | by intros (s' & [=] & _)].
  - rewrite in_issue_if, Nat.ltb_lt. split.
    + intros [H _]. by exists s.
    + by intros (s' & [= <-] & H).
Qed.

Lemma in_check_number e x :
  In e (Parsing.check_duration_minutes (Num x)) <->
  (x = NaN /\ e = invalid_type "duration_minutes" "number" (Num NaN)) \/
  (lt_bound x 1 = true
   /\ e = {| path := "duration_minutes";
             message := "Duration must be at least 1 minute" |}) \/
  (gt_bound x 600 = true
   /\ e = {| path := "duration_minutes";
             message := "Duration must be less than 600 minutes" |}).
Proof.
  destruct x as [q| | |].
  2:{ simpl. split.
      - intros [<- | []]. by left.
      - intros [[_ ->] | [[[=] _] | [[=] _]]]. by left. }
  all: change (Parsing.check_duration_minutes (Num ?y))
         with (issue_if (lt_bound y 1) "duration_minutes"
                 "Duration must be at least 1 minute"
               ++ issue_if (gt_bound y 600) "duration_minutes"
                    "Duration must be less than 600 minutes");
    rewrite in_app_iff, !in_issue_if; split;
    [ tauto | intros [[[=] _] | H]; exact H ].
Qed.

Lemma duration_too_small_iff i :
  reports "duration_minutes" "Duration must be at least 1 minute" i <->
  exists x, Parsing.duration_minutes i = Num x /\ lt_bound x 1 = true.
Proof.
  rewrite reports_duration_minutes.
  destruct (Parsing.duration_minutes i) as [| |s|x|[]];
    try (simpl; split; [by intros [[=] | []] | by intros (x' & [=] & _)]).
  - simpl. split; [done | by intros (x' & [=] & _)].
  - rewrite in_check_number. split.
    + intros [[_ [=]] | [[H _] | [_ [=]]]]. by exists x.
    + intros (x' & [= <-] & H). right; left. by split.
Qed.

Lemma duration_too_big_iff i :
  reports "duration_minutes" "Duration must be less than 600 minutes" i <->
  exists x, Parsing.duration_minutes i = Num x /\ gt_bound x 600 = true.
Proof.
  rewrite reports_duration_minutes.
  destruct (Parsing.duration_minutes i) as [| |s|x|[]];
    try (simpl; split; [by intros [[=] | []] | by intros (x' & [=] & _)]).
  - simpl. split; [done | by intros (x' & [=] & _)].
  - rewrite in_check_number. split.
    + intros [[_ [=]] | [[_ [=]] | [H _]]]. by exists x.
    + intros (x' & [= <-] & H). right; right. by split.
Qed.

(** A value of the wrong type is reported under its key, as missing or
    with the type found. *)
Lemma name_wrong_type i :
  (forall s, Parsing.name i <> Str s) ->
  In (invalid_type "name" "string" (Parsing.name i)) (Parsing.workoutSchema i).
Proof.
  intros H. unfold Parsing.workoutSchema. apply in_app_iff. left.
  destruct (Parsing.name i) as [| |s|x|t]; simpl; try by left.
  by destruct (H s).
Qed.

Lemma notes_wrong_type i :
  Parsing.notes i <> Undefined -> (forall s, Parsing.notes i <> Str s) ->
  In (invalid_type "notes" "string" (Parsing.notes i)) (Parsing.workoutSchema i).
Proof.
  intros Hu H. unfold Parsing.workoutSchema.
  apply in_app_iff. right. apply in_app_iff. left.
  destruct (Parsing.notes i) as [| |s|x|t]; simpl; try by left.
  - done.
  - by destruct (H s).
Qed.

Lemma duration_wrong_type i :
  Parsing.duration_minutes i <> Undefined ->
  (forall x, Parsing.duration_minutes i = Num x -> x = NaN) ->
  In (invalid_type "duration_minutes" "number" (Parsing.duration_minutes i))
    (Parsing.workoutSchema i).
Proof.
  intros Hu H. unfold Parsing.workoutSchema.
  apply in_app_iff. right. apply in_app_iff. right.
  destruct (Parsing.duration_minutes i) as [| |s|x|t]; simpl; try by left.
  - done.
  - rewrite (H x eq_refl). by left.
Qed.

(** On an input of the typed call the two renderings of the schema give the
    same issues. *)
Lemma workoutSchema_of_input i :
  Parsing.workoutSchema (of_input i) = Validations.workoutSchema i.
Proof.
  destruct i as [[n|] [t|] [[q| | |]|]]; reflexivity.
Qed.

(** C9, as the code has it.  The workout schema accepts exactly the input
    objects whose name is a string that, trimmed, has 1 to 100 characters,
    whose notes are absent or a string of at most 500 characters, and
    whose duration is absent or a number from 1 to 600.  Each key is judged
    on its own: the refusal carries an issue at the path of a key exactly
    when the value under that key is out of its bounds, and every issue is
    at one of the three paths.  The messages are those declared for the
    field and the bound: "Workout name is required" exactly for a name that
    is empty once trimmed, "Workout name must be less than 100 characters"
    exactly for a trimmed name of more than 100, "Notes must be less than
    500 characters" exactly for notes of more than 500, "Duration must be
    at least 1 minute" exactly for a number below 1, "Duration must be less
    than 600 minutes" exactly for a number above 600; a value of the wrong
    type (null among them, and a name that is absent) is reported under its
    key as missing or with the type found. *)
Theorem C9_workoutSchema_accepts_iff_in_bounds i :
  (Parsing.accepts i = true <->
   Parsing.name_in_bounds i /\ Parsing.notes_in_bounds i
   /\ Parsing.duration_in_bounds i) /\
  (Parsing.accepts i = false <-> Parsing.workoutSchema i <> []) /\
  (reported "name" i <-> ~ Parsing.name_in_bounds i) /\
  (reported "notes" i <-> ~ Parsing.notes_in_bounds i) /\
  (reported "duration_minutes" i <-> ~ Parsing.duration_in_bounds i) /\
  Forall (fun iss => path iss = "name" \/ path iss = "notes"
                     \/ path iss = "duration_minutes")
    (Parsing.workoutSchema i) /\
  (reports "name" "Workout name is required" i <->
   exists s, Parsing.name i = Str s /\ String.length (JS.trim s) = 0%nat) /\
  (reports "name" "Workout name must be less than 100 characters" i <->
   exists s, Parsing.name i = Str s /\ (100 < String.length (JS.trim s))%nat) /\
  (reports "notes" "Notes must be less than 500 characters" i <->
   exists s, Parsing.notes i = Str s /\ (500 < String.length s)%nat) /\
  (reports "duration_minutes" "Duration must be at least 1 minute" i <->
   exists x, Parsing.duration_minutes i = Num x /\ lt_bound x 1 = true) /\
  (reports "duration_minutes" "Duration must be less than 600 minutes" i <->
   exists x, Parsing.duration_minutes i = Num x /\ gt_bound x 600 = true) /\
  ((forall s, Parsing.name i <> Str s) ->
   In (invalid_type "name" "string" (Parsing.name i))
     (Parsing.workoutSchema i)) /\
  (Parsing.notes i <> Undefined -> (forall s, Parsing.notes i <> Str s) ->
   In (invalid_type "notes" "string" (Parsing.notes i))
     (Parsing.workoutSchema i)) /\
  (Parsing.duration_minutes i <> Undefined ->
   (forall x, Parsing.duration_minutes i = Num x -> x = NaN) ->
   In (invalid_type "duration_minutes" "number" (Parsing.duration_minutes i))
     (Parsing.workoutSchema i)).
Proof.
  split.
  { rewrite parsing_accepts_true. unfold Parsing.workoutSchema.
    rewrite !app_nil, parsing_check_name_nil, parsing_check_notes_nil,
      parsing_check_duration_minutes_nil. done. }
  split.
  { unfold Parsing.accepts. destruct (Parsing.workoutSchema i); split; congruence. }
  split; [apply reported_name |].
  split; [apply reported_notes |].
  split; [apply reported_duration_minutes |].
  split; [apply workoutSchema_paths |].
  split; [apply name_required_iff |].
  split; [apply name_too_long_iff |].
  split; [apply notes_too_long_iff |].
  split; [apply duration_too_small_iff |].
  split; [apply duration_too_big_iff |].
  split; [apply name_wrong_type |].
  split; [apply notes_wrong_type | apply duration_wrong_type].
Qed.

Lemma C9_workoutSchema_accepts_iff_in_bounds_witness :
  let i := {| Parsing.name := Str Sample.long_name; Parsing.notes := Null;
              Parsing.duration_minutes := Num (Finite 0) |} in
  Parsing.accepts i = false /\
  reports "name" "Workout name must be less than 100 characters" i /\
  reports "notes" "Expected string, received null" i /\
  reports "duration_minutes" "Duration must be at least 1 minute" i /\
  ~ Parsing.name_in_bounds i /\ ~ Parsing.notes_in_bounds i /\
  ~ Parsing.duration_in_bounds i.
Proof.
  intros i.
  destruct (C9_workoutSchema_accepts_iff_in_bounds i)
    as (_ & Hr & Hn & Ht & Hd & _ & _ & Hlong & _ & Hsmall & _ & _ & Hnull & _).
  assert (reports "name" "Workout name must be less than 100 characters" i)
    as R1.
  { apply Hlong. exists Sample.long_name. split; [reflexivity |].
    vm_compute. lia. }
  assert (reports "notes" "Expected string, received null" i) as R2.
  { apply Hnull; [discriminate | intros s; discriminate]. }
  assert (reports "duration_minutes" "Duration must be at least 1 minute" i)
    as R3.
  { apply Hsmall. exists (Finite 0). split; reflexivity. }
  split; [reflexivity |].
  split; [exact R1 |]. split; [exact R2 |]. split; [exact R3 |].
  split; [apply Hn; eexists; exact R1 |].
  split; [apply Ht; eexists; exact R2 | apply Hd; eexists; exact R3].
Defined.

(** C9 as stated fails: a submission with a name and a duration within
    their bounds is refused when its notes have 501 characters. *)
Lemma C9_long_notes_refused :
  let i := {| Parsing.name := Str "Leg Day";
              Parsing.notes := Str (repeat_char "n"%char 501);
              Parsing.duration_minutes := Num (Finite 45) |} in
  (exists s, Parsing.name i = Str s
             /\ (1 <= String.length (JS.trim s) <= 100)%nat) /\
  (exists q, Parsing.duration_minutes i = Num (Finite q)
             /\ (1 <= q)%Q /\ (q <= 600)%Q) /\
  Parsing.accepts i = false /\
  Parsing.workoutSchema i
  = [ {| path := "notes"; message := "Notes must be less than 500 characters" |} ].
Proof.
  intros i. split; [| split; [| split; reflexivity]].
  - exists "Leg Day". split; [reflexivity |]. vm_compute. lia.
  - exists 45%Q. split; [reflexivity |]. split; vm_compute; discriminate.
Qed.

(** Null is not absent: optional notes that are null are refused, and so
    is a duration that is null, not a number, or infinite. *)
Example null_notes_refused :
  Parsing.workoutSchema
    {| Parsing.name := Str "Leg Day"; Parsing.notes := Null;
       Parsing.duration_minutes := Undefined |}
  = [ {| path := "notes"; message := "Expected string, received null" |} ].
Proof. reflexivity. Qed.

Example every_field_reported :
  Parsing.workoutSchema
    {| Parsing.name := Undefined; Parsing.notes := Other T_boolean;
       Parsing.duration_minutes := Num Infinity |}
  = [ {| path := "name"; message := "Required" |};
      {| path := "notes"; message := "Expected string, received boolean" |};
      {| path := "duration_minutes";
         message := "Duration must be less than 600 minutes" |} ].
Proof. reflexivity. Qed.

End ParsingFacts.

(** ** The like toggle *)

Section SocialFacts.
Import Social.

Lemma bump_bump shareId a b l :
  a + b = 0 -> bump shareId b (bump shareId a l) = l.
Proof.
  intros Hab. unfold bump. rewrite List.map_map.
  rewrite <- (List.map_id l) at 2. apply List.map_ext. intros [i o c].
  simpl. destruct (String.eqb i shareId) eqn:E; simpl; rewrite ?E; [| done].
  f_equal. lia.
Qed.

Lemma shown_counts_bump shareId delta s db1 db2 q1 q2 t l :
  shown_counts shareId
    {| page := {| sharedWorkouts := bump shareId delta (sharedWorkouts s);
                  likedWorkouts := l; toasts := t |};
       db := db1; sent := q1 |}
  = List.map (fun c => c + delta)
      (shown_counts shareId {| page := s; db := db2; sent := q2 |}).
Proof.
  unfold shown_counts, bump. simpl.
  induction (sharedWorkouts s) as [|[i o c] r IH]; [done |]. simpl.
  destruct (String.eqb i shareId) eqn:E; simpl; rewrite E; simpl;
    by rewrite ?IH.
Qed.

Lemma has_like_after_delete share_id uid l :
  existsb (is_like share_id uid)
    (List.filter (fun r => negb (is_like share_id uid r)) l) = false.
Proof.
  induction l as [|r l IH]; [done |]. simpl.
  destruct (is_like share_id uid r) eqn:E; simpl; [done |]. by rewrite E.
Qed.

Lemma delete_absent_like share_id uid l :
  existsb (is_like share_id uid) l = false ->
  List.filter (fun r => negb (is_like share_id uid r)) l = l.
Proof.
  induction l as [|r l IH]; [done |]. simpl.
  intros [Hr Hl]%orb_false_elim. rewrite Hr. simpl. by rewrite IH.
Qed.

(** The toggle never writes [workout_shares]. *)
Lemma handleLike_workout_shares user fault shareId w :
  Schema.workout_shares (db (handleLike user fault shareId w))
  = Schema.workout_shares (db w).
Proof.
  unfold handleLike. destruct user as [u|]; [| done].
  destruct (bool_decide _).
  - unfold delete_like. by destruct fault.
  - unfold insert_like. destruct fault; [done |].
    destruct (has_like _ _ _); [done |]. by destruct (has_share _ _).
Qed.

Lemma stored_counts_handleLike user fault shareId sid w :
  stored_counts sid (db (handleLike user fault shareId w))
  = stored_counts sid (db w).
Proof. unfold stored_counts. by rewrite handleLike_workout_shares. Qed.

Lemma handleLike_like u shareId w :
  shareId ∉ likedWorkouts (page w) ->
  has_like shareId (Schema.user_id u) (db w) = false ->
  has_share shareId (db w) = true ->
  handleLike (Some u) None shareId w
  = {| page := {| sharedWorkouts := bump shareId 1 (sharedWorkouts (page w));
                  likedWorkouts := likedWorkouts (page w) ∪ {[ shareId ]};
                  toasts := toasts (page w) |};
       db := Schema.with_workout_likes
               (fun l => l ++ [ {| Schema.l_share_id := shareId;
                                   Schema.l_user_id := Schema.user_id u |} ])
               (db w);
       sent := sent w ++ [InsertLike shareId (Schema.user_id u)] |}.
Proof.
  intros Hl Hr Hs. unfold handleLike, insert_like.
  by rewrite (bool_decide_eq_false_2 _ Hl), Hr, Hs.
Qed.

Lemma handleLike_unlike u shareId w :
  shareId ∈ likedWorkouts (page w) ->
  handleLike (Some u) None shareId w
  = {| page := {| sharedWorkouts := bump shareId (-1) (sharedWorkouts (page w));
                  likedWorkouts := likedWorkouts (page w) ∖ {[ shareId ]};
                  toasts := toasts (page w) |};
       db := Schema.with_workout_likes
               (List.filter
                  (fun r => negb (is_like shareId (Schema.user_id u) r)))
               (db w);
       sent := sent w ++ [DeleteLike shareId (Schema.user_id u)] |}.
Proof.
  intros Hl. unfold handleLike, delete_like.
  by rewrite (bool_decide_eq_true_2 _ Hl).
Qed.

(** Two clicks from the unliked state: the feed and the set of liked shares
    are what they were. *)
Lemma handleLike_twice u shareId w :
  shareId ∉ likedWorkouts (page w) ->
  let w2 := handleLike (Some u) None shareId (handleLike (Some u) None shareId w) in
  sharedWorkouts (page w2) = sharedWorkouts (page w) /\
  likedWorkouts (page w2) = likedWorkouts (page w).
Proof.
  intros Hl.
  destruct (has_like shareId (Schema.user_id u) (db w)) eqn:Hr;
    [| destruct (has_share shareId (db w)) eqn:Hs].
  - assert (forall w', likedWorkouts (page w') = likedWorkouts (page w) ->
              sharedWorkouts (page w') = sharedWorkouts (page w) ->
              db w' = db w ->
              sharedWorkouts (page (handleLike (Some u) None shareId w'))
              = sharedWorkouts (page w) /\
              likedWorkouts (page (handleLike (Some u) None shareId w'))
              = likedWorkouts (page w) /\
              db (handleLike (Some u) None shareId w') = db w) as Hstep.
    { intros w' El Es Ed. unfold handleLike, insert_like.
      rewrite bool_decide_eq_false_2 by (by rewrite El). by rewrite Ed, Hr. }
    destruct (Hstep w) as (E1 & E2 & E3); try done.
    destruct (Hstep _ E2 E1 E3) as (? & ? & _). done.
  - rewrite (handleLike_like u shareId w) by done.
    rewrite handleLike_unlike
      by (simpl; apply elem_of_union_r; by apply elem_of_singleton). simpl. split.
    + by apply bump_bump.
    + apply set_eq. intros x.
      rewrite elem_of_difference, elem_of_union, !elem_of_singleton.
      split; [by intros [[Hx | Hx] Hn] |].
      intros Hx. split; [by left |]. by intros ->.
  - assert (forall w', likedWorkouts (page w') = likedWorkouts (page w) ->
              sharedWorkouts (page w') = sharedWorkouts (page w) ->
              db w' = db w ->
              sharedWorkouts (page (handleLike (Some u) None shareId w'))
              = sharedWorkouts (page w) /\
              likedWorkouts (page (handleLike (Some u) None shareId w'))
              = likedWorkouts (page w) /\
              db (handleLike (Some u) None shareId w') = db w) as Hstep.
    { intros w' El Es Ed. unfold handleLike, insert_like.
      rewrite bool_decide_eq_false_2 by (by rewrite El). by rewrite Ed, Hr, Hs. }
    destruct (Hstep w) as (E1 & E2 & E3); try done.
    destruct (Hstep _ E2 E1 E3) as (? & ? & _). done.
Qed.

Lemma clicks_even u shareId n w :
  shareId ∉ likedWorkouts (page w) ->
  sharedWorkouts (page (clicks u shareId (2 * n) w)) = sharedWorkouts (page w) /\
  likedWorkouts (page (clicks u shareId (2 * n) w)) = likedWorkouts (page w).
Proof.
  intros Hl. induction n as [|n [IHs IHl]]; [done |].
  replace (2 * S n)%nat with (S (S (2 * n))) by lia.
  unfold clicks in *. rewrite !Nat.iter_succ.
  destruct (handleLike_twice u shareId
              (Nat.iter (2 * n) (handleLike (Some u) None shareId) w))
    as [E1 E2].
  { by rewrite IHl. }
  split; [by rewrite E1 | by rewrite E2].
Qed.

(** C2, as the code has it. With a signed-in user and a store that answers:
    from unliked, the toggle inserts the workout_like row and adds one to
    the likes_count the page shows for the share; from liked, it deletes the
    row and takes one off the shown count; the likes_count stored in
    [workout_shares] is not written by either; and from unliked, any even
    number of clicks (as many likes as unlikes) brings the shown count, and
    the set of liked shares, back to what they were. *)
Theorem C2_like_toggle_moves_row_and_shown_count u shareId w :
  let click := handleLike (Some u) None shareId in
  let uid := Schema.user_id u in
  (shareId ∉ likedWorkouts (page w) ->
   has_like shareId uid (db w) = false -> has_share shareId (db w) = true ->
   Schema.workout_likes (db (click w))
   = Schema.workout_likes (db w)
     ++ [ {| Schema.l_share_id := shareId; Schema.l_user_id := uid |} ] /\
   shown_counts shareId (click w)
   = List.map (fun c => c + 1) (shown_counts shareId w) /\
   likedWorkouts (page (click w)) = likedWorkouts (page w) ∪ {[ shareId ]} /\
   stored_counts shareId (db (click w)) = stored_counts shareId (db w)) /\
  (shareId ∈ likedWorkouts (page w) ->
   Schema.workout_likes (db (click w))
   = List.filter (fun r => negb (is_like shareId uid r))
       (Schema.workout_likes (db w)) /\
   has_like shareId uid (db (click w)) = false /\
   shown_counts shareId (click w)
   = List.map (fun c => c + -1) (shown_counts shareId w) /\
   likedWorkouts (page (click w)) = likedWorkouts (page w) ∖ {[ shareId ]} /\
   stored_counts shareId (db (click w)) = stored_counts shareId (db w)) /\
  (forall n, shareId ∉ likedWorkouts (page w) ->
   shown_counts shareId (clicks u shareId (2 * n) w) = shown_counts shareId w /\
   likedWorkouts (page (clicks u shareId (2 * n) w)) = likedWorkouts (page w)).
Proof.
  intros click uid. split; [| split].
  - intros Hl Hr Hs. subst click uid.
    split; [| split; [| split]]; [| | | apply stored_counts_handleLike].
    all: rewrite handleLike_like by done; simpl; try done.
    destruct w as [s d q]. apply shown_counts_bump.
  - intros Hl. subst click uid.
    split; [| split; [| split; [| split]]];
      [| | | | apply stored_counts_handleLike].
    all: rewrite handleLike_unlike by done; simpl; try done.
    + apply has_like_after_delete.
    + destruct w as [s d q]. apply shown_counts_bump.
  - intros n Hl. destruct (clicks_even u shareId n w Hl) as [E1 E2].
    split; [| done]. unfold shown_counts. by rewrite E1.
Qed.

Lemma C2_like_toggle_moves_row_and_shown_count_witness :
  let click := handleLike (Some Sample.alice) None "s1" in
  ("s1" ∉ likedWorkouts (page Sample.feed)) /\
  has_like "s1" "alice" (db Sample.feed) = false /\
  has_share "s1" (db Sample.feed) = true /\
  Schema.workout_likes (db (click Sample.feed))
  = Schema.workout_likes (db Sample.feed)
    ++ [ {| Schema.l_share_id := "s1"; Schema.l_user_id := "alice" |} ] /\
  shown_counts "s1" (click Sample.feed)
  = List.map (fun c => c + 1) (shown_counts "s1" Sample.feed) /\
  likedWorkouts (page (click Sample.feed))
  = likedWorkouts (page Sample.feed) ∪ {[ "s1" ]} /\
  stored_counts "s1" (db (click Sample.feed))
  = stored_counts "s1" (db Sample.feed).
Proof.
  intros click.
  assert ("s1" ∉ likedWorkouts (page Sample.feed)) as Hl
    by (simpl; apply not_elem_of_empty).
  split; [exact Hl |]. split; [reflexivity |]. split; [reflexivity |].
  apply (proj1 (C2_like_toggle_moves_row_and_shown_count
                  Sample.alice "s1" Sample.feed));
    [exact Hl | reflexivity | reflexivity].
Defined.

(** C2 as stated fails: alice likes a share that shows and stores 3 likes;
    the row is inserted and the page shows 4, but the likes_count stored
    for the share is still 3. *)
Lemma C2_stored_count_not_incremented :
  let w' := handleLike (Some Sample.alice) None "s1" Sample.feed in
  has_like "s1" "alice" (db Sample.feed) = false /\
  has_like "s1" "alice" (db w') = true /\
  shown_counts "s1" w' = [4] /\
  stored_counts "s1" (db Sample.feed) = [Some 3] /\
  stored_counts "s1" (db w') = [Some 3] /\
  stored_counts "s1" (db w') <> [Some (3 + 1)].
Proof.
  assert (handleLike (Some Sample.alice) None "s1" Sample.feed
          = {| page := {| sharedWorkouts := bump "s1" 1 (sharedWorkouts (page Sample.feed));
                          likedWorkouts := likedWorkouts (page Sample.feed) ∪ {[ "s1" ]};
                          toasts := [] |};
               db := Schema.with_workout_likes
                       (fun l => l ++ [ {| Schema.l_share_id := "s1";
                                           Schema.l_user_id := "alice" |} ])
                       (db Sample.feed);
               sent := [InsertLike "s1" "alice"] |}) as ->.
  { apply (handleLike_like Sample.alice "s1" Sample.feed);
      [simpl; apply not_elem_of_empty | reflexivity | reflexivity]. }
  repeat split; try reflexivity. simpl. discriminate.
Qed.

End SocialFacts.

(** ** The leaderboard *)

Section LeaderboardFacts.
Import Leaderboard.

Implicit Types (p q : Schema.profile) (users tbl : list Schema.profile).

Lemma findIndex_rows_ahead uid users (mk : Schema.profile -> LeaderboardUser) :
  (forall p, profile (mk p) = p) ->
  findIndex (fun u => String.eqb (Schema.p_user_id (profile u)) uid)
    (List.map mk users)
  = if has_row uid users then Z.of_nat (rows_ahead uid users) else -1.
Proof.
  intros Hmk. unfold has_row.
  induction users as [|p r IH]; [done |]. simpl. rewrite Hmk.
  destruct (String.eqb (Schema.p_user_id p) uid); simpl; [done |].
  rewrite IH. destruct (existsb _ r); [| done].
  destruct (Z.ltb_spec (Z.of_nat (rows_ahead uid r)) 0); lia.
Qed.

Lemma shown_rank_eq uid users :
  shown_rank uid users
  = if has_row uid users then Some (Z.of_nat (rows_ahead uid users) + 1)
    else None.
Proof.
  unfold shown_rank, fetchLeaderboardData, rank_of. simpl.
  rewrite findIndex_rows_ahead by done.
  destruct (has_row uid users); [| done].
  destruct (Z.leb_spec 0 (Z.of_nat (rows_ahead uid users))); [done | lia].
Qed.

Lemma has_row_elem uid users :
  has_row uid users = true <-> uid ∈ Schema.p_user_id <$> users.
Proof.
  unfold has_row. rewrite existsb_exists, list_elem_of_fmap. split.
  - intros (p & Hp & E%String.eqb_eq). exists p. by rewrite list_elem_of_In.
  - intros (p & -> & Hp). exists p. rewrite String.eqb_eq.
    by rewrite <- list_elem_of_In.
Qed.

Lemma rows_ahead_lookup uid users :
  has_row uid users = true ->
  exists p, users !! rows_ahead uid users = Some p /\
    Schema.p_user_id p = uid /\
    Forall (fun q => Schema.p_user_id q <> uid) (take (rows_ahead uid users) users).
Proof.
  unfold has_row. induction users as [|p r IH]; [done |]. simpl.
  destruct (String.eqb (Schema.p_user_id p) uid) eqn:E; simpl.
  - intros _. exists p. apply String.eqb_eq in E. by repeat split.
  - intros (p' & Hl & Hid & Hf)%IH. exists p'. repeat split; try done.
    constructor; [| done]. by apply String.eqb_neq.
Qed.

Lemma sorted_before (R : Schema.profile -> Schema.profile -> Prop) l i p :
  StronglySorted R l -> l !! i = Some p -> Forall (fun q => R q p) (take i l).
Proof.
  intros Hs. revert i. induction Hs as [|x l Hs IH Hx]; intros [|i] Hi;
    simpl in *; try done.
  constructor; [| by apply IH].
  apply (proj1 (Forall_forall _ _) Hx), list_elem_of_lookup. eauto.
Qed.

Lemma points_ge_total a b : points_ge a b = false -> points_ge b a = true.
Proof. destruct a, b; simpl; try done. intros H%Z.leb_gt. apply Z.leb_le. lia. Qed.

Lemma insert_desc_perm p l : Permutation (insert_desc p l) (p :: l).
Proof.
  induction l as [|q r IH]; [done |]. simpl.
  destruct (points_ge _ _); [done |].
  rewrite IH. apply perm_swap.
Qed.

Lemma insert_desc_sorted p l :
  StronglySorted ahead_or_level l -> StronglySorted ahead_or_level (insert_desc p l).
Proof.
  induction 1 as [|q r Hs IH Hq]; simpl; [by repeat constructor |].
  destruct (points_ge (Schema.p_total_points p) (Schema.p_total_points q)) eqn:E.
  - constructor; [by constructor |]. constructor; [done |].
    eapply Forall_impl; [exact Hq |]. intros x Hx. unfold ahead_or_level in *.
    destruct (Schema.p_total_points p), (Schema.p_total_points q),
      (Schema.p_total_points x); simpl in *; try done.
    apply Z.leb_le. apply Z.leb_le in E, Hx. lia.
  - constructor; [done |].
    rewrite insert_desc_perm. constructor; [| done].
    by apply points_ge_total.
Qed.

Lemma order_desc_perm tbl : Permutation (order_desc tbl) tbl.
Proof.
  induction tbl as [|p r IH]; [done |]. simpl.
  by rewrite insert_desc_perm, IH.
Qed.

Lemma order_desc_sorted tbl : StronglySorted ahead_or_level (order_desc tbl).
Proof.
  induction tbl as [|p r IH]; simpl; [constructor | by apply insert_desc_sorted].
Qed.

(** The stable answer is one of the answers the store may give. *)
Lemma top50_query_result tbl : query_result tbl (top50 tbl).
Proof.
  exists (order_desc tbl).
  split; [apply order_desc_perm |]. split; [apply order_desc_sorted | done].
Qed.

Lemma query_result_elem tbl users p :
  query_result tbl users -> p ∈ users -> p ∈ tbl.
Proof.
  intros (sorted & Hp & _ & ->) Hin.
  rewrite <- Hp. by apply (subseteq_take 50 sorted).
Qed.

(** Someone strictly ahead of everybody else is the first row. *)
Lemma strictly_highest_first tbl users uid :
  query_result tbl users ->
  uid ∈ Schema.p_user_id <$> tbl ->
  (forall p q, p ∈ tbl -> q ∈ tbl ->
     Schema.p_user_id p = uid -> Schema.p_user_id q <> uid ->
     points_ge (Schema.p_total_points q) (Schema.p_total_points p) = false) ->
  shown_rank uid users = Some 1.
Proof.
  intros (sorted & Hp & Hs & ->) (p & Hid & Hin)%list_elem_of_fmap Hhigh.
  rewrite shown_rank_eq.
  rewrite <- Hp in Hin.
  destruct sorted as [|x rest]; [by apply elem_of_nil in Hin |].
  change (take 50 (x :: rest)) with (x :: take 49 rest).
  unfold has_row. simpl.
  destruct (String.eqb (Schema.p_user_id x) uid) eqn:E; [done |].
  apply String.eqb_neq in E. exfalso.
  apply elem_of_cons in Hin as [-> | Hin]; [done |].
  apply StronglySorted_inv in Hs as [_ Hx].
  pose proof (proj1 (Forall_forall _ _) Hx p Hin) as Hxp.
  unfold ahead_or_level in Hxp.
  rewrite (Hhigh p x) in Hxp; try done; rewrite <- Hp; set_solver.
Qed.

(** Someone strictly behind everybody else is the last row, which is row N
    when the table has at most 50 rows. *)
Lemma strictly_lowest_last tbl users uid :
  query_result tbl users ->
  (length tbl <= 50)%nat ->
  NoDup (Schema.p_user_id <$> tbl) ->
  uid ∈ Schema.p_user_id <$> tbl ->
  (forall p q, p ∈ tbl -> q ∈ tbl ->
     Schema.p_user_id p = uid -> Schema.p_user_id q <> uid ->
     points_ge (Schema.p_total_points p) (Schema.p_total_points q) = false) ->
  shown_rank uid users = Some (Z.of_nat (length tbl)).
Proof.
  intros (sorted & Hp & Hs & ->) Hlen Hnd Hin Hlow.
  rewrite take_ge by (by rewrite Hp).
  rewrite <- Hp in Hin, Hnd, Hlen |- *.
  assert (forall x, x ∈ sorted -> x ∈ tbl) as Hsub by (intros x; by rewrite Hp).
  rewrite shown_rank_eq.
  apply has_row_elem in Hin as Hrow. rewrite Hrow.
  destruct (rows_ahead_lookup uid sorted Hrow) as (p & Hk & Hid & _).
  set (k := rows_ahead uid sorted) in *.
  f_equal.
  assert (sorted !! S k = None) as Hend.
  { destruct (sorted !! S k) as [q|] eqn:Hq; [exfalso | done].
    destruct (decide (Schema.p_user_id q = uid)) as [Hqid | Hqid].
    - assert (k = S k); [| lia].
      eapply (NoDup_lookup _ _ _ uid Hnd);
        rewrite list_lookup_fmap; [rewrite Hk | rewrite Hq]; simpl; congruence.
    - pose proof (sorted_before _ _ _ _ Hs Hq) as Hb.
      assert (p ∈ take (S k) sorted) as Hpin.
      { apply list_elem_of_lookup. exists k. rewrite lookup_take_lt by lia. done. }
      pose proof (proj1 (Forall_forall _ _) Hb p Hpin) as Hpq.
      unfold ahead_or_level in Hpq.
      rewrite (Hlow p q) in Hpq; try done; apply Hsub, list_elem_of_lookup; eauto. }
  apply lookup_ge_None in Hend. apply lookup_lt_Some in Hk. lia.
Qed.

(** C3, as the code has it. The page is given the first 50 profiles by
    total_points descending.  A user whose row is among them gets as rank
    1 + the number of rows in front of it, each of which has at least as
    many points; a user whose row is not among them gets no rank, and with
    at most 50 profiles every profile gets one.  A user with strictly more
    points than every other profile gets rank 1; with at most 50 profiles
    (and one profile per user), a user with strictly fewer points than
    every other gets rank N.  Between level users the store's order
    decides. *)
Theorem C3_rank_is_position_in_top_50 tbl users uid :
  query_result tbl users ->
  (forall r, shown_rank uid users = Some r ->
     r = 1 + Z.of_nat (rows_ahead uid users) /\ 1 <= r <= 50 /\
     exists p, users !! rows_ahead uid users = Some p /\
       Schema.p_user_id p = uid /\ p ∈ tbl /\
       Forall (fun q => ahead_or_level q p) (take (rows_ahead uid users) users)) /\
  (shown_rank uid users = None <-> uid ∉ Schema.p_user_id <$> users) /\
  ((length tbl <= 50)%nat -> uid ∈ Schema.p_user_id <$> tbl ->
   is_Some (shown_rank uid users)) /\
  (uid ∈ Schema.p_user_id <$> tbl ->
   (forall p q, p ∈ tbl -> q ∈ tbl ->
      Schema.p_user_id p = uid -> Schema.p_user_id q <> uid ->
      points_ge (Schema.p_total_points q) (Schema.p_total_points p) = false) ->
   shown_rank uid users = Some 1) /\
  ((length tbl <= 50)%nat -> NoDup (Schema.p_user_id <$> tbl) ->
   uid ∈ Schema.p_user_id <$> tbl ->
   (forall p q, p ∈ tbl -> q ∈ tbl ->
      Schema.p_user_id p = uid -> Schema.p_user_id q <> uid ->
      points_ge (Schema.p_total_points p) (Schema.p_total_points q) = false) ->
   shown_rank uid users = Some (Z.of_nat (length tbl))).
Proof.
  intros Hq. split; [| split; [| split; [| split]]].
  - intros r. rewrite shown_rank_eq.
    destruct (has_row uid users) eqn:Hrow; [| done]. intros [= <-].
    destruct (rows_ahead_lookup uid users Hrow) as (p & Hk & Hid & _).
    pose proof Hq as (sorted & Hp & Hs & ->).
    apply lookup_lt_Some in Hk as Hlt. rewrite length_take in Hlt.
    split; [lia |]. split; [lia |].
    exists p. repeat split; try done.
    + eapply query_result_elem; [exact Hq |]. apply list_elem_of_lookup. eauto.
    + rewrite take_take, Nat.min_l by lia.
      apply sorted_before; [done |].
      by apply lookup_take_Some in Hk as [Hk _].
  - rewrite shown_rank_eq, <- has_row_elem.
    destruct (has_row uid users); split; done.
  - intros Hlen Hin. destruct Hq as (sorted & Hp & Hs & ->).
    rewrite take_ge by (by rewrite Hp).
    rewrite <- Hp in Hin. apply has_row_elem in Hin.
    rewrite shown_rank_eq, Hin. eauto.
  - by apply strictly_highest_first.
  - by apply strictly_lowest_last.
Qed.

Lemma C3_rank_is_position_in_top_50_witness :
  query_result Sample.podium (top50 Sample.podium) /\
  shown_rank "ann" (top50 Sample.podium) = Some 1 /\
  shown_rank "cat" (top50 Sample.podium) = Some 3.
Proof.
  pose proof (top50_query_result Sample.podium) as Hq.
  assert (forall uid, uid ∈ Schema.p_user_id <$> Sample.podium <->
                      uid = "cat" \/ uid = "ann" \/ uid = "bob") as Hids.
  { intros uid. unfold Sample.podium. simpl.
    rewrite !elem_of_cons, elem_of_nil. tauto. }
  assert (forall p, p ∈ Sample.podium ->
            p = Sample.member "cat" 40 \/ p = Sample.member "ann" 100 \/
            p = Sample.member "bob" 70) as Hrows.
  { intros p. unfold Sample.podium. rewrite !elem_of_cons, elem_of_nil. tauto. }
  split; [exact Hq |]. split.
  - apply (proj1 (proj2 (proj2 (proj2
             (C3_rank_is_position_in_top_50 Sample.podium _ "ann" Hq))))).
    + apply Hids. tauto.
    + intros p q [-> | [-> | ->]]%Hrows [-> | [-> | ->]]%Hrows; simpl;
        intros Ep Eq; first [reflexivity | congruence].
  - apply (proj2 (proj2 (proj2 (proj2
             (C3_rank_is_position_in_top_50 Sample.podium _ "cat" Hq))))).
    + simpl. lia.
    + unfold Sample.podium. simpl.
      repeat constructor; rewrite ?elem_of_cons, ?elem_of_nil;
        intros H; repeat destruct H as [H | H]; done.
    + apply Hids. tauto.
    + intros p q [-> | [-> | ->]]%Hrows [-> | [-> | ->]]%Hrows; simpl;
        intros Ep Eq; first [reflexivity | congruence].
Defined.

(** C3 as stated fails.  Two profiles level on 100 points: the store may
    answer ann then bob; bob has the highest total_points and gets rank 2,
    and ann, level with the last of N = 2, gets rank 1.  With 51 profiles
    the one with the fewest points is outside the 50 rows the page asks for
    and gets no rank at all. *)
Lemma C3_level_users_and_row_51 :
  query_result Sample.level_pair Sample.level_pair /\
  Forall (fun p => points_ge (Some 100) (Schema.p_total_points p) = true)
    Sample.level_pair /\
  Forall (fun p => points_ge (Schema.p_total_points p) (Some 100) = true)
    Sample.level_pair /\
  shown_rank "bob" Sample.level_pair = Some 2 /\
  shown_rank "ann" Sample.level_pair = Some 1 /\
  query_result Sample.crowd (top50 Sample.crowd) /\
  length Sample.crowd = 51%nat /\
  Forall (fun p => points_ge (Schema.p_total_points p) (Some 1) = true)
    Sample.crowd /\
  shown_rank "u" (top50 Sample.crowd) = None.
Proof.
  split; [exact (top50_query_result Sample.level_pair) |].
  split; [by repeat constructor |]. split; [by repeat constructor |].
  split; [reflexivity |]. split; [reflexivity |].
  split; [apply top50_query_result |]. split; [reflexivity |].
  split; [| by vm_compute].
  apply Forall_forall. intros p Hp.
  apply list_elem_of_In, in_map_iff in Hp as (n & <- & Hn).
  apply in_seq in Hn. simpl. apply Z.leb_le. lia.
Qed.

(** Samples: the stable answer for the podium, and the ranks it gives. *)
Example podium_order :
  List.map Schema.p_user_id (top50 Sample.podium) = ["ann"; "bob"; "cat"].
Proof. reflexivity. Qed.

Example podium_rank_of_a_stranger : shown_rank "dan" (top50 Sample.podium) = None.
Proof. reflexivity. Qed.

End LeaderboardFacts.

(** ** The level progress card *)

Section DashboardFacts.
Import Dashboard.

Lemma points_some prof p : total_points prof = Some p -> points (Some prof) = p.
Proof.
  intros H. unfold points. rewrite H.
  destruct (Z.eqb_spec p 0); congruence.
Qed.

(** C5. For a profile whose total_points [p] is not negative, the card
    computes [p mod 1000] as the points within the level, which the bar
    shows in tenths of a percent of its width, and [1000 - p mod 1000] as
    the XP to the next level.  For 1450 they are 450 and 550. *)
Theorem C5_level_progress prof p :
  total_points prof = Some p ->
  0 <= p ->
  levelPoints (Some prof) = p mod 1000 /\
  xpToNext (Some prof) = 1000 - p mod 1000 /\
  (barWidth (Some prof) == inject_Z (p mod 1000) / 10)%Q /\
  (p = 1450 -> levelPoints (Some prof) = 450 /\ xpToNext (Some prof) = 550).
Proof.
  intros H Hp. unfold levelPoints, xpToNext, barWidth, levelPoints.
  rewrite (points_some _ _ H).
  rewrite Z.rem_mod_nonneg by lia.
  split; [done |]. split; [done |]. split.
  - apply Q.min_l.
    pose proof (Z.mod_pos_bound p 1000 ltac:(lia)) as Hb.
    unfold Qle, Qdiv, Qmult, Qinv. simpl. lia.
  - by intros ->.
Qed.

Lemma C5_level_progress_witness :
  let prof := {| username := "alice"; fitness_level := Some 2;
                 total_points := Some 1450 |} in
  levelPoints (Some prof) = 450 /\ xpToNext (Some prof) = 550.
Proof.
  intros prof.
  apply (proj2 (proj2 (proj2
           (C5_level_progress prof 1450 eq_refl ltac:(lia))))).
  reflexivity.
Defined.

(** C5, the total that is negative.  The column total_points is a plain
    integer that no constraint keeps from being negative, and [%] is the
    remainder of the division, which takes the sign of the total: at
    -1450 the card computes -450 points within the level and 1450 XP to
    the next level, where the modulo gives 550 and 450; the bar gets a
    negative width. *)
Lemma C5_negative_total_uses_remainder :
  let prof := {| username := "alice"; fitness_level := Some 2;
                 total_points := Some (-1450) |} in
  levelPoints (Some prof) = -450 /\
  xpToNext (Some prof) = 1450 /\
  (barWidth (Some prof) == -45)%Q /\
  (-1450) mod 1000 = 550 /\
  levelPoints (Some prof) <> (-1450) mod 1000 /\
  xpToNext (Some prof) <> 1000 - (-1450) mod 1000.
Proof. vm_compute. repeat split; congruence. Qed.

(** Without a profile, or with a null total, the card shows an empty bar
    and a full level to go. *)
Example level_progress_no_profile :
  levelPoints None = 0 /\ xpToNext None = 1000.
Proof. done. Qed.

End DashboardFacts.

(** ** The average workout time *)

Section AnalyticsFacts.
Import Analytics.

Lemma fold_left_sum (l : list Row) a :
  List.fold_left (fun sum w => sum + default 0 (duration_minutes w)) l a
  = a + sum_list (List.map (fun w => default 0 (duration_minutes w)) l).
Proof.
  unfold sum_list. revert a. induction l as [|w l IH]; intros a; simpl; [lia |].
  rewrite IH. lia.
Qed.

Lemma select_durations_values uid d :
  List.map (fun w => default 0 (duration_minutes w)) (select_durations uid d)
  = durations uid d.
Proof.
  unfold select_durations, durations.
  induction (Schema.workouts d) as [|w l IH]; [done |]. simpl.
  destruct (String.eqb (Schema.w_user_id w) uid); simpl; [| done].
  destruct (Schema.w_duration_minutes w) as [m|] eqn:E; simpl; [| done].
  rewrite E. simpl. f_equal. exact IH.
Qed.

Lemma total_select uid d :
  total (select_durations uid d) = sum_list (durations uid d).
Proof.
  unfold total. rewrite fold_left_sum, select_durations_values. lia.
Qed.

Lemma length_select uid d :
  length (select_durations uid d) = length (durations uid d).
Proof. by rewrite <- select_durations_values, length_map. Qed.

(** Before rounding, [avgTime] is the mean. *)
Lemma avgTime_mean uid d :
  durations uid d <> [] ->
  avgTime (Some (select_durations uid d)) = mean (durations uid d).
Proof.
  intros Hne. unfold avgTime, mean.
  rewrite length_select, total_select.
  destruct (durations uid d); [done | done].
Qed.

Lemma Math_round_nearest x :
  (inject_Z (JS.Math_round x) - (1 # 2) <= x)%Q /\
  (x < inject_Z (JS.Math_round x) + (1 # 2))%Q.
Proof.
  unfold JS.Math_round.
  pose proof (Qfloor_le (x + (1 # 2))) as H1.
  pose proof (Qlt_floor (x + (1 # 2))) as H2.
  rewrite inject_Z_plus in H2. change (inject_Z 1) with 1%Q in H2.
  set (n := inject_Z (Qfloor (x + (1 # 2)))) in *. split; lra.
Qed.

(** C7, as the code has it. The average workout time shown is the
    arithmetic mean of duration_minutes over exactly the user's workouts
    that have a duration, rounded to the nearest whole minute (a half goes
    up); it is zero when the user has no such workout. *)
Theorem C7_average_is_rounded_mean uid d others s :
  (durations uid d = [] -> shown_average uid d others s = 0) /\
  (durations uid d <> [] ->
   shown_average uid d others s = JS.Math_round (mean (durations uid d)) /\
   (inject_Z (shown_average uid d others s) - (1 # 2)
    <= mean (durations uid d))%Q /\
   (mean (durations uid d)
    < inject_Z (shown_average uid d others s) + (1 # 2))%Q).
Proof.
  assert (shown_average uid d others s
          = JS.Math_round (avgTime (Some (select_durations uid d)))) as ->
    by reflexivity.
  split.
  - intros He. unfold avgTime. rewrite length_select, He. done.
  - intros Hne. rewrite (avgTime_mean _ _ Hne).
    split; [done |]. apply Math_round_nearest.
Qed.

Lemma C7_average_is_rounded_mean_witness :
  durations "alice" Sample.db_with_sessions <> [] /\
  shown_average "alice" Sample.db_with_sessions Sample.no_replies
    Sample.blank_analytics
  = JS.Math_round (mean (durations "alice" Sample.db_with_sessions)).
Proof.
  assert (durations "alice" Sample.db_with_sessions <> []) as Hne by done.
  split; [exact Hne |].
  apply (proj2 (C7_average_is_rounded_mean "alice" Sample.db_with_sessions
                  Sample.no_replies Sample.blank_analytics) Hne).
Defined.

(** C7 as stated fails: alice's workouts with a duration last 1 and 2
    minutes; their mean is 3/2 and the page shows 2. *)
Lemma C7_average_of_1_and_2_shows_2 :
  durations "alice" Sample.db_with_sessions = [1; 2] /\
  (mean (durations "alice" Sample.db_with_sessions) == 3 # 2)%Q /\
  shown_average "alice" Sample.db_with_sessions Sample.no_replies
    Sample.blank_analytics = 2 /\
  ~ (inject_Z
       (shown_average "alice" Sample.db_with_sessions Sample.no_replies
          Sample.blank_analytics)
     == mean (durations "alice" Sample.db_with_sessions))%Q.
Proof.
  split; [reflexivity |]. split; [reflexivity |]. split; [reflexivity |].
  vm_compute. discriminate.
Qed.

End AnalyticsFacts.

(** ** Achievement grants *)

Section AchievementsFacts.
Import Achievements.
Variable other : string -> Schema.uuid -> Schema.Database -> Z.

Lemma filter_none {A} (f : A -> bool) l :
  existsb f l = false -> List.filter f l = [].
Proof.
  induction l as [|x l IH]; [done |]. simpl.
  intros [Hx Hl]%orb_false_elim. rewrite Hx. by apply IH.
Qed.

Lemma is_grant_eq uid aid uid' aid' :
  is_grant uid' aid'
    {| Schema.ua_user_id := uid; Schema.ua_achievement_id := aid |} = true ->
  uid = uid' /\ aid = aid'.
Proof. unfold is_grant. simpl. by intros [?%String.eqb_eq ?%String.eqb_eq]%andb_prop. Qed.

Lemma is_grant_refl uid aid :
  is_grant uid aid
    {| Schema.ua_user_id := uid; Schema.ua_achievement_id := aid |} = true.
Proof. unfold is_grant. simpl. by rewrite !String.eqb_refl. Qed.

Lemma has_after_add_points uid aid uid' reward d :
  has_user_achievement uid aid (add_points uid' reward d)
  = has_user_achievement uid aid d.
Proof. done. Qed.

(** The store's insert keeps one row per (user, achievement) pair, whoever
    sends it. *)
Lemma insert_user_achievement_unique uid aid d d' :
  unique_grants d -> insert_user_achievement uid aid d = inl d' ->
  unique_grants d'.
Proof.
  unfold insert_user_achievement, unique_grants, grants, has_user_achievement.
  intros Hu. destruct (existsb _ _) eqn:Hh; [done |]. intros [= <-] uid' aid'.
  simpl. rewrite List.filter_app, length_app. simpl.
  destruct (is_grant uid' aid' _) eqn:E; simpl.
  - apply is_grant_eq in E as [<- <-]. by rewrite (filter_none _ _ Hh).
  - specialize (Hu uid' aid'). lia.
Qed.

Lemma insert_user_achievement_twice uid aid d d' :
  insert_user_achievement uid aid d = inl d' ->
  exists m, insert_user_achievement uid aid d' = inr m.
Proof.
  unfold insert_user_achievement, has_user_achievement.
  destruct (existsb _ _) eqn:Hh; [done |]. intros [= <-]. simpl.
  rewrite existsb_app. simpl. rewrite is_grant_refl, orb_true_r. eauto.
Qed.

Lemma has_iff_grants uid aid d :
  has_user_achievement uid aid d = true <-> (0 < grants uid aid d)%nat.
Proof.
  unfold has_user_achievement, grants. split.
  - intros (x & Hx & Hx')%existsb_exists.
    assert (In x (List.filter (is_grant uid aid) (Schema.user_achievements d)))
      as Hin by (by apply filter_In).
    destruct (List.filter _ _); [done | simpl; lia].
  - destruct (existsb _ _) eqn:E; [done |].
    rewrite (filter_none _ _ E). simpl. lia.
Qed.

Lemma insert_user_achievement_refused uid aid d :
  (0 < grants uid aid d)%nat ->
  exists m, insert_user_achievement uid aid d = inr m.
Proof.
  intros H%has_iff_grants. unfold insert_user_achievement. rewrite H. eauto.
Qed.

Lemma insert_user_achievement_adds_one uid aid d d' :
  insert_user_achievement uid aid d = inl d' ->
  grants uid aid d = 0%nat /\ grants uid aid d' = 1%nat.
Proof.
  unfold insert_user_achievement, has_user_achievement, grants.
  destruct (existsb _ _) eqn:Hh; [done |]. intros [= <-]. simpl.
  rewrite List.filter_app, length_app. simpl. rewrite is_grant_refl.
  by rewrite (filter_none _ _ Hh).
Qed.

Lemma grant_granted a uid d :
  has_user_achievement uid (Schema.a_id a) d = true -> grant a uid d = d.
Proof. intros H. unfold grant, insert_user_achievement. by rewrite H. Qed.

Lemma grant_new a uid d :
  has_user_achievement uid (Schema.a_id a) d = false ->
  grant a uid d
  = add_points uid (Schema.a_points_reward a)
      (Schema.with_user_achievements
         (fun l => l ++ [ {| Schema.ua_user_id := uid;
                             Schema.ua_achievement_id := Schema.a_id a |} ]) d).
Proof. intros H. unfold grant, insert_user_achievement. by rewrite H. Qed.

Lemma has_after_grant a uid d :
  has_user_achievement uid (Schema.a_id a) d = false ->
  has_user_achievement uid (Schema.a_id a) (grant a uid d) = true.
Proof.
  intros H. rewrite (grant_new a uid d H), has_after_add_points.
  unfold has_user_achievement. simpl.
  rewrite existsb_app. simpl. by rewrite is_grant_refl, orb_true_r.
Qed.

(** The grant needs no look at the table first: the store refuses the
    second row, and with it the second reward. *)
Lemma grant_idempotent a uid d :
  grant a uid (grant a uid d) = grant a uid d.
Proof.
  destruct (has_user_achievement uid (Schema.a_id a) d) eqn:Hh.
  - by rewrite !(grant_granted a uid d Hh).
  - apply grant_granted. by apply has_after_grant.
Qed.

Lemma evaluate_granted a uid d :
  has_user_achievement uid (Schema.a_id a) d = true ->
  evaluate_achievement other a uid d = d.
Proof.
  intros H. unfold evaluate_achievement. rewrite H.
  by rewrite andb_false_r.
Qed.

Lemma evaluate_grants a uid d :
  Schema.a_requirement_value a
  <= aggregate other (Schema.a_requirement_type a) uid d ->
  has_user_achievement uid (Schema.a_id a) d = false ->
  evaluate_achievement other a uid d
  = add_points uid (Schema.a_points_reward a)
      (Schema.with_user_achievements
         (fun l => l ++ [ {| Schema.ua_user_id := uid;
                             Schema.ua_achievement_id := Schema.a_id a |} ]) d).
Proof.
  intros Ht Hh. unfold evaluate_achievement.
  rewrite Hh, (grant_new a uid d Hh). simpl.
  by rewrite (proj2 (Z.leb_le _ _) Ht).
Qed.

Lemma points_after_grant uid reward d :
  points_of uid (add_points uid reward d)
  = List.map (fun p => Some (default 0 p + reward)) (points_of uid d).
Proof.
  unfold points_of, add_points. simpl.
  induction (Schema.profiles d) as [|p l IH]; [done |]. simpl.
  destruct (String.eqb (Schema.p_user_id p) uid) eqn:E; simpl; rewrite E;
    simpl; by rewrite IH.
Qed.

(** C6. The store enforces one row per (user, achievement) pair: an insert
    into user_achievements is refused when the pair has a row, an insert
    the store takes adds the one row of its pair and keeps every pair at
    one row at most, and the same insert sent again is refused.  So the
    grant is idempotent by the constraint alone: granting twice in
    succession, with no look at the table in between, is granting once.
    Evaluating an achievement a second time changes nothing: the store
    after two evaluations in succession is the store after one, and it
    keeps at most one row per pair.  When the threshold is met and the user
    had no row, the two evaluations leave exactly one row and add
    [points_reward] to the user's points once. *)
Theorem C6_achievement_grant_is_idempotent a uid d :
  let d1 := evaluate_achievement other a uid d in
  let d2 := evaluate_achievement other a uid d1 in
  (forall uid' aid',
     (0 < grants uid' aid' d)%nat ->
     exists m, insert_user_achievement uid' aid' d = inr m) /\
  (forall uid' aid' d',
     insert_user_achievement uid' aid' d = inl d' ->
     grants uid' aid' d' = 1%nat /\
     (unique_grants d -> unique_grants d') /\
     exists m, insert_user_achievement uid' aid' d' = inr m) /\
  grant a uid (grant a uid d) = grant a uid d /\
  d2 = d1 /\
  (unique_grants d -> unique_grants d2) /\
  (Schema.a_requirement_value a
   <= aggregate other (Schema.a_requirement_type a) uid d ->
   grants uid (Schema.a_id a) d = 0%nat ->
   grants uid (Schema.a_id a) d2 = 1%nat /\
   points_of uid d2
   = List.map (fun p => Some (default 0 p + Schema.a_points_reward a))
       (points_of uid d)).
Proof.
  intros d1 d2.
  split; [intros uid' aid'; apply insert_user_achievement_refused |].
  split.
  { intros uid' aid' d' Hi. split; [| split].
    - exact (proj2 (insert_user_achievement_adds_one _ _ _ _ Hi)).
    - intros Hu. exact (insert_user_achievement_unique _ _ _ _ Hu Hi).
    - exact (insert_user_achievement_twice _ _ _ _ Hi). }
  split; [apply grant_idempotent |].
  assert (d2 = d1) as ->.
  { subst d2 d1.
    destruct (has_user_achievement uid (Schema.a_id a) d) eqn:Hh.
    - by rewrite !(evaluate_granted a uid d Hh).
    - destruct (Z.leb (Schema.a_requirement_value a)
                  (aggregate other (Schema.a_requirement_type a) uid d)) eqn:Ht.
      + apply Z.leb_le in Ht. rewrite (evaluate_grants a uid d Ht Hh).
        apply evaluate_granted.
        rewrite has_after_add_points. unfold has_user_achievement. simpl.
        rewrite existsb_app. simpl. by rewrite is_grant_refl, orb_true_r.
      + assert (evaluate_achievement other a uid d = d) as E
          by (unfold evaluate_achievement; by rewrite Ht).
        by rewrite !E. }
  split; [done |]. subst d1. split.
  - intros Hu. unfold evaluate_achievement, grant.
    destruct (_ && _); [| done].
    destruct (insert_user_achievement uid (Schema.a_id a) d) as [d' | m] eqn:Hi;
      [| done].
    intros uid' aid'.
    exact (insert_user_achievement_unique _ _ _ _ Hu Hi uid' aid').
  - intros Ht Hg.
    assert (has_user_achievement uid (Schema.a_id a) d = false) as Hh.
    { destruct (has_user_achievement uid (Schema.a_id a) d) eqn:E; [| done].
      apply has_iff_grants in E. lia. }
    rewrite (evaluate_grants a uid d Ht Hh). split.
    + unfold grants. simpl. rewrite List.filter_app, length_app. simpl.
      rewrite is_grant_refl. simpl.
      unfold has_user_achievement in Hh. by rewrite (filter_none _ _ Hh).
    + by rewrite points_after_grant.
Qed.

End AchievementsFacts.

Lemma C6_achievement_grant_is_idempotent_witness :
  let d := Sample.db_first_workout in
  let d2 :=
    Achievements.evaluate_achievement Sample.no_other_aggregate
      Sample.first_workout "alice"
      (Achievements.evaluate_achievement Sample.no_other_aggregate
         Sample.first_workout "alice" d) in
  Achievements.grants "alice" "a1" d2 = 1%nat /\
  Achievements.points_of "alice" d2 = [Some 100] /\
  (exists d', Achievements.insert_user_achievement "alice" "a1" d = inl d' /\
     Achievements.grants "alice" "a1" d' = 1%nat /\
     exists m, Achievements.insert_user_achievement "alice" "a1" d' = inr m).
Proof.
  intros d d2.
  destruct (C6_achievement_grant_is_idempotent
              Sample.no_other_aggregate Sample.first_workout "alice" d)
    as (_ & Hins & _ & _ & _ & Heval).
  destruct Heval as [Hg Hp]; [vm_compute; discriminate | reflexivity |].
  split; [exact Hg |]. split; [exact Hp |].
  eexists. split; [reflexivity |].
  destruct (Hins "alice" "a1" _ eq_refl) as (H1 & _ & H2).
  split; [exact H1 | exact H2].
Defined.

(** * Further properties *)

(** ** The workout builder: saving *)

Section SavingFacts.
Import Schema WorkoutPage Builder.

Lemma can_save_false user s :
  can_save user s = false <->
  user = None \/ JS.truthy_string (JS.trim (workoutName s)) = false \/
  workoutExercises s = [].
Proof.
  unfold can_save. destruct user as [u|]; [| by split; [left |]].
  destruct (JS.truthy_string _); simpl.
  - destruct (workoutExercises s) as [|ex l]; simpl; split; try done.
    + by right; right.
    + by intros [? | [? | ?]].
  - split; [by right; left | done].
Qed.

Lemma saveWorkout_guarded user r w :
  can_save user (page w) = false ->
  saveWorkout user r w
  = {| page := toast invalidToast (page w); db := db w; sent := sent w |}.
Proof.
  unfold can_save, saveWorkout. destruct user as [u|]; [| done].
  destruct (JS.truthy_string _); simpl; [| done].
  by destruct (length _ =? 0)%nat.
Qed.

Lemma saveWorkout_unguarded u r w :
  can_save (Some u) (page w) = true ->
  saveWorkout (Some u) r w
  = let s := page w in
    let loading := set_isLoading true s in
    let insert1 := InsertWorkout (user_id u) (workoutName s) 0 in
    match workout_reply r with
    | inr message =>
        {| page := set_isLoading false (toast (failedToast message) loading);
           db := db w; sent := sent w ++ [insert1] |}
    | inl workout_id =>
        let db1 :=
          with_workouts
            (fun l => l ++ [ {| w_id := workout_id; w_user_id := user_id u;
                                w_name := workoutName s;
                                w_duration_minutes := Some 0 |} ])
            (db w) in
        let rows := workoutExerciseData workout_id (workoutExercises s) in
        let insert2 := InsertWorkoutExercises rows in
        match exercises_reply r with
        | Some message =>
            {| page := set_isLoading false (toast (failedToast message) loading);
               db := db1; sent := sent w ++ [insert1; insert2] |}
        | None =>
            {| page := set_isLoading false
                         (set_workoutExercises []
                            (set_workoutName EmptyString
                               (toast savedToast loading)));
               db := with_workout_exercises (fun l => l ++ rows) db1;
               sent := sent w ++ [insert1; insert2] |}
        end
    end.
Proof.
  unfold can_save, saveWorkout. intros [Hn Hl]%andb_prop.
  rewrite Hn. apply negb_true_iff in Hl. by rewrite Hl.
Qed.

(** X1. A save sends nothing to the store exactly when nobody is signed in,
    the name is blank once trimmed, or the builder has no entry; then the
    store and the form are left as they are and the only effect is the
    "Invalid workout" notification. *)
Theorem saveWorkout_sends_nothing_iff_guard_fails user r w :
  let w' := saveWorkout user r w in
  (sent w' = sent w <->
   user = None \/ JS.truthy_string (JS.trim (workoutName (page w))) = false \/
   workoutExercises (page w) = []) /\
  (sent w' = sent w ->
   db w' = db w /\
   workoutName (page w') = workoutName (page w) /\
   workoutExercises (page w') = workoutExercises (page w) /\
   toasts (page w') = toasts (page w) ++ [invalidToast]).
Proof.
  intros w'. subst w'.
  assert (sent (saveWorkout user r w) = sent w <-> can_save user (page w) = false)
    as Hiff.
  { destruct (can_save user (page w)) eqn:Hc.
    - destruct user as [u|]; [| done]. rewrite (saveWorkout_unguarded _ _ _ Hc).
      split; [| done]. simpl.
      destruct (workout_reply r); [destruct (exercises_reply r) |]; simpl;
        intros H; apply (f_equal length) in H; rewrite length_app in H;
        simpl in H; lia.
    - by rewrite (saveWorkout_guarded _ _ _ Hc). }
  split; [by rewrite Hiff, can_save_false |].
  intros Hs%Hiff. by rewrite (saveWorkout_guarded _ _ _ Hs).
Qed.

Lemma saveWorkout_sends_nothing_iff_guard_fails_witness :
  let w := Sample.filled Sample.empty_db "   " in
  let w' := saveWorkout (Some Sample.alice) Sample.both_ok w in
  db w' = db w /\
  workoutName (page w') = workoutName (page w) /\
  workoutExercises (page w') = workoutExercises (page w) /\
  toasts (page w') = toasts (page w) ++ [invalidToast].
Proof.
  intros w w'.
  apply (proj2 (saveWorkout_sends_nothing_iff_guard_fails
                  (Some Sample.alice) Sample.both_ok w)).
  reflexivity.
Defined.

(** X2. A save the store refuses keeps the form as typed and shows the
    store's message (a stock text when the message is empty).  When it is
    the first insert that fails nothing is stored; when it is the second,
    the workout row stays in [workouts] with no exercise rows: the save
    does not undo its first write. *)
Theorem saveWorkout_failure_keeps_form_and_first_write u r w :
  can_save (Some u) (page w) = true ->
  let w' := saveWorkout (Some u) r w in
  (forall m, workout_reply r = inr m ->
     db w' = db w /\
     sent w' = sent w ++ [InsertWorkout (user_id u) (workoutName (page w)) 0] /\
     workoutName (page w') = workoutName (page w) /\
     workoutExercises (page w') = workoutExercises (page w) /\
     isLoading (page w') = false /\
     toasts (page w') = toasts (page w) ++ [failedToast m]) /\
  (forall workout_id m,
     workout_reply r = inl workout_id -> exercises_reply r = Some m ->
     workouts (db w')
     = workouts (db w)
       ++ [ {| w_id := workout_id; w_user_id := user_id u;
               w_name := workoutName (page w);
               w_duration_minutes := Some 0 |} ] /\
     workout_exercises (db w') = workout_exercises (db w) /\
     workoutName (page w') = workoutName (page w) /\
     workoutExercises (page w') = workoutExercises (page w) /\
     isLoading (page w') = false /\
     toasts (page w') = toasts (page w) ++ [failedToast m]) /\
  (forall m, description (failedToast m)
             = if JS.truthy_string m then m
               else "An error occurred while saving your workout.").
Proof.
  intros Hc w'. subst w'. rewrite (saveWorkout_unguarded _ _ _ Hc).
  split; [| split; [| done]].
  - intros m ->. done.
  - intros wid m -> ->. done.
Qed.

Lemma saveWorkout_failure_keeps_form_and_first_write_witness :
  let w := Sample.filled Sample.empty_db "Push Day" in
  let r := {| workout_reply := inl "w1";
              exercises_reply := Some "numeric field overflow" |} in
  let w' := saveWorkout (Some Sample.alice) r w in
  List.map w_id (workouts (db w')) = ["w1"] /\
  workout_exercises (db w') = [] /\
  workoutName (page w') = "Push Day".
Proof.
  intros w r w'.
  destruct (proj1 (proj2 (saveWorkout_failure_keeps_form_and_first_write
                            Sample.alice r w eq_refl))
              "w1" "numeric field overflow" eq_refl eq_refl)
    as (Hw & He & Hn & _).
  subst w'. rewrite Hw, He, Hn. repeat split.
Defined.

End SavingFacts.

Section SavedFacts.
Import Schema WorkoutPage Builder.

Lemma workoutExerciseData_chosen workout_id wes :
  workoutExerciseData workout_id wes
  = List.map
      (fun ex => {| we_workout_id := workout_id; we_exercise_id := exerciseId ex;
                    we_sets := Some (sets ex); we_reps := reps ex;
                    we_weight := weight ex |})
      (chosen wes).
Proof. done. Qed.

Lemma chosen_truthy wes :
  Forall (fun ex => exerciseId ex <> EmptyString) (chosen wes).
Proof.
  unfold chosen. apply Forall_forall. intros ex Hex.
  apply list_elem_of_In, filter_In in Hex as [_ Hex].
  by destruct (exerciseId ex).
Qed.

(** X3. A save the store accepts empties the form, so that saving again at
    once is refused by the guard and stores nothing more.  The rows added
    to [workout_exercises] are the entries with an exercise chosen, in the
    order of the builder, each under the id of the workout just created;
    entries with no exercise chosen are dropped without notice. *)
Theorem saveWorkout_success_stores_chosen_entries u r w workout_id :
  JS.truthy_string (JS.trim (workoutName (page w))) = true ->
  workoutExercises (page w) <> [] ->
  workout_reply r = inl workout_id -> exercises_reply r = None ->
  let w' := saveWorkout (Some u) r w in
  let rows := workoutExerciseData workout_id (workoutExercises (page w)) in
  workoutName (page w') = EmptyString /\
  workoutExercises (page w') = [] /\
  (forall user' r', db (saveWorkout user' r' w') = db w' /\
                    sent (saveWorkout user' r' w') = sent w') /\
  workout_exercises (db w') = workout_exercises (db w) ++ rows /\
  Forall (fun row => we_workout_id row = workout_id) rows /\
  List.map we_exercise_id rows
  = List.map exerciseId (chosen (workoutExercises (page w))) /\
  List.map we_sets rows
  = List.map (fun ex => Some (sets ex)) (chosen (workoutExercises (page w))) /\
  List.map we_reps rows = List.map reps (chosen (workoutExercises (page w))) /\
  List.map we_weight rows = List.map weight (chosen (workoutExercises (page w))) /\
  Forall (fun row => we_exercise_id row <> EmptyString) rows.
Proof.
  intros Hn Hne Hr He w' rows.
  assert (can_save (Some u) (page w) = true) as Hc.
  { unfold can_save. rewrite Hn. by destruct (workoutExercises (page w)). }
  subst w'. rewrite (saveWorkout_unguarded _ _ _ Hc), Hr, He. simpl.
  split; [done |]. split; [done |]. split.
  { intros user' r'. rewrite saveWorkout_guarded; [done |].
    unfold can_save. simpl. by destruct user'. }
  split; [done |]. subst rows. rewrite workoutExerciseData_chosen.
  rewrite !List.map_map. simpl.
  split; [apply Forall_forall; intros row Hrow;
          apply list_elem_of_In, in_map_iff in Hrow as (ex & <- & _); done |].
  repeat split; try done.
  apply Forall_forall. intros row Hrow.
  apply list_elem_of_In, in_map_iff in Hrow as (ex & <- & Hex). simpl.
  apply list_elem_of_In in Hex.
  exact (proj1 (Forall_forall _ _) (chosen_truthy _) ex Hex).
Qed.

Lemma saveWorkout_success_stores_chosen_entries_witness :
  let w := WorkoutPage.handle (Sample.filled Sample.empty_db "Push Day")
             ClickAddExercise in
  let w' := saveWorkout (Some Sample.alice) Sample.both_ok w in
  length (workoutExercises (page w)) = 2%nat /\
  workoutExercises (page w') = [] /\
  List.map we_exercise_id (workout_exercises (db w')) = ["bench"].
Proof.
  intros w w'.
  destruct (saveWorkout_success_stores_chosen_entries
              Sample.alice Sample.both_ok w "w1" eq_refl
              ltac:(discriminate) eq_refl eq_refl)
    as (_ & Hf & _ & Hrows & _).
  subst w'. rewrite Hf, Hrows. repeat split.
Defined.

(** *** What the builder keeps about its entries *)

Lemma array_set_filled {A} (a : JS.array A) j v :
  (j < length a)%nat -> Forall is_Some a ->
  Forall is_Some (JS.array_set a j v).
Proof.
  intros Hj Ha. unfold JS.array_set.
  destruct (decide (j < length a)%nat); [| lia].
  apply Forall_insert; by eauto.
Qed.

Lemma entry_ok_addExercise exs wes :
  Forall (entry_ok exs) wes -> Forall (entry_ok exs) (addExercise wes).
Proof.
  intros H. unfold addExercise. apply Forall_app. split; [done |].
  constructor; [| constructor].
  split; [by split |]. split; [| by left].
  split; [done |]. split; repeat constructor; by eauto.
Qed.

Lemma entry_ok_select exs wes i value l :
  existsb (fun x => String.eqb (id x) value) exs = true ->
  Forall (entry_ok exs) wes ->
  updateExercise exs wes i (Set_exerciseId value) = Some l ->
  Forall (entry_ok exs) l.
Proof.
  intros Hv H. unfold updateExercise.
  destruct (wes !! i) as [ex|] eqn:E; simpl; [| done].
  intros [= <-]. apply Forall_insert; [done |].
  destruct (proj1 (Forall_lookup _ _) H i ex E) as (Ha & Hf & _).
  split; [done |]. split; [done |]. right. simpl.
  destruct (List.find _ exs) as [e|] eqn:Hfind.
  - apply List.find_some in Hfind as [Hin Heq%String.eqb_eq].
    exists e. by repeat split.
  - apply existsb_exists in Hv as (e & Hin & He).
    by rewrite (List.find_none _ _ Hfind e Hin) in He.
Qed.

Lemma entry_ok_removeExercise exs wes i :
  Forall (entry_ok exs) wes -> Forall (entry_ok exs) (removeExercise wes i).
Proof. intros H. unfold removeExercise. by apply Forall_delete. Qed.

Lemma entry_ok_addSet exs wes i l :
  Forall (entry_ok exs) wes -> addSet wes i = Some l -> Forall (entry_ok exs) l.
Proof.
  intros H. unfold addSet.
  destruct (wes !! i) as [ex|] eqn:E; simpl; [| done].
  intros [= <-]. apply Forall_insert; [done |].
  destruct (proj1 (Forall_lookup _ _) H i ex E)
    as ([Hr Hw] & (Hs & Hfr & Hfw) & Hsel).
  split; [| split; [| done]].
  - split; simpl; rewrite length_push; lia.
  - split; simpl; [lia |].
    unfold JS.push. split; apply Forall_app; split; try done;
      repeat constructor; by eauto.
Qed.

Lemma entry_ok_removeSet exs wes i j ex l :
  Forall (entry_ok exs) wes -> wes !! i = Some ex -> Z.of_nat j < sets ex ->
  removeSet wes i j = Some l -> Forall (entry_ok exs) l.
Proof.
  intros H E Hj. unfold removeSet. rewrite E. simpl.
  destruct (proj1 (Forall_lookup _ _) H i ex E)
    as ([Hr Hw] & (Hs & Hfr & Hfw) & Hsel).
  destruct (decide (sets ex > 1)); intros [= <-]; [| done].
  apply Forall_insert; [done |]. split; [| split; [| done]].
  - split; simpl.
    + pose proof (length_splice1_in (reps ex) j). lia.
    + pose proof (length_splice1_in (weight ex) j). lia.
  - split; simpl; [lia |]. unfold JS.splice1. split; by apply Forall_delete.
Qed.

Lemma entry_ok_updateSet exs wes i j ex u l :
  Forall (entry_ok exs) wes -> wes !! i = Some ex -> Z.of_nat j < sets ex ->
  updateSet wes i j u = Some l -> Forall (entry_ok exs) l.
Proof.
  intros H E Hj. unfold updateSet. rewrite E. simpl.
  destruct (proj1 (Forall_lookup _ _) H i ex E)
    as ([Hr Hw] & (Hs & Hfr & Hfw) & Hsel).
  intros [= <-]. apply Forall_insert; [done |].
  destruct u; (split; [| split; [| done]]).
  - split; simpl; [rewrite length_array_set_in; lia | done].
  - split; simpl; [done |]. split; [| done]. apply array_set_filled; [lia | done].
  - split; simpl; [done | rewrite length_array_set_in; lia].
  - split; simpl; [done |]. split; [done |]. apply array_set_filled; [lia | done].
Qed.

Lemma row_ok_data exs workout_id wes :
  Forall (entry_ok exs) wes ->
  Forall (row_ok exs) (workoutExerciseData workout_id wes).
Proof.
  intros H. rewrite workoutExerciseData_chosen.
  apply Forall_forall. intros row Hrow.
  apply list_elem_of_In, in_map_iff in Hrow as (ex & <- & Hex).
  apply list_elem_of_In in Hex.
  pose proof (proj1 (Forall_forall _ _) (chosen_truthy wes) ex Hex) as Hid.
  unfold chosen in Hex. apply list_elem_of_In, filter_In in Hex as [Hex _].
  apply list_elem_of_In in Hex.
  destruct (proj1 (Forall_forall _ _) H ex Hex)
    as ([Hr Hw] & (Hs & Hfr & Hfw) & Hsel).
  split; [by exists (sets ex) |]. split.
  - split; [by exists (sets ex) | done].
  - split; [done |]. destruct Hsel as [He | (e & Hin & Hide & _)]; [done |].
    by exists e.
Qed.

(** The list of exercises, the entries and the rows sent, along a run. *)
Lemma reachable_entries exs d w :
  reachable exs d w ->
  exercises (page w) = exs /\
  Forall (entry_ok exs) (workoutExercises (page w)) /\
  Forall (fun q => Forall (row_ok exs) (rows_of q)) (sent w).
Proof.
  induction 1 as [| w e Hw (Hx & Hp & Hs) Hr]; [by repeat split |].
  destruct e as [value | | i value | i | i j value | i j value | i j | i | user r];
    simpl in *.
  - done.
  - split; [done |]. split; [by apply entry_ok_addExercise | done].
  - apply andb_prop in Hr as [_ Hr]. rewrite Hx in Hr.
    destruct (updateExercise _ _ _ _) as [l|] eqn:El; simpl; [| done].
    split; [done |]. split; [| done]. rewrite Hx in El.
    by eapply entry_ok_select.
  - split; [done |]. split; [by apply entry_ok_removeExercise | done].
  - apply set_row_rendered_inv in Hr as (ex & E & Hj).
    destruct (updateSet _ _ _ _) as [l|] eqn:El; simpl; [| done].
    split; [done |]. split; [by eapply entry_ok_updateSet | done].
  - apply set_row_rendered_inv in Hr as (ex & E & Hj).
    destruct (updateSet _ _ _ _) as [l|] eqn:El; simpl; [| done].
    split; [done |]. split; [by eapply entry_ok_updateSet | done].
  - apply andb_prop in Hr as [Hr _].
    apply set_row_rendered_inv in Hr as (ex & E & Hj).
    destruct (removeSet _ _ _) as [l|] eqn:El; simpl; [| done].
    split; [done |]. split; [by eapply entry_ok_removeSet | done].
  - destruct (addSet _ _) as [l|] eqn:El; simpl; [| done].
    split; [done |]. split; [by eapply entry_ok_addSet | done].
  - unfold saveWorkout. destruct user as [u|]; [| done].
    destruct (negb _ || _); [done |].
    destruct (workout_reply r) as [wid | m]; simpl.
    + pose proof (row_ok_data exs wid _ Hp) as Hrows.
      destruct (exercises_reply r); simpl; (split; [done |]);
        (split; [done |]); apply Forall_app; split; try done;
        by repeat constructor.
    + split; [done |]. split; [done |]. apply Forall_app; split; [done |].
      by repeat constructor.
Qed.

End SavedFacts.

Section BuilderFacts.
Import Schema WorkoutPage Builder.

(** X4. In every state the builder can reach, each entry has at least one
    set and a number in every slot of its reps and weight arrays, and so
    has every row of every [workout_exercises] insert sent: no row goes out
    with zero sets or with a null among its reps or weights. *)
Theorem builder_entries_have_a_set_and_no_holes exs d w :
  reachable exs d w ->
  Forall filled_in (workoutExercises (page w)) /\
  Forall (fun q => Forall row_filled_in (rows_of q)) (sent w).
Proof.
  intros (_ & Hp & Hs)%reachable_entries. split.
  - eapply Forall_impl; [exact Hp |]. by intros ex (_ & ? & _).
  - eapply Forall_impl; [exact Hs |]. intros q Hq.
    eapply Forall_impl; [exact Hq |]. by intros row (_ & ? & _).
Qed.

Lemma builder_entries_have_a_set_and_no_holes_witness :
  Forall filled_in (workoutExercises (page (Sample.filled Sample.empty_db "Push Day"))) /\
  Forall (fun q => Forall row_filled_in (rows_of q)) (sent Sample.push_day_saved).
Proof.
  split.
  - apply (builder_entries_have_a_set_and_no_holes Sample.catalogue Sample.empty_db).
    unfold Sample.filled.
    repeat (apply reach_event; [| reflexivity]). apply reach_mounted.
  - apply (builder_entries_have_a_set_and_no_holes Sample.catalogue Sample.empty_db).
    unfold Sample.push_day_saved, Sample.filled.
    repeat (apply reach_event; [| reflexivity]). apply reach_mounted.
Defined.

(** X5. In every state the builder can reach, an entry either has no
    exercise chosen or carries the id and the name of an exercise of the
    fetched list; every row sent to [workout_exercises] names an exercise
    of that list. *)
Theorem builder_rows_name_fetched_exercises exs d w :
  reachable exs d w ->
  exercises (page w) = exs /\
  Forall (selected_from exs) (workoutExercises (page w)) /\
  Forall (fun q => Forall (row_selected_from exs) (rows_of q)) (sent w).
Proof.
  intros (Hx & Hp & Hs)%reachable_entries. split; [done |]. split.
  - eapply Forall_impl; [exact Hp |]. by intros ex (_ & _ & ?).
  - eapply Forall_impl; [exact Hs |]. intros q Hq.
    eapply Forall_impl; [exact Hq |]. by intros row (_ & _ & ?).
Qed.

Lemma builder_rows_name_fetched_exercises_witness :
  exercises (page Sample.push_day_saved) = Sample.catalogue /\
  Forall (selected_from Sample.catalogue)
    (workoutExercises (page Sample.push_day_saved)) /\
  Forall (fun q => Forall (row_selected_from Sample.catalogue) (rows_of q))
    (sent Sample.push_day_saved).
Proof.
  apply (builder_rows_name_fetched_exercises Sample.catalogue Sample.empty_db).
  unfold Sample.push_day_saved, Sample.filled.
  repeat (apply reach_event; [| reflexivity]). apply reach_mounted.
Defined.

(** X6. Undoing an addition: removing the set that [addSet] has just
    appended gives back the builder as it was, and so does removing the
    entry that [addExercise] has just appended. *)
Theorem builder_add_then_remove_is_identity wes :
  removeExercise (addExercise wes) (length wes) = wes /\
  (forall i ex,
     wes !! i = Some ex -> aligned ex -> 1 <= sets ex ->
     exists l, addSet wes i = Some l /\
       removeSet l i (Z.to_nat (sets ex)) = Some wes).
Proof.
  split.
  - unfold removeExercise, addExercise.
    rewrite delete_middle. by rewrite app_nil_r.
  - intros i ex E [Hr Hw] Hs. unfold addSet. rewrite E. simpl.
    eexists. split; [reflexivity |]. unfold removeSet.
    rewrite list_lookup_insert_eq by (by eapply lookup_lt_Some). simpl.
    destruct (decide (sets ex + 1 > 1)); [| lia].
    rewrite list_insert_insert_eq. f_equal.
    apply list_insert_id. rewrite E. f_equal.
    destruct ex as [eid ename n rs ws]. simpl in *. f_equal; [lia | |].
    + unfold JS.splice1, JS.push.
      replace (Z.to_nat n) with (length rs) by lia.
      rewrite delete_middle. by rewrite app_nil_r.
    + unfold JS.splice1, JS.push.
      replace (Z.to_nat n) with (length ws) by lia.
      rewrite delete_middle. by rewrite app_nil_r.
Qed.

Lemma builder_add_then_remove_is_identity_witness :
  let wes := workoutExercises (page (Sample.filled Sample.empty_db "Push Day")) in
  exists l, addSet wes 0 = Some l /\ removeSet l 0 2 = Some wes.
Proof.
  intros wes.
  apply (proj2 (builder_add_then_remove_is_identity wes) 0%nat _ eq_refl);
    [by split | done].
Defined.

(** X7. Typing in a box of a rendered set writes that one slot.  In the
    reps box: the slot of [reps] reads back the number typed, every other
    slot of the entry, the array of weights, the set count and the chosen
    exercise are as before, and so is every other entry.  In the weight
    box: the same with the slot of [weight], and the array of reps as
    before. *)
Theorem updateSet_writes_one_slot wes i j ex :
  wes !! i = Some ex ->
  (forall value, (j < length (reps ex))%nat ->
   exists ex',
     updateSet wes i j (Set_rep value) = Some (<[i := ex']> wes) /\
     reps ex' !! j = Some (Some value) /\
     (forall k, k <> j -> reps ex' !! k = reps ex !! k) /\
     length (reps ex') = length (reps ex) /\
     weight ex' = weight ex /\ sets ex' = sets ex /\
     exerciseId ex' = exerciseId ex /\ exerciseName ex' = exerciseName ex /\
     length (<[i := ex']> wes) = length wes /\
     (forall k, k <> i -> <[i := ex']> wes !! k = wes !! k)) /\
  (forall value, (j < length (weight ex))%nat ->
   exists ex',
     updateSet wes i j (Set_kg value) = Some (<[i := ex']> wes) /\
     weight ex' !! j = Some (Some value) /\
     (forall k, k <> j -> weight ex' !! k = weight ex !! k) /\
     length (weight ex') = length (weight ex) /\
     reps ex' = reps ex /\ sets ex' = sets ex /\
     exerciseId ex' = exerciseId ex /\ exerciseName ex' = exerciseName ex /\
     length (<[i := ex']> wes) = length wes /\
     (forall k, k <> i -> <[i := ex']> wes !! k = wes !! k)).
Proof.
  intros E. split; intros value Hj; unfold updateSet; rewrite E; simpl;
    (eexists; split; [reflexivity |]); simpl; unfold JS.array_set.
  - destruct (decide (j < length (reps ex))%nat); [| lia].
    split; [by apply list_lookup_insert_eq |].
    split; [intros k Hk; by apply list_lookup_insert_ne |].
    split; [apply length_insert |]. repeat split; try done.
    + apply length_insert.
    + intros k Hk. by apply list_lookup_insert_ne.
  - destruct (decide (j < length (weight ex))%nat); [| lia].
    split; [by apply list_lookup_insert_eq |].
    split; [intros k Hk; by apply list_lookup_insert_ne |].
    split; [apply length_insert |]. repeat split; try done.
    + apply length_insert.
    + intros k Hk. by apply list_lookup_insert_ne.
Qed.

Lemma updateSet_writes_one_slot_witness :
  let wes := workoutExercises (page (Sample.filled Sample.empty_db "Push Day")) in
  (exists ex',
     updateSet wes 0 1 (Set_rep 8) = Some (<[0%nat := ex']> wes) /\
     reps ex' !! 1%nat = Some (Some 8) /\ reps ex' !! 0%nat = Some (Some 0)) /\
  (exists ex',
     updateSet wes 0 1 (Set_kg 62.5%Q) = Some (<[0%nat := ex']> wes) /\
     weight ex' !! 1%nat = Some (Some 62.5%Q) /\
     weight ex' !! 0%nat = Some (Some 0%Q)).
Proof.
  intros wes.
  destruct (updateSet_writes_one_slot wes 0 1 _ eq_refl) as [Hr Hw].
  split.
  - destruct (Hr 8 ltac:(simpl; lia)) as (ex' & Hu & Hj & Hk & _).
    exists ex'. split; [exact Hu |]. split; [exact Hj |].
    rewrite (Hk 0%nat); [reflexivity | discriminate].
  - destruct (Hw 62.5%Q ltac:(simpl; lia)) as (ex' & Hu & Hj & Hk & _).
    exists ex'. split; [exact Hu |]. split; [exact Hj |].
    rewrite (Hk 0%nat); [reflexivity | discriminate].
Defined.

(** *** What the page writes *)

Lemma handle_tables w e :
  profiles (db (handle w e)) = profiles (db w) /\
  personal_bests (db (handle w e)) = personal_bests (db w) /\
  achievements (db (handle w e)) = achievements (db w) /\
  user_achievements (db (handle w e)) = user_achievements (db w) /\
  workout_shares (db (handle w e)) = workout_shares (db w) /\
  workout_likes (db (handle w e)) = workout_likes (db w) /\
  (exists ws, workouts (db (handle w e)) = workouts (db w) ++ ws /\
     Forall (fun row => w_duration_minutes row = Some 0) ws) /\
  (exists rows, workout_exercises (db (handle w e))
                = workout_exercises (db w) ++ rows).
Proof.
  assert (forall o, db (edit o w) = db w) as He by (by intros []).
  destruct e; simpl; rewrite ?He;
    try (repeat split; try done; exists []; by rewrite app_nil_r).
  pose proof (saveWorkout_tables user r w) as (H1 & H2 & H3 & H4 & H5 & H6).
  repeat split; try done.
  - unfold saveWorkout. destruct user as [u|].
    2:{ exists []. by rewrite app_nil_r. }
    destruct (negb _ || _).
    { exists []. by rewrite app_nil_r. }
    destruct (workout_reply r) as [wid | m].
    2:{ exists []. by rewrite app_nil_r. }
    eexists [_].
    destruct (exercises_reply r); simpl; (split; [reflexivity |]);
      by repeat constructor.
  - unfold saveWorkout. destruct user as [u|].
    2:{ exists []. by rewrite app_nil_r. }
    destruct (negb _ || _).
    { exists []. by rewrite app_nil_r. }
    destruct (workout_reply r) as [wid | m].
    2:{ exists []. by rewrite app_nil_r. }
    destruct (exercises_reply r); simpl.
    + exists []. by rewrite app_nil_r.
    + by eexists.
Qed.

Lemma builder_only_appends_lemma exs d w :
  reachable exs d w ->
  exists ws, workouts (db w) = workouts d ++ ws /\
    Forall (fun row => w_duration_minutes row = Some 0) ws.
Proof.
  induction 1 as [| w e Hw (ws & I7 & I7') Hr].
  - exists []. by rewrite app_nil_r.
  - destruct (handle_tables w e) as (_ & _ & _ & _ & _ & _ & (ws' & H7 & H7') & _).
    exists (ws ++ ws'). rewrite H7, I7, app_assoc. split; [done |].
    by apply Forall_app.
Qed.

(** X8. Whatever is done on the workout page, the store only grows: rows
    are appended to [workouts] (each with duration 0) and to
    [workout_exercises], no row of them is changed or removed, and no other
    table is written: the page awards no points and grants no
    achievement. *)
Theorem builder_only_appends exs d w :
  reachable exs d w ->
  profiles (db w) = profiles d /\
  personal_bests (db w) = personal_bests d /\
  achievements (db w) = achievements d /\
  user_achievements (db w) = user_achievements d /\
  workout_shares (db w) = workout_shares d /\
  workout_likes (db w) = workout_likes d /\
  (exists ws, workouts (db w) = workouts d ++ ws /\
     Forall (fun row => w_duration_minutes row = Some 0) ws) /\
  (exists rows, workout_exercises (db w) = workout_exercises d ++ rows).
Proof.
  induction 1 as [| w e Hw (I1 & I2 & I3 & I4 & I5 & I6 & (ws & I7 & I7') & (rows & I8)) Hr].
  - repeat split; try done; [exists [] | exists []]; by rewrite ?app_nil_r.
  - destruct (handle_tables w e)
      as (H1 & H2 & H3 & H4 & H5 & H6 & (ws' & H7 & H7') & (rows' & H8)).
    repeat split; try congruence.
    + exists (ws ++ ws'). rewrite H7, I7, app_assoc. split; [done |].
      by apply Forall_app.
    + exists (rows ++ rows'). by rewrite H8, I8, app_assoc.
Qed.

Lemma builder_only_appends_witness :
  profiles (db Sample.push_day_saved) = profiles Sample.empty_db /\
  personal_bests (db Sample.push_day_saved) = personal_bests Sample.empty_db /\
  achievements (db Sample.push_day_saved) = achievements Sample.empty_db /\
  user_achievements (db Sample.push_day_saved)
  = user_achievements Sample.empty_db /\
  workout_shares (db Sample.push_day_saved) = workout_shares Sample.empty_db /\
  workout_likes (db Sample.push_day_saved) = workout_likes Sample.empty_db /\
  (exists ws, workouts (db Sample.push_day_saved)
              = workouts Sample.empty_db ++ ws /\
     Forall (fun row => w_duration_minutes row = Some 0) ws) /\
  (exists rows, workout_exercises (db Sample.push_day_saved)
                = workout_exercises Sample.empty_db ++ rows).
Proof.
  apply (builder_only_appends Sample.catalogue Sample.empty_db).
  unfold Sample.push_day_saved, Sample.filled.
  repeat (apply reach_event; [| reflexivity]). apply reach_mounted.
Defined.

End BuilderFacts.

(** ** The average workout time: range *)

Section AverageFacts.
Import Analytics.

Lemma sum_list_bounds lo hi l :
  Forall (fun m => lo <= m <= hi) l ->
  lo * Z.of_nat (length l) <= sum_list l <= hi * Z.of_nat (length l).
Proof.
  unfold sum_list. induction 1 as [|m l Hm _ IH]; simpl length; simpl fold_right;
    [lia | nia].
Qed.

Lemma mean_bounds lo hi l :
  l <> [] -> Forall (fun m => lo <= m <= hi) l ->
  (inject_Z lo <= mean l)%Q /\ (mean l <= inject_Z hi)%Q.
Proof.
  intros Hne Hl. pose proof (sum_list_bounds lo hi l Hl) as [H1 H2].
  assert (0 < Z.of_nat (length l)) as Hn by (destruct l; [done | simpl; lia]).
  assert (0 < inject_Z (Z.of_nat (length l)))%Q as Hq
    by (rewrite <- (Zlt_Qlt 0); exact Hn).
  unfold mean. split.
  - apply Qle_shift_div_l; [done |].
    rewrite <- inject_Z_mult, <- Zle_Qle. lia.
  - apply Qle_shift_div_r; [done |].
    rewrite <- inject_Z_mult, <- Zle_Qle. lia.
Qed.

Lemma Math_round_bounds lo hi x :
  (inject_Z lo <= x)%Q -> (x <= inject_Z hi)%Q ->
  lo <= JS.Math_round x <= hi.
Proof.
  intros H1 H2. destruct (Math_round_nearest x) as [H3 H4].
  set (n := JS.Math_round x) in *.
  assert (inject_Z lo < inject_Z n + 1)%Q as Hlo by lra.
  assert (inject_Z n < inject_Z hi + 1)%Q as Hhi by lra.
  change 1%Q with (inject_Z 1) in Hlo, Hhi.
  rewrite <- inject_Z_plus, <- Zlt_Qlt in Hlo, Hhi. lia.
Qed.

Lemma shown_average_cases uid d others s :
  shown_average uid d others s
  = match durations uid d with
    | [] => 0
    | _ => JS.Math_round (mean (durations uid d))
    end.
Proof.
  assert (shown_average uid d others s
          = JS.Math_round (avgTime (Some (select_durations uid d)))) as ->
    by reflexivity.
  destruct (durations uid d) as [|m l] eqn:E.
  - unfold avgTime. by rewrite length_select, E.
  - rewrite avgTime_mean by (by rewrite E). by rewrite E.
Qed.

(** X9. The average shown lies between the shortest and the longest of the
    user's recorded durations: rounding never takes it out of their range.
    In particular, when all those workouts last the same [m] minutes the
    page shows [m]. *)
Theorem average_within_range_of_durations uid d others s lo hi :
  durations uid d <> [] ->
  Forall (fun m => lo <= m <= hi) (durations uid d) ->
  lo <= shown_average uid d others s <= hi.
Proof.
  intros Hne Hl. rewrite shown_average_cases.
  destruct (durations uid d) as [|m l] eqn:E; [done |].
  destruct (mean_bounds lo hi (m :: l)) as [H1 H2]; [done | done |].
  by apply Math_round_bounds.
Qed.

Lemma average_within_range_of_durations_witness :
  1 <= shown_average "alice" Sample.db_with_sessions Sample.no_replies
         Sample.blank_analytics <= 2.
Proof.
  apply average_within_range_of_durations; [done |].
  repeat constructor; simpl; lia.
Defined.

End AverageFacts.

Section BuilderAverageFacts.
Import Schema WorkoutPage Analytics.

Lemma durations_app uid d ws :
  durations uid (with_workouts (fun l => l ++ ws) d)
  = durations uid d
    ++ omap (fun w => if String.eqb (w_user_id w) uid
                      then w_duration_minutes w else None) ws.
Proof. unfold durations. simpl. apply omap_app. Qed.

Lemma durations_of_zero_rows uid ws :
  Forall (fun row => w_duration_minutes row = Some 0) ws ->
  Forall (fun m => 0 <= m <= 0)
    (omap (fun w => if String.eqb (w_user_id w) uid
                    then w_duration_minutes w else None) ws).
Proof.
  induction 1 as [|row ws Hrow _ IH]; simpl; [constructor |].
  destruct (String.eqb (w_user_id row) uid); simpl; [| done].
  rewrite Hrow. simpl. constructor; [lia | done].
Qed.

(** X10. End to end: for a user whose stored workouts (if any) all have
    duration 0, whatever is then saved through the workout page, the
    analytics page shows an average workout time of 0 minutes, since every
    workout the page saves carries duration 0. *)
Theorem builder_workouts_average_zero exs d w uid others s :
  reachable exs d w ->
  Forall (fun m => m = 0) (durations uid d) ->
  shown_average uid (db w) others s = 0.
Proof.
  intros Hr Hd.
  destruct (builder_only_appends_lemma exs d w Hr) as (ws & Hw & Hz).
  rewrite shown_average_cases.
  assert (Forall (fun m => 0 <= m <= 0) (durations uid (db w))) as Hall.
  { unfold durations. rewrite Hw, omap_app. apply Forall_app. split.
    - eapply Forall_impl; [exact Hd |]. intros m ->. lia.
    - by apply durations_of_zero_rows. }
  destruct (durations uid (db w)) as [|m l] eqn:E; [done |].
  destruct (mean_bounds 0 0 (m :: l)) as [H1 H2]; [done | done |].
  pose proof (Math_round_bounds 0 0 _ H1 H2). lia.
Qed.

End BuilderAverageFacts.

(** ** The other schemas *)

Section SchemasFacts.
Import Validations Schemas.

Lemma check_number_nil p lo hi a b v :
  check_number p true lo hi a b v = [] <-> absent_or_within lo hi v.
Proof.
  unfold absent_or_within. destruct v as [| | x]; simpl.
  - split; [by left | done].
  - split; [done | by intros [? | (q & ? & _)]].
  - split.
    + intros H. right.
      destruct x as [q| | |]; try done;
        apply app_nil in H as [H1%issue_if_nil H2%issue_if_nil];
        simpl in *; try done.
      apply negb_false_iff, Qle_bool_iff in H1, H2. eauto.
    + intros [? | (q & [= ->] & H1 & H2)]; [done |].
      apply Qle_bool_iff in H1, H2. rewrite app_nil, !issue_if_nil. simpl.
      by rewrite H1, H2.
Qed.

Lemma check_string_max_nil p n measure m v :
  check_string p true (fun s => issue_if (n <? measure s)%nat p m) v = []
  <-> absent_or_at_most n measure v.
Proof.
  unfold absent_or_at_most. destruct v as [| | s]; simpl.
  - split; [by left | done].
  - split; [done | by intros [? | (s & ? & _)]].
  - rewrite issue_if_nil, Nat.ltb_ge. split.
    + intros H. right. by exists s.
    + by intros [? | (s' & [= <-] & H)].
Qed.

(** X11. The body-measurement schema accepts exactly the objects in which
    weight, height and body fat are each absent or a number within 20..500,
    50..300 and 0..100, and the notes are absent or at most 500 characters
    long.  A key that is [null] is refused: [optional] lets through an
    absent key only. *)
Theorem bodyMeasurementSchema_accepts_iff i :
  (bodyMeasurementSchema i = [] <->
   absent_or_within 20 500 (weight i) /\
   absent_or_within 50 300 (height i) /\
   absent_or_within 0 100 (body_fat_percentage i) /\
   absent_or_at_most 500 String.length (notes i)) /\
  (weight i = Null \/ height i = Null \/ body_fat_percentage i = Null \/
   notes i = Null -> bodyMeasurementSchema i <> []).
Proof.
  assert (bodyMeasurementSchema i = [] <->
          absent_or_within 20 500 (weight i) /\
          absent_or_within 50 300 (height i) /\
          absent_or_within 0 100 (body_fat_percentage i) /\
          absent_or_at_most 500 String.length (notes i)) as Hiff.
  { unfold bodyMeasurementSchema.
    by rewrite !app_nil, !check_number_nil, check_string_max_nil. }
  split; [exact Hiff |].
  intros Hnull Hacc. apply Hiff in Hacc as (Hw & Hh & Hb & Hn).
  destruct Hnull as [E | [E | [E | E]]].
  - rewrite E in Hw. by destruct Hw as [? | (? & ? & _)].
  - rewrite E in Hh. by destruct Hh as [? | (? & ? & _)].
  - rewrite E in Hb. by destruct Hb as [? | (? & ? & _)].
  - rewrite E in Hn. by destruct Hn as [? | (? & ? & _)].
Qed.

Lemma bodyMeasurementSchema_accepts_iff_witness :
  bodyMeasurementSchema
    {| weight := Value (Finite (141 # 2)); height := Null;
       body_fat_percentage := Undefined; notes := Undefined |} <> [].
Proof.
  apply (proj2 (bodyMeasurementSchema_accepts_iff _)). right; left. reflexivity.
Defined.

(** X12. The profile schema accepts exactly the objects whose username,
    once trimmed, has 3 to 30 characters, all of them letters, digits or
    underscores; whose full name, if given, has at most 100 characters once
    trimmed; whose age, if given, is a number from 13 to 120; and whose
    fitness goals, if given, have at most 500 characters. *)
Theorem profileSchema_accepts_iff i :
  profileSchema i = [] <->
  (exists s, username i = Value s /\
     (3 <= String.length (JS.trim s) <= 30)%nat /\
     JS.trim s <> EmptyString /\
     all_chars is_word_char (JS.trim s) = true) /\
  absent_or_at_most 100 (fun s => String.length (JS.trim s)) (full_name i) /\
  absent_or_within 13 120 (age i) /\
  absent_or_at_most 500 String.length (fitness_goals i).
Proof.
  unfold profileSchema.
  rewrite !app_nil, check_number_nil, !check_string_max_nil.
  apply and_iff_compat_r.
  destruct (username i) as [| | s]; simpl.
  - split; [done | by intros (s & ? & _)].
  - split; [done | by intros (s & ? & _)].
  - rewrite !app_nil, !issue_if_nil, !Nat.ltb_ge, negb_false_iff.
    unfold username_pattern. split.
    + intros (H1 & H2 & H3). exists s. repeat split; try done; try lia.
      * by destruct (JS.trim s).
      * by destruct (JS.trim s).
    + intros (s' & [= <-] & Hl & Hne & Hall). repeat split; try lia.
      by destruct (JS.trim s).
Qed.

(** The three usernames of the documentation. *)
Example username_john_doe99 :
  profileSchema {| username := Value "john_doe99"; full_name := Undefined;
                   age := Undefined; fitness_goals := Undefined |} = [].
Proof. reflexivity. Qed.

Example username_jo :
  profileSchema {| username := Value "jo"; full_name := Undefined;
                   age := Undefined; fitness_goals := Undefined |}
  = [ {| path := "username";
         message := "Username must be at least 3 characters" |} ].
Proof. reflexivity. Qed.

Example username_john_doe_bang :
  profileSchema {| username := Value "john doe!"; full_name := Undefined;
                   age := Undefined; fitness_goals := Undefined |}
  = [ {| path := "username";
         message := "Username can only contain letters, numbers, and underscores" |} ].
Proof. reflexivity. Qed.

(** *** Trimming *)

Lemma trim_start_head s :
  match JS.trim_start s with
  | EmptyString => True
  | String c _ => JS.is_space c = false
  end.
Proof.
  induction s as [|c r IH]; simpl; [done |].
  destruct (JS.is_space c) eqn:E; [done | by simpl].
Qed.

Lemma trim_end_idem s : JS.trim_end (JS.trim_end s) = JS.trim_end s.
Proof.
  induction s as [|c r IH]; simpl; [done |].
  destruct (JS.trim_end r) as [|c' r'] eqn:E.
  - destruct (JS.is_space c) eqn:Ec; simpl; [done |]. by rewrite Ec.
  - simpl. simpl in IH. by rewrite IH.
Qed.

Lemma trim_end_head c r :
  JS.is_space c = false ->
  exists r', JS.trim_end (String c r) = String c r'.
Proof.
  intros Hc. simpl. destruct (JS.trim_end r); [rewrite Hc |]; eauto.
Qed.

Lemma trim_idem s : JS.trim (JS.trim s) = JS.trim s.
Proof.
  unfold JS.trim. pose proof (trim_start_head s) as H.
  destruct (JS.trim_start s) as [|c r]; [done |].
  destruct (trim_end_head c r H) as (r' & E). rewrite E.
  simpl JS.trim_start. rewrite H. rewrite <- E. apply trim_end_idem.
Qed.

Lemma trim_start_spaces pad s :
  all_chars JS.is_space pad = true ->
  JS.trim_start (pad ++ s)%string = JS.trim_start s.
Proof.
  induction pad as [|c r IH]; simpl; [done |].
  intros [Hc Hr]%andb_prop. rewrite Hc. by apply IH.
Qed.

Lemma trim_end_spaces pad :
  all_chars JS.is_space pad = true -> JS.trim_end pad = EmptyString.
Proof.
  induction pad as [|c r IH]; simpl; [done |].
  intros [Hc Hr]%andb_prop. by rewrite (IH Hr), Hc.
Qed.

Lemma trim_end_app_spaces s pad :
  all_chars JS.is_space pad = true ->
  JS.trim_end (s ++ pad)%string = JS.trim_end s.
Proof.
  intros Hp. induction s as [|c r IH]; simpl; [by apply trim_end_spaces |].
  by rewrite IH.
Qed.

Lemma trim_start_app_nonspace s t :
  (exists c r, JS.trim_start s = String c r) ->
  JS.trim_start (s ++ t)%string = (JS.trim_start s ++ t)%string.
Proof.
  induction s as [|c r IH]; simpl; [by intros (? & ? & ?) |].
  destruct (JS.is_space c); [done | done].
Qed.

(** X13. Validation looks at the trimmed name only: white space typed
    before or after a workout name changes neither the verdict nor the
    issues of the workout schema, and validating an already trimmed name
    gives the same result again. *)
Theorem workoutSchema_ignores_surrounding_space before s after n d :
  all_chars JS.is_space before = true ->
  all_chars JS.is_space after = true ->
  workoutSchema {| Validations.name := Some (before ++ s ++ after)%string;
                   Validations.notes := n; duration_minutes := d |}
  = workoutSchema {| Validations.name := Some s; Validations.notes := n;
                     duration_minutes := d |} /\
  workoutSchema {| Validations.name := Some (JS.trim s);
                   Validations.notes := n; duration_minutes := d |}
  = workoutSchema {| Validations.name := Some s; Validations.notes := n;
                     duration_minutes := d |}.
Proof.
  intros Hb Ha. unfold workoutSchema, check_name. simpl.
  rewrite trim_idem. split; [| done].
  assert (JS.trim (before ++ s ++ after)%string = JS.trim s) as ->; [| done].
  unfold JS.trim. rewrite (trim_start_spaces _ _ Hb).
  destruct (JS.trim_start s) as [|c r] eqn:E.
  - assert (all_chars JS.is_space s = true) as Hs.
    { clear -E. induction s as [|c r IH]; simpl in *; [done |].
      destruct (JS.is_space c); [by apply IH | done]. }
    assert (all_chars JS.is_space (s ++ after)%string = true) as Hsa.
    { clear -Hs Ha. induction s as [|c r IH]; simpl in *; [done |].
      apply andb_prop in Hs as [-> Hs]. by apply IH. }
    clear E. induction (s ++ after)%string as [|c r IH]; simpl in *; [done |].
    apply andb_prop in Hsa as [-> Hsa]. by apply IH.
  - rewrite trim_start_app_nonspace by eauto. rewrite E.
    by apply trim_end_app_spaces.
Qed.

Lemma workoutSchema_ignores_surrounding_space_witness :
  workoutSchema {| Validations.name := Some ("  " ++ "Leg Day" ++ " ")%string;
                   Validations.notes := None; duration_minutes := None |}
  = workoutSchema {| Validations.name := Some "Leg Day";
                     Validations.notes := None; duration_minutes := None |}.
Proof.
  apply (proj1 (workoutSchema_ignores_surrounding_space "  " "Leg Day" " "
                  None None eq_refl eq_refl)).
Defined.

End SchemasFacts.

(** ** The body tracker *)

Section BodyTrackerFacts.
Import BodyTracker.
Variable parseFloat : string -> Validations.number.
Variable zod_message : list Validations.Issue -> string.

Lemma truthy_string_true text :
  JS.truthy_string text = true <-> text <> EmptyString.
Proof. destruct text; simpl; split; congruence. Qed.

Lemma parsed_within lo hi text :
  Schemas.absent_or_within lo hi (nullable (parsed parseFloat text))
  <-> filled_within parseFloat lo hi text.
Proof.
  unfold Schemas.absent_or_within, filled_within, parsed.
  destruct (JS.truthy_string text) eqn:E; simpl.
  - apply truthy_string_true in E. split.
    + intros [? | (q & [= Hq] & ?)]; [done |]. split; [done |]. eauto.
    + intros [_ (q & Hq & ?)]. right. exists q. by rewrite Hq.
  - assert (text = EmptyString) as -> by (by destruct text). split.
    + by intros [? | (q & ? & _)].
    + by intros [? _].
Qed.

Lemma notes_within text :
  Schemas.absent_or_at_most 500 String.length
    (nullable (if JS.truthy_string text then Some text else None))
  <-> text <> EmptyString /\ (String.length text <= 500)%nat.
Proof.
  unfold Schemas.absent_or_at_most.
  destruct (JS.truthy_string text) eqn:E; simpl.
  - apply truthy_string_true in E. split.
    + by intros [? | (s & [= <-] & ?)].
    + intros [_ ?]. right. by exists text.
  - assert (text = EmptyString) as -> by (by destruct text). split.
    + by intros [? | (q & ? & _)].
    + by intros [? _].
Qed.

(** X14. The body tracker sends a measurement to the store exactly when
    the weight, height and body-fat boxes are all filled in with numbers
    within 20..500, 50..300 and 0..100 and the notes are filled in with at
    most 500 characters: a box of these left empty becomes [null], which
    the schema refuses.  When nothing is sent the form stays as typed under
    a "Validation Error" notification; when the store accepts the insert
    the form is emptied and hidden and the list is fetched again. *)
Theorem handleSubmit_sends_only_complete_measurements user fault s :
  let f := formData s in
  let complete :=
    filled_within parseFloat 20 500 (weight f) /\
    filled_within parseFloat 50 300 (height f) /\
    filled_within parseFloat 0 100 (body_fat_percentage f) /\
    (notes f <> EmptyString /\ (String.length (notes f) <= 500)%nat) in
  let result := handleSubmit parseFloat zod_message user fault s in
  let insert :=
    InsertMeasurement (measurementData parseFloat f) (Schema.user_id <$> user) in
  (snd result <> [] <-> complete) /\
  (snd result = [] ->
   formData (fst result) = f /\ showForm (fst result) = showForm s /\
   exists m, toasts (fst result) = toasts s ++ [errorToast m]) /\
  (complete -> forall m, fault = Some m ->
   result = ({| formData := f; showForm := showForm s;
                toasts := toasts s ++ [errorToast m] |}, [insert])) /\
  (complete -> fault = None ->
   result = ({| formData := emptyForm; showForm := false;
                toasts := toasts s ++ [successToast] |},
             [insert; SelectMeasurements])).
Proof.
  intros f complete result insert.
  assert (Schemas.bodyMeasurementSchema (schema_view (measurementData parseFloat f)) = []
          <-> complete) as Hiff.
  { unfold Schemas.bodyMeasurementSchema.
    rewrite !app_nil, !check_number_nil, check_string_max_nil.
    unfold schema_view, measurementData. simpl.
    by rewrite !parsed_within, notes_within. }
  subst result insert. unfold handleSubmit. fold f.
  destruct (Schemas.bodyMeasurementSchema _) as [|iss issues] eqn:E.
  - assert complete as Hc by (by apply Hiff).
    split; [| split; [| split]].
    + split; [done |]. intros _. by destruct fault.
    + by destruct fault.
    + by intros _ m ->.
    + by intros _ ->.
  - assert (~ complete) as Hc by (intros H%Hiff; done).
    split; [| split; [| split]]; simpl.
    + split; [done | by intros H].
    + intros _. repeat split. eauto.
    + done.
    + done.
Qed.

End BodyTrackerFacts.

Lemma handleSubmit_sends_only_complete_measurements_witness :
  let without_notes :=
    {| BodyTracker.weight := "70.5"; BodyTracker.height := "175";
       BodyTracker.body_fat_percentage := "18";
       BodyTracker.muscle_mass := EmptyString; BodyTracker.chest := EmptyString;
       BodyTracker.waist := EmptyString; BodyTracker.hips := EmptyString;
       BodyTracker.biceps := EmptyString; BodyTracker.thighs := EmptyString;
       BodyTracker.notes := EmptyString |} in
  snd (BodyTracker.handleSubmit Sample2.parseFloat Sample2.zod_message
         (Some Sample.alice) None (Sample2.tracker Sample2.full_form))
  = [ BodyTracker.InsertMeasurement
        (BodyTracker.measurementData Sample2.parseFloat Sample2.full_form)
        (Some "alice");
      BodyTracker.SelectMeasurements ] /\
  BodyTracker.formData
    (fst (BodyTracker.handleSubmit Sample2.parseFloat Sample2.zod_message
            (Some Sample.alice) None (Sample2.tracker without_notes)))
  = without_notes.
Proof.
  intros without_notes. split.
  - pose proof (handleSubmit_sends_only_complete_measurements
                  Sample2.parseFloat Sample2.zod_message (Some Sample.alice)
                  None (Sample2.tracker Sample2.full_form)) as (_ & _ & _ & H).
    rewrite H; [reflexivity | | reflexivity].
    repeat split; try discriminate;
      try (eexists; split; [reflexivity |]; split; vm_compute; discriminate).
    simpl. lia.
  - apply (proj1 (proj2 (handleSubmit_sends_only_complete_measurements
                           Sample2.parseFloat Sample2.zod_message
                           (Some Sample.alice) None
                           (Sample2.tracker without_notes)))).
    reflexivity.
Defined.

(** ** The social feed: hearts and counts *)

Section SocialFeedFacts.
Import Social SocialFeed.

Lemma is_like_same share_id uid sid' :
  is_like sid' uid {| Schema.l_share_id := share_id; Schema.l_user_id := uid |}
  = String.eqb share_id sid'.
Proof. unfold is_like. simpl. by rewrite String.eqb_refl, andb_true_r. Qed.

Lemma has_like_filter share_id uid sid' l :
  existsb (is_like sid' uid)
    (List.filter (fun r => negb (is_like share_id uid r)) l)
  = if String.eqb share_id sid' then false else existsb (is_like sid' uid) l.
Proof.
  induction l as [|r l IH]; simpl; [by destruct (String.eqb _ _) |].
  destruct (is_like share_id uid r) eqn:E; simpl.
  - rewrite IH. destruct (String.eqb_spec share_id sid') as [<- | Hne]; [done |].
    unfold is_like in *. apply andb_prop in E as [E1%String.eqb_eq E2].
    rewrite E1. apply String.eqb_neq in Hne. by rewrite Hne.
  - rewrite IH. destruct (String.eqb_spec share_id sid') as [<- | Hne]; [| done].
    by rewrite E.
Qed.

Lemma in_step_handleLike u fault shareId w :
  in_step u w -> in_step u (handleLike (Some u) fault shareId w).
Proof.
  intros Hw sid'. unfold handleLike.
  destruct (bool_decide (shareId ∈ likedWorkouts (page w))) eqn:Hl.
  - apply bool_decide_eq_true in Hl. unfold delete_like.
    destruct fault as [m|]; simpl; [apply Hw |].
    unfold has_like. simpl. rewrite has_like_filter.
    rewrite elem_of_difference, elem_of_singleton, (Hw sid').
    destruct (String.eqb_spec shareId sid') as [<- | Hne].
    + split; [by intros [_ ?] | done].
    + split; [by intros [? _] |]. intros H. split; [done | congruence].
  - apply bool_decide_eq_false in Hl. unfold insert_like.
    destruct fault as [m|]; simpl; [apply Hw |].
    destruct (has_like shareId (Schema.user_id u) (db w)) eqn:Hr; simpl;
      [apply Hw |].
    destruct (has_share shareId (db w)); simpl; [| apply Hw].
    unfold has_like. simpl. rewrite existsb_app. simpl.
    rewrite is_like_same, orb_false_r.
    rewrite elem_of_union, elem_of_singleton, (Hw sid').
    unfold has_like.
    destruct (String.eqb_spec shareId sid') as [<- | Hne].
    + rewrite orb_true_r. split; [done | by right].
    + rewrite orb_false_r. split; [| by left]. intros [? | ?]; [done | congruence].
Qed.

Lemma in_step_fetched u d s q :
  in_step u
    {| page := fetchUserLikes (Some u)
                 (Some (select_user_likes (Schema.user_id u) d)) s;
       db := d; sent := q |}.
Proof.
  intros sid. simpl. rewrite elem_of_list_to_set. unfold select_user_likes, has_like.
  rewrite list_elem_of_fmap, existsb_exists. split.
  - intros (r & -> & Hr). apply list_elem_of_In, filter_In in Hr as [Hin Hu].
    exists r. split; [done |]. unfold is_like. by rewrite String.eqb_refl, Hu.
  - intros (r & Hin & [Hs%String.eqb_eq Hu]%andb_prop).
    exists r. split; [done |]. apply list_elem_of_In, filter_In. by split.
Qed.

(** X15. Once the likes of the user are loaded, the hearts of the page and
    the like rows of the store stay in step: a share is marked liked
    exactly when the store holds the user's like for it, after any click on
    any share and whether the store accepts the request or reports an
    error. *)
Theorem hearts_stay_in_step_with_like_rows u :
  (forall d s q,
     in_step u
       {| page := fetchUserLikes (Some u)
                    (Some (select_user_likes (Schema.user_id u) d)) s;
          db := d; sent := q |}) /\
  (forall fault shareId w,
     in_step u w -> in_step u (handleLike (Some u) fault shareId w)).
Proof.
  split; [apply in_step_fetched | intros; by apply in_step_handleLike].
Qed.

Lemma hearts_stay_in_step_with_like_rows_witness :
  in_step Sample.alice
    (handleLike (Some Sample.alice) None "s1" Sample.feed).
Proof.
  apply (proj2 (hearts_stay_in_step_with_like_rows Sample.alice)).
  intros sid. simpl. split; [by intros ?%elem_of_empty | done].
Defined.


End SocialFeedFacts.

(** ** The social feed: searching *)

Section SearchFacts.
Import Social SocialFeed.
















End SearchFacts.

(** ** The leaderboard: workout counts *)

Section LeaderboardTabsFacts.
Import Leaderboard LeaderboardTabs.

Lemma workouts_count_cases viewer d target :
  workouts_count viewer d target
  = Some (if String.eqb target viewer then workouts_of viewer d else 0).
Proof.
  unfold workouts_count, workouts_of. f_equal.
  destruct (String.eqb_spec target viewer) as [-> | Hne].
  - do 2 f_equal. apply List.filter_ext. intros w.
    by destruct (String.eqb _ _).
  - replace (List.filter _ _) with (@nil Schema.workout); [done |].
    induction (Schema.workouts d) as [|w l IH]; [done |]. simpl.
    destruct (String.eqb_spec (Schema.w_user_id w) target) as [E | _];
      simpl; [| done].
    destruct (String.eqb_spec (Schema.w_user_id w) viewer) as [E' | _];
      [congruence | done].
Qed.

Lemma leaderboard_counts_lemma viewer d users s :
  List.map profile
    (topUsers
       (fetchLeaderboardData (Some viewer) (Some users)
          (workouts_count (Schema.user_id viewer) d) s)) = users /\
  Forall (fun u =>
            totalWorkouts u
            = if is_row_of (Schema.user_id viewer) u
              then workouts_of (Schema.user_id viewer) d else 0)
    (topUsers
       (fetchLeaderboardData (Some viewer) (Some users)
          (workouts_count (Schema.user_id viewer) d) s)).
Proof.
  unfold fetchLeaderboardData. cbn [topUsers]. split.
  - rewrite List.map_map. rewrite <- (List.map_id users) at 2.
    by apply List.map_ext.
  - apply Forall_forall. intros u Hu.
    apply list_elem_of_In, in_map_iff in Hu as (p & <- & _).
    unfold is_row_of. cbn [profile totalWorkouts].
    by rewrite workouts_count_cases.
Qed.

(** X18. On the leaderboard every user other than the viewer is shown with
    0 workouts, whatever they have logged: the count is asked with the
    viewer's own rights, and the policy on [workouts] shows a user nobody
    else's rows.  The viewer's own row carries their real count; the rows
    are those of the answer, in its order. *)
Theorem leaderboard_counts_only_own_workouts viewer d users s :
  let s' :=
    fetchLeaderboardData (Some viewer) (Some users)
      (workouts_count (Schema.user_id viewer) d) s in
  List.map profile (topUsers s') = users /\
  Forall (fun u =>
            totalWorkouts u
            = if is_row_of (Schema.user_id viewer) u
              then workouts_of (Schema.user_id viewer) d else 0)
    (topUsers s').
Proof.
  intros s'. subst s'. unfold fetchLeaderboardData. cbn [topUsers]. split.
  - rewrite List.map_map. rewrite <- (List.map_id users) at 2.
    by apply List.map_ext.
  - apply Forall_forall. intros u Hu.
    apply list_elem_of_In, in_map_iff in Hu as (p & <- & _).
    unfold is_row_of. cbn [profile totalWorkouts].
    rewrite workouts_count_cases. cbn [default].
    destruct (String.eqb _ _); reflexivity.
Qed.

Lemma insert_by_workouts_front x l :
  Forall (fun y => totalWorkouts y <= totalWorkouts x) l ->
  insert_by_workouts x l = x :: l.
Proof.
  destruct 1 as [|y r Hy _]; simpl; [done |].
  by rewrite (proj2 (Z.leb_le _ _) Hy).
Qed.

Lemma insert_by_workouts_behind x front back :
  Forall (fun y => totalWorkouts x < totalWorkouts y) front ->
  Forall (fun y => totalWorkouts y <= totalWorkouts x) back ->
  insert_by_workouts x (front ++ back) = front ++ x :: back.
Proof.
  intros Hf Hb. induction Hf as [|y r Hy _ IH]; simpl.
  - by apply insert_by_workouts_front.
  - rewrite (proj2 (Z.leb_gt _ _) Hy). by rewrite IH.
Qed.

(** X19. The workouts tab, given those counts: when the viewer has logged
    a workout, the rows of the viewer come first and everybody else follows
    in the order of the points board; when the viewer has logged none, the
    workouts tab is the points board unchanged.  The tab ranks nobody but
    the viewer by workouts. *)
Theorem workouts_tab_puts_viewer_first viewer d users s :
  let board :=
    topUsers
      (fetchLeaderboardData (Some viewer) (Some users)
         (workouts_count (Schema.user_id viewer) d) s) in
  (0 < workouts_of (Schema.user_id viewer) d ->
   by_workouts board
   = List.filter (is_row_of (Schema.user_id viewer)) board
     ++ List.filter (fun u => negb (is_row_of (Schema.user_id viewer) u)) board) /\
  (workouts_of (Schema.user_id viewer) d = 0 -> by_workouts board = board).
Proof.
  intros board.
  pose proof (proj2 (leaderboard_counts_lemma viewer d users s)) as Hc.
  fold board in Hc. clearbody board. clear users s.
  set (c := workouts_of (Schema.user_id viewer) d) in *.
  set (mine := is_row_of (Schema.user_id viewer)) in *.
  split.
  - intros Hpos. induction Hc as [|x l Hx Hl IH]; [done |].
    cbn [by_workouts fold_right]. fold (by_workouts l). rewrite IH.
    cbn [List.filter]. destruct (mine x) eqn:E; simpl.
    + apply insert_by_workouts_front. apply Forall_app. split.
      * apply Forall_forall. intros y Hy.
        apply list_elem_of_In, filter_In in Hy as [Hy Hm].
        apply list_elem_of_In in Hy.
        pose proof (proj1 (Forall_forall _ _) Hl y Hy) as Ey.
        cbn beta in Ey. rewrite Hm in Ey. lia.
      * apply Forall_forall. intros y Hy.
        apply list_elem_of_In, filter_In in Hy as [Hy Hm].
        apply list_elem_of_In in Hy. apply negb_true_iff in Hm.
        pose proof (proj1 (Forall_forall _ _) Hl y Hy) as Ey.
        cbn beta in Ey. rewrite Hm in Ey. lia.
    + apply insert_by_workouts_behind.
      * apply Forall_forall. intros y Hy.
        apply list_elem_of_In, filter_In in Hy as [Hy Hm].
        apply list_elem_of_In in Hy.
        pose proof (proj1 (Forall_forall _ _) Hl y Hy) as Ey.
        cbn beta in Ey. rewrite Hm in Ey. lia.
      * apply Forall_forall. intros y Hy.
        apply list_elem_of_In, filter_In in Hy as [Hy Hm].
        apply list_elem_of_In in Hy. apply negb_true_iff in Hm.
        pose proof (proj1 (Forall_forall _ _) Hl y Hy) as Ey.
        cbn beta in Ey. rewrite Hm in Ey. lia.
  - intros Hzero. induction Hc as [|x l Hx Hl IH]; [done |].
    cbn [by_workouts fold_right]. fold (by_workouts l). rewrite IH.
    apply insert_by_workouts_front.
    eapply Forall_impl; [exact Hl |]. intros y Ey. cbn beta in Ey, Hx.
    rewrite Hx, Ey. destruct (mine x), (mine y); lia.
Qed.

End LeaderboardTabsFacts.

(** ** The level progress card: range *)

Section LevelCardFacts.
Import Dashboard.

(** X20. The level card: the cap of 100 in the width of the bar never
    applies, whatever the total.  For a total that is not negative the bar
    is below 100 percent, the XP to the next level is between 1 and 1000
    (never 0), earned and missing XP add up to 1000, and earning exactly
    the XP shown as missing lands on the next multiple of 1000 with an
    empty bar. *)
Theorem level_card_arithmetic profile :
  let p := points profile in
  (barWidth profile == inject_Z (levelPoints profile) / 10)%Q /\
  (0 <= p ->
   0 <= levelPoints profile < 1000 /\
   1 <= xpToNext profile <= 1000 /\
   levelPoints profile + xpToNext profile = 1000 /\
   Z.rem (p + xpToNext profile) 1000 = 0 /\
   (p + xpToNext profile) / 1000 = p / 1000 + 1).
Proof.
  intros p. unfold barWidth, xpToNext, levelPoints. fold p. split.
  - apply Q.min_l.
    pose proof (Z.rem_bound_abs p 1000 ltac:(lia)) as Hb.
    unfold Qle, Qdiv, Qmult, Qinv. simpl. lia.
  - intros Hp. rewrite Z.rem_mod_nonneg by lia.
    pose proof (Z.mod_pos_bound p 1000 ltac:(lia)) as Hb.
    pose proof (Z.div_mod p 1000 ltac:(lia)) as Hd.
    assert (p + (1000 - p mod 1000) = (p / 1000 + 1) * 1000) as -> by lia.
    repeat split; try lia.
    + rewrite Z.rem_mod_nonneg by nia. apply Z_mod_mult.
    + apply Z_div_mult. lia.
Qed.

Lemma level_card_arithmetic_witness :
  let profile := Some {| username := "alice"; fitness_level := Some 2;
                         total_points := Some 1450 |} in
  0 <= levelPoints profile < 1000 /\
  1 <= xpToNext profile <= 1000 /\
  levelPoints profile + xpToNext profile = 1000 /\
  Z.rem (points profile + xpToNext profile) 1000 = 0 /\
  (points profile + xpToNext profile) / 1000 = points profile / 1000 + 1.
Proof.
  intros profile.
  apply (proj2 (level_card_arithmetic profile)). simpl. lia.
Defined.

End LevelCardFacts.

(** ** The templates page *)

Section TemplatesFacts.
Import Templates.

Lemma toasts_fetchTemplates reply s :
  exists rest, toasts (fetchTemplates reply s) = toasts s ++ rest.
Proof.
  destruct reply; simpl; [exists []; by rewrite app_nil_r | by eexists].
Qed.

(** X21. Using a template listed on the page, when the store reports no
    error: the "Success" notification is shown in every case, but the
    counter moves only on rows the user created.  For a template created by
    somebody else (or with nobody signed in) the table is left exactly as
    it was.  On the user's own template the stored counter becomes the
    page's copy plus one, whatever the store held, and rows of other
    templates are not touched. *)
Theorem useTemplate_counts_only_own_templates user refetch templateId s tbl t :
  List.find (fun x => String.eqb (id x) templateId) (templates s) = Some t ->
  let result := useTemplate user None refetch templateId s tbl in
  let uid := Schema.user_id <$> user in
  In successToast (toasts (fst result)) /\
  (Forall (fun row => id row = templateId -> can_update uid row = false) tbl ->
   snd result = tbl) /\
  (forall row, In row tbl -> id row = templateId -> can_update uid row = true ->
     In {| id := id row; name := name row; is_public := is_public row;
           times_used := times_used t + 1; creator_id := creator_id row |}
       (snd result)) /\
  (forall row, In row tbl -> id row <> templateId -> In row (snd result)) /\
  length (snd result) = length tbl.
Proof.
  intros Hfind result uid. subst result. unfold useTemplate. rewrite Hfind.
  cbn [fst snd]. fold uid. split; [| split; [| split; [| split]]].
  - destruct (toasts_fetchTemplates refetch
                {| templates := templates s; loading := loading s;
                   toasts := toasts s ++ [successToast] |}) as (rest & ->).
    simpl. apply in_or_app. left. apply in_or_app. right. by left.
  - intros Hall. unfold update_times_used.
    rewrite <- (List.map_id tbl) at 2. apply List.map_ext_in.
    intros row Hrow. apply list_elem_of_In in Hrow.
    pose proof (proj1 (Forall_forall _ _) Hall row Hrow) as Hr.
    destruct (String.eqb_spec (id row) templateId) as [E | _]; [| done].
    by rewrite (Hr E).
  - intros row Hrow Hid Hown. unfold update_times_used.
    apply in_map_iff. exists row. split; [| done].
    by rewrite (proj2 (String.eqb_eq _ _) Hid), Hown.
  - intros row Hrow Hid. unfold update_times_used.
    apply in_map_iff. exists row. split; [| done].
    by rewrite (proj2 (String.eqb_neq _ _) Hid).
  - unfold update_times_used. apply length_map.
Qed.

Lemma useTemplate_counts_only_own_templates_witness :
  snd (useTemplate (Some Sample.alice) None (inr "offline") "t2"
         Sample2.templates_page Sample2.templates_table)
  = Sample2.templates_table /\
  In (Sample2.template "t1" "alice" false 5)
    (snd (useTemplate (Some Sample.alice) None (inr "offline") "t1"
            Sample2.templates_page Sample2.templates_table)).
Proof.
  split.
  - apply (useTemplate_counts_only_own_templates (Some Sample.alice)
             (inr "offline") "t2" Sample2.templates_page
             Sample2.templates_table (Sample2.template "t2" "bob" true 4)
             eq_refl).
    repeat constructor; simpl; congruence.
  - apply (proj1 (proj2 (proj2
             (useTemplate_counts_only_own_templates (Some Sample.alice)
                (inr "offline") "t1" Sample2.templates_page
                Sample2.templates_table (Sample2.template "t1" "alice" false 4)
                eq_refl)))
             (Sample2.template "t1" "alice" false 9));
      [by left | reflexivity | reflexivity].
Defined.

End TemplatesFacts.

(** ** The profile page *)

Section ProfilePageFacts.
Import ProfilePage.

Lemma edit_keeps_other_columns e p :
  user_id (edit e p) = user_id p /\ username (edit e p) = username p /\
  fitness_level (edit e p) = fitness_level p /\
  total_points (edit e p) = total_points p /\
  rank_title (edit e p) = rank_title p.
Proof. by destruct e. Qed.

Lemma edited_loaded u row edits s :
  exists e,
    loaded (edited u row edits s) = Some (row, e) /\
    isEditing (edited u row edits s) = isEditing s /\
    user_id e = user_id row /\ username e = username row /\
    fitness_level e = fitness_level row /\
    total_points e = total_points row /\ rank_title e = rank_title row.
Proof.
  unfold edited.
  induction edits as [|e edits IH] using rev_ind.
  - exists row. by repeat split.
  - destruct IH as (e0 & Hl & Hi & H1 & H2 & H3 & H4 & H5).
    rewrite fold_left_app.
    set (st := List.fold_left (fun st e => change e st) edits
                 (fetchProfile (Some u) (Some row) s)) in *.
    cbn [List.fold_left]. unfold change. rewrite Hl. cbn [loaded isEditing].
    destruct (edit_keeps_other_columns e e0) as (E1 & E2 & E3 & E4 & E5).
    exists (edit e e0). repeat split; congruence.
Qed.

(** X22. Saving the profile writes every column back from the copy the
    page loaded: whatever the four boxes were changed to, the row stored
    for the user after a save carries the username, level, points and rank
    title read when the page was opened, not those the store holds at the
    time of the save, so a change made to them in between is undone.  Rows
    of other users are not touched, and the page shows what it wrote. *)
Theorem handleSaveProfile_writes_back_loaded_columns u row edits s0 tbl :
  user_id row = Schema.user_id u ->
  let s := edited u row edits s0 in
  let result := handleSaveProfile (Some u) None s tbl in
  exists e,
    loaded s = Some (row, e) /\
    loaded (fst result) = Some (e, e) /\ isEditing (fst result) = false /\
    (forall p, In p (snd result) -> user_id p = Schema.user_id u ->
       p = e /\ username p = username row /\
       fitness_level p = fitness_level row /\
       total_points p = total_points row /\ rank_title p = rank_title row) /\
    (forall p, In p tbl -> user_id p <> Schema.user_id u -> In p (snd result)) /\
    (forall p, In p tbl -> user_id p = Schema.user_id u -> In e (snd result)).
Proof.
  intros Hrow s result.
  destruct (edited_loaded u row edits s0) as (e & Hl & _ & H1 & H2 & H3 & H4 & H5).
  exists e. subst result s. unfold handleSaveProfile. rewrite Hl. cbn [fst snd].
  split; [done |]. split; [done |]. split; [done |].
  unfold update_profile. split; [| split].
  - intros p (p0 & Hp & Hin)%in_map_iff Hu.
    destruct (String.eqb_spec (user_id p0) (Schema.user_id u)) as [_ | Hne].
    + subst p. by repeat split.
    + congruence.
  - intros p Hin Hne. apply in_map_iff. exists p. split; [| done].
    by rewrite (proj2 (String.eqb_neq _ _) Hne).
  - intros p Hin Hu. apply in_map_iff. exists p. split; [| done].
    by rewrite (proj2 (String.eqb_eq _ _) Hu).
Qed.

Lemma handleSaveProfile_writes_back_loaded_columns_witness :
  let result :=
    handleSaveProfile (Some Sample.alice) None
      (edited Sample.alice (Sample2.profile_row 500)
         [EditFullName "Alice A."; EditAge 31] Sample2.blank_profile_page)
      [Sample2.profile_row 800] in
  exists e,
    (forall p, In p (snd result) -> user_id p = "alice" ->
       p = e /\ total_points p = Some 500) /\
    In e (snd result).
Proof.
  intros result.
  destruct (handleSaveProfile_writes_back_loaded_columns Sample.alice
              (Sample2.profile_row 500) [EditFullName "Alice A."; EditAge 31]
              Sample2.blank_profile_page [Sample2.profile_row 800] eq_refl)
    as (e & _ & _ & _ & Hrows & _ & Hin).
  exists e. split.
  - intros p Hp Hu. destruct (Hrows p Hp Hu) as (? & _ & _ & ? & _). by split.
  - apply (Hin (Sample2.profile_row 800)); [by left | reflexivity].
Defined.

End ProfilePageFacts.

Lemma builder_workouts_average_zero_witness :
  Analytics.shown_average "alice" (WorkoutPage.db Sample.push_day_saved)
    Sample.no_replies Sample.blank_analytics = 0.
Proof.
  apply (builder_workouts_average_zero Sample.catalogue Sample.empty_db).
  - unfold Sample.push_day_saved, Sample.filled.
    repeat (apply WorkoutPage.reach_event; [| reflexivity]).
    apply WorkoutPage.reach_mounted.
  - constructor.
Defined.

Lemma workouts_tab_puts_viewer_first_witness :
  let board :=
    Leaderboard.topUsers
      (Leaderboard.fetchLeaderboardData (Some Sample.alice)
         (Some (Leaderboard.top50 (Schema.profiles Sample2.db_two_and_three)))
         (LeaderboardTabs.workouts_count (Schema.user_id Sample.alice)
            Sample2.db_two_and_three)
         Sample2.blank_board) in
  List.map (fun u => Schema.p_user_id (Leaderboard.profile u)) board
  = ["bob"; "alice"] /\
  List.map (fun u => Schema.p_user_id (Leaderboard.profile u))
    (LeaderboardTabs.by_workouts board)
  = ["alice"; "bob"] /\
  List.map Leaderboard.totalWorkouts (LeaderboardTabs.by_workouts board)
  = [2; 0].
Proof.
  intros board.
  pose proof (proj1 (workouts_tab_puts_viewer_first Sample.alice
                       Sample2.db_two_and_three
                       (Leaderboard.top50 (Schema.profiles Sample2.db_two_and_three))
                       Sample2.blank_board)) as H.
  cbv zeta in H. subst board. rewrite H by (vm_compute; reflexivity).
  repeat split.
Defined.

(** ** A saved workout on the analytics page *)

Section SavedAnalyticsFacts.
Import Schema WorkoutPage Builder Analytics AnalyticsStore.

Lemma count_default_zero (n : nat) :
  (if Z.of_nat n =? 0 then 0 else Z.of_nat n) = Z.of_nat n.
Proof. destruct (Z.eqb_spec (Z.of_nat n) 0); lia. Qed.

Lemma exercises_in_old ids workout_id l :
  Forall (fun r => we_workout_id r <> workout_id) l ->
  List.filter (fun r => existsb (String.eqb (we_workout_id r)) (ids ++ [workout_id])) l
  = List.filter (fun r => existsb (String.eqb (we_workout_id r)) ids) l.
Proof.
  intros Hl. apply List.filter_ext_in. intros r Hr.
  apply list_elem_of_In in Hr.
  pose proof (proj1 (Forall_forall _ _) Hl r Hr) as Hne.
  rewrite existsb_app. simpl.
  by rewrite (proj2 (String.eqb_neq _ _) Hne), !orb_false_r.
Qed.

Lemma exercises_in_new ids workout_id wes :
  List.filter
    (fun r => existsb (String.eqb (we_workout_id r)) (ids ++ [workout_id]))
    (workoutExerciseData workout_id wes)
  = workoutExerciseData workout_id wes.
Proof.
  rewrite workoutExerciseData_chosen.
  induction (chosen wes) as [|ex l IH]; [done |].
  cbn [List.map List.filter we_workout_id].
  rewrite existsb_app. cbn [existsb]. rewrite String.eqb_refl, orb_true_r.
  cbn [orb]. by rewrite IH.
Qed.

(** X23. A saved workout as the analytics page counts it: after a save the
    store accepts under a new workout id, the user's "Total Workouts" is one
    more, "Exercises Completed" is more by the number of entries that had
    an exercise chosen, and "Personal Bests" and the two streaks are what
    they were. *)
Theorem saved_workout_on_analytics u r w workout_id s :
  JS.truthy_string (JS.trim (workoutName (page w))) = true ->
  workoutExercises (page w) <> [] ->
  workout_reply r = inl workout_id -> exercises_reply r = None ->
  fresh_workout_id workout_id (db w) ->
  let before := shown (user_id u) (db w) s in
  let after := shown (user_id u) (db (saveWorkout (Some u) r w)) s in
  totalWorkouts after = totalWorkouts before + 1 /\
  totalExercises after
  = totalExercises before
    + Z.of_nat (length (chosen (workoutExercises (page w)))) /\
  personalBests after = personalBests before /\
  currentStreak after = currentStreak before /\
  longestStreak after = longestStreak before.
Proof.
  intros Hn Hne Hr He [Hfw Hfe] before after.
  assert (can_save (Some u) (page w) = true) as Hc.
  { unfold can_save. rewrite Hn. by destruct (workoutExercises (page w)). }
  subst before after. rewrite (saveWorkout_unguarded _ _ _ Hc), Hr, He.
  cbv zeta. unfold shown, fetchAnalyticsData.
  cbn [totalWorkouts totalExercises personalBests currentStreak longestStreak
       workouts_count workout_exercises_rows personal_bests_count db
       fmap option_fmap option_map default].
  split; [| split; [| by repeat split]].
  - unfold count_workouts. cbn [workouts with_workouts with_workout_exercises].
    rewrite List.filter_app, length_app. cbn [List.filter w_user_id].
    rewrite String.eqb_refl. unfold Datatypes.id. simpl length. lia.
  - unfold select_exercises_in, select_workout_ids, Datatypes.id.
    cbn [workouts workout_exercises with_workouts with_workout_exercises].
    rewrite !length_map.
    rewrite (List.filter_app _ (workouts (db w))), List.map_app.
    cbn [List.filter w_user_id]. rewrite String.eqb_refl.
    cbn [List.map w_id].
    rewrite List.filter_app, length_app.
    rewrite exercises_in_old by done. rewrite exercises_in_new.
    rewrite workoutExerciseData_chosen, length_map. lia.
Qed.

End SavedAnalyticsFacts.

Lemma saved_workout_on_analytics_witness :
  let w := Sample.filled Sample.empty_db "Push Day" in
  let after :=
    AnalyticsStore.shown (Schema.user_id Sample.alice)
      (WorkoutPage.db (WorkoutPage.saveWorkout (Some Sample.alice) Sample.both_ok w))
      Sample.blank_analytics in
  Analytics.totalWorkouts after = 1 /\ Analytics.totalExercises after = 1.
Proof.
  intros w after. subst after.
  destruct (saved_workout_on_analytics Sample.alice Sample.both_ok w "w1"
              Sample.blank_analytics eq_refl ltac:(discriminate) eq_refl eq_refl
              ltac:(split; constructor))
    as (H1 & H2 & _).
  cbv zeta in H1, H2. split; [rewrite H1 | rewrite H2]; reflexivity.
Defined.
